(** * Excel File Merger & Analyzer: a shallow embedding of [streamlit_app.py]

    The program reads the uploaded workbooks with pandas, merges them,
    renames and projects four columns, truncates the registry number,
    coerces the grade to a number and shows two grouped summaries.

    pandas objects are modelled by the part of their behaviour the program
    relies on:
    - a Python [str] is its sequence of Unicode code points;
    - a cell is a blank (NaN), an integer, a float (its exact rational
      value; rounding of floating-point arithmetic is never used by the
      program, which only compares grades with 5) or a text;
    - a [DataFrame] has a list of column labels, in which a label may occur
      more than once, and rows of cells;
    - [st.session_state] holds references into a store of frames, so that
      two names for one frame see each other's in-place updates;
    - the library is pandas 2: [astype(str)] renders NaN as the text "nan",
      [groupby] drops NaN keys and lists the others in sorted order, and
      [df[labels]] returns every column that carries a requested label.

    Line numbers refer to [streamlit_app.py].  The progress bar, the status
    line and the export cache are display matters and are left out. *)

From Stdlib Require Import List ZArith QArith Bool Lia Arith PeanoNat SetoidList Permutation.
From Stdlib Require String Ascii DecimalString.
Import ListNotations.
Import String.StringSyntax.
Delimit Scope string_scope with string.

Local Open Scope nat_scope.

(** ** Python strings *)

Definition pystr := list N.

(** An ASCII literal as a Python string. *)
Definition txt (s : String.string) : pystr :=
  map Ascii.N_of_ascii (String.list_ascii_of_string s).
Arguments txt s%_string.

Fixpoint pystr_eqb (a b : pystr) : bool :=
  match a, b with
  | [], [] => true
  | x :: a', y :: b' => N.eqb x y && pystr_eqb a' b'
  | _, _ => false
  end.

(** [str(n)] for a Python int. *)
Definition int_str (z : Z) : pystr :=
  txt (DecimalString.NilZero.string_of_int (Z.to_int z)).

(** [s[:3]] *)
Definition slice3 (s : pystr) : pystr := firstn 3 s.

(** ** Column names (lines 46-66) *)

(* "Περίοδος δήλωσης" *)
Definition ORIGINAL_PERIODOS : pystr :=
  [928; 949; 961; 943; 959; 948; 959; 962; 32; 948; 942; 955; 969; 963; 951; 962]%N.
(* "Τμήμα Τάξης" *)
Definition ORIGINAL_TMIMA : pystr :=
  [932; 956; 942; 956; 945; 32; 932; 940; 958; 951; 962]%N.
(* "Αριθμός Μητρώου" *)
Definition ORIGINAL_MITROO : pystr :=
  [913; 961; 953; 952; 956; 972; 962; 32; 924; 951; 964; 961; 974; 959; 965]%N.
(* "Βαθμολογία" *)
Definition ORIGINAL_GRADE : pystr :=
  [914; 945; 952; 956; 959; 955; 959; 947; 943; 945]%N.

(* "Περίοδος" *)
Definition PERIODOS_COLUMN : pystr :=
  [928; 949; 961; 943; 959; 948; 959; 962]%N.
(* "Μάθημα" *)
Definition TMIMA_COLUMN : pystr := [924; 940; 952; 951; 956; 945]%N.
(* "Έτος Εγγραφής" *)
Definition MITROO_COLUMN : pystr :=
  [904; 964; 959; 962; 32; 917; 947; 947; 961; 945; 966; 942; 962]%N.
(* "Βαθμολογία", remains the same *)
Definition GRADE_COLUMN : pystr := ORIGINAL_GRADE.

Definition FIXED_COLUMNS : list pystr :=
  [PERIODOS_COLUMN; TMIMA_COLUMN; MITROO_COLUMN; GRADE_COLUMN].

Definition RENAME_DICT : list (pystr * pystr) :=
  [ (ORIGINAL_PERIODOS, PERIODOS_COLUMN);
    (ORIGINAL_TMIMA, TMIMA_COLUMN);
    (ORIGINAL_MITROO, MITROO_COLUMN) ].

Definition required_original_cols : list pystr :=
  [ORIGINAL_PERIODOS; ORIGINAL_TMIMA; ORIGINAL_MITROO; ORIGINAL_GRADE].

(** ** Cells *)

Inductive cell : Type :=
| CNull                 (* NaN: a blank cell, or a failed numeric parse *)
| CInt (z : Z)
| CFloat (q : Q)
| CText (s : pystr).

Definition is_null (c : cell) : bool :=
  match c with CNull => true | _ => false end.

Definition is_text (c : cell) : bool :=
  match c with CText _ => true | _ => false end.

Definition num_val (c : cell) : option Q :=
  match c with
  | CInt z => Some (inject_Z z)
  | CFloat q => Some q
  | _ => None
  end.

(** Equality as pandas' hash tables see it ([unique], [isin], [groupby]):
    numbers by value ([1 == 1.0]), texts by content, and NaN equal to NaN. *)
Definition py_eqb (a b : cell) : bool :=
  match a, b with
  | CNull, CNull => true
  | CText s, CText t => pystr_eqb s t
  | _, _ =>
      match num_val a, num_val b with
      | Some x, Some y => Qeq_bool x y
      | _, _ => false
      end
  end.

(** ** Data frames *)

Record DataFrame : Type := mkDF {
  columns : list pystr;
  rows : list (list cell)
}.

(** [col in df.columns] *)
Definition has_column (df : DataFrame) (col : pystr) : bool :=
  existsb (pystr_eqb col) (columns df).

(** [df.empty]: some axis has length 0. *)
Definition df_empty (df : DataFrame) : bool :=
  (length (columns df) =? 0) || (length (rows df) =? 0).

(** The positions at which a label occurs, counted from [i]. *)
Fixpoint positions_from (i : nat) (col : pystr) (cols : list pystr) : list nat :=
  match cols with
  | [] => []
  | c :: cols' =>
      if pystr_eqb col c then i :: positions_from (S i) col cols'
      else positions_from (S i) col cols'
  end.

Definition positions (col : pystr) (cols : list pystr) : list nat :=
  positions_from 0 col cols.

Definition cell_at (j : nat) (r : list cell) : cell := nth j r CNull.

Definition column_at (j : nat) (rs : list (list cell)) : list cell :=
  map (cell_at j) rs.

(** [df[col]] where a Series is needed: the label must occur exactly once
    (absent: KeyError; repeated: pandas returns a DataFrame, on which the
    Series operations the program applies next raise). *)
Definition getitem (df : DataFrame) (col : pystr) : option (list cell) :=
  match positions col (columns df) with
  | [j] => Some (column_at j (rows df))
  | _ => None
  end.

(** [df[keys]] for a list of labels: every label must be present; a label
    that occurs several times selects each of its columns. *)
Definition take (idx : list nat) (df : DataFrame) : DataFrame :=
  {| columns := map (fun j => nth j (columns df) []) idx;
     rows := map (fun r => map (fun j => cell_at j r) idx) (rows df) |}.

Definition getitem_list (df : DataFrame) (keys : list pystr) : option DataFrame :=
  if forallb (has_column df) keys
  then Some (take (flat_map (fun k => positions k (columns df)) keys) df)
  else None.

Fixpoint set_nth {A : Type} (j : nat) (x : A) (l : list A) : list A :=
  match l, j with
  | [], _ => []
  | _ :: l', O => x :: l'
  | y :: l', S j' => y :: set_nth j' x l'
  end.

Fixpoint set_column (j : nat) (vals : list cell) (rs : list (list cell))
  : list (list cell) :=
  match rs, vals with
  | r :: rs', v :: vals' => set_nth j v r :: set_column j vals' rs'
  | _, _ => rs
  end.

(** [df[col] = vals] for a label that occurs exactly once. *)
Definition setitem (df : DataFrame) (col : pystr) (vals : list cell)
  : option DataFrame :=
  match positions col (columns df) with
  | [j] => Some {| columns := columns df; rows := set_column j vals (rows df) |}
  | _ => None
  end.

(** *** dtype inference

    A column without text that holds a float or a blank is a float64
    column: its integers are floats too.  A column of integers only is
    int64, and a column with text keeps every value as it is (object). *)
Definition needs_float (c : cell) : bool :=
  match c with CFloat _ | CNull => true | _ => false end.

Definition float_dtype (cs : list cell) : bool :=
  forallb (fun c => negb (is_text c)) cs && existsb needs_float cs.

Definition as_float (c : cell) : cell :=
  match c with CInt z => CFloat (inject_Z z) | _ => c end.

Fixpoint upcast_row (mask : list bool) (r : list cell) : list cell :=
  match mask, r with
  | b :: mask', c :: r' => (if b then as_float c else c) :: upcast_row mask' r'
  | _, _ => r
  end.

Definition infer_dtypes (df : DataFrame) : DataFrame :=
  let mask := map (fun j => float_dtype (column_at j (rows df)))
                  (seq 0 (length (columns df))) in
  {| columns := columns df; rows := map (upcast_row mask) (rows df) |}.

(** *** [pd.concat(dataframes, ignore_index=True)]

    The columns are the union of the frames' columns in order of first
    appearance; the rows follow frame by frame, with NaN where a frame
    lacks a column. *)
Definition add_columns (acc cols : list pystr) : list pystr :=
  fold_left (fun a c => if existsb (pystr_eqb c) a then a else a ++ [c]) cols acc.

Definition union_columns (dfs : list DataFrame) : list pystr :=
  fold_left (fun acc df => add_columns acc (columns df)) dfs [].

Definition lookup_cell (df : DataFrame) (r : list cell) (col : pystr) : cell :=
  match positions col (columns df) with
  | j :: _ => cell_at j r
  | [] => CNull
  end.

Definition reindex (cols : list pystr) (df : DataFrame) : list (list cell) :=
  map (fun r => map (lookup_cell df r) cols) (rows df).

Definition concat (dfs : list DataFrame) : DataFrame :=
  let cols := union_columns dfs in
  infer_dtypes {| columns := cols; rows := flat_map (reindex cols) dfs |}.

(** *** [df.rename(columns=d)] *)
Fixpoint dict_get (d : list (pystr * pystr)) (k : pystr) : option pystr :=
  match d with
  | [] => None
  | (k', v) :: d' => if pystr_eqb k k' then Some v else dict_get d' k
  end.

Definition rename_label (d : list (pystr * pystr)) (c : pystr) : pystr :=
  match dict_get d c with Some v => v | None => c end.

Definition rename (d : list (pystr * pystr)) (df : DataFrame) : DataFrame :=
  {| columns := map (rename_label d) (columns df); rows := rows df |}.

(** ** The library's text conversions

    Two conversions belong to pandas and Python, not to the program, and
    are taken as an interface: the text of a float ([str(x)], the shortest
    decimal that reads back as [x]) and the numeric parse that
    [pd.to_numeric] applies to a text ([None] when the text is not a
    number; a text that parses to an infinity is outside the model). *)
Class PandasText : Type := {
  float_str : Q -> pystr;
  parse_number : pystr -> option Q
}.

(** ** Uploaded files and [pd.read_excel(f, header=0, skiprows=1)]

    The codec hands over the sheet as rows of cells, or fails on a file
    that it cannot read ([sheet = None]: [read_excel] raises). *)
Record UploadedFile : Type := mkFile {
  name : pystr;
  sheet : option (list (list cell))
}.

Definition unnamed (i : nat) : pystr :=
  txt "Unnamed: " ++ txt (DecimalString.NilEmpty.string_of_uint (Nat.to_uint i)).

(** The header row gives the labels; a blank header cell is named after
    its position.  (pandas also renames a repeated header, X to X.1 and
    so on; this is not modelled: the development speaks of sheets whose
    header has no repetition.) *)
Fixpoint header_labels (i : nat) (hdr : list cell) : list pystr :=
  match hdr with
  | [] => []
  | c :: hdr' =>
      match c with CText s => s | _ => unnamed i end :: header_labels (S i) hdr'
  end.

Fixpoint fit (n : nat) (r : list cell) : list cell :=
  match n with
  | O => []
  | S n' =>
      match r with
      | [] => CNull :: fit n' []
      | c :: r' => c :: fit n' r'
      end
  end.

Definition read_excel (f : UploadedFile) : option DataFrame :=
  match sheet f with
  | None => None
  | Some rs =>
      match skipn 1 rs with
      | [] => Some {| columns := []; rows := [] |}
      | hdr :: recs =>
          Some (infer_dtypes {| columns := header_labels 0 hdr;
                                rows := map (fit (length hdr)) recs |})
      end
  end.

(** ** Session state, frame store and messages *)

Record SessionState : Type := mkSession {
  combined_df : option nat;
  processed_df : option nat
}.

Inductive message : Type :=
| StatusReading (file : pystr)               (* line 109 *)
| WarnMissingOriginal (file : pystr)         (* line 119 *)
| WarnNoDataInFile (file : pystr)            (* line 125 *)
| ErrorProcessingFile (file : pystr)         (* line 128 *)
| SuccessMerged                              (* line 139 *)
| SuccessRenamed                             (* line 144 *)
| ErrorMissingColumns (missing : list pystr) (* line 153 *)
| SuccessProcessed                           (* line 168 *)
| WarnNoDataExtracted                        (* line 173 *)
| ErrorStopped                               (* line 177 *)
| ErrorUnexpected.                           (* line 186 *)

Record World : Type := mkWorld {
  heap : list DataFrame;
  session : SessionState;
  messages : list message
}.

Definition no_frame : DataFrame := {| columns := []; rows := [] |}.

Definition deref (w : World) (r : nat) : DataFrame := nth r (heap w) no_frame.

Definition alloc (df : DataFrame) (w : World) : nat * World :=
  (length (heap w),
   {| heap := heap w ++ [df]; session := session w; messages := messages w |}).

Definition store (r : nat) (df : DataFrame) (w : World) : World :=
  {| heap := set_nth r df (heap w); session := session w; messages := messages w |}.

Definition say (m : message) (w : World) : World :=
  {| heap := heap w; session := session w; messages := messages w ++ [m] |}.

Definition set_combined (v : option nat) (w : World) : World :=
  {| heap := heap w;
     session := {| combined_df := v; processed_df := processed_df (session w) |};
     messages := messages w |}.

Definition set_processed (v : option nat) (w : World) : World :=
  {| heap := heap w;
     session := {| combined_df := combined_df (session w); processed_df := v |};
     messages := messages w |}.

(** ** Reading the files (lines 107-132) *)

Record Locals : Type := mkLocals {
  dataframes : list DataFrame;
  error_occurred : bool
}.

Definition read_file (st : Locals * World) (f : UploadedFile) : Locals * World :=
  let (l, w) := st in
  let w := say (StatusReading (name f)) w in
  match read_excel f with
  | None =>
      ({| dataframes := dataframes l; error_occurred := true |},
       say (ErrorProcessingFile (name f)) w)
  | Some df =>
      if negb (forallb (has_column df) required_original_cols)
      then (l, say (WarnMissingOriginal (name f)) w)
      else if negb (df_empty df)
      then ({| dataframes := dataframes l ++ [df];
               error_occurred := error_occurred l |}, w)
      else (l, say (WarnNoDataInFile (name f)) w)
  end.

Definition read_files (uploaded_files : list UploadedFile) (w : World)
  : Locals * World :=
  fold_left read_file uploaded_files
            ({| dataframes := []; error_occurred := false |}, w).

(** ** Projection and the two field transforms (lines 158-168) *)

Inductive outcome : Type :=
| Done (w : World)
| Raised (w : World).

Section Transform.
Context `{PandasText}.

(** [str(x)] of a cell: [astype(str)] turns NaN into the text "nan". *)
Definition py_str (c : cell) : pystr :=
  match c with
  | CNull => txt "nan"
  | CInt z => int_str z
  | CFloat q => float_str q
  | CText s => s
  end.

(** [.astype(str).str[:3]] on one value *)
Definition enrollment_prefix (c : cell) : cell := CText (slice3 (py_str c)).

Definition to_numeric_cell (c : cell) : cell :=
  match c with
  | CText s =>
      match parse_number s with
      | Some q => CFloat q
      | None => CNull
      end
  | _ => c
  end.

(** [pd.to_numeric(s, errors='coerce')]: the result is a numeric column
    (only the values matter to what follows). *)
Definition to_numeric (cs : list cell) : list cell :=
  let cs' := map to_numeric_cell cs in
  if float_dtype cs' then map as_float cs' else cs'.

Definition select_and_process (r : nat) (w : World) : outcome :=
  match getitem_list (deref w r) FIXED_COLUMNS with
  | None => Raised w
  | Some selected =>
      let (p, w) := alloc selected w in                     (* .copy() *)
      match getitem (deref w p) MITROO_COLUMN with
      | None => Raised w
      | Some mitroo =>
          match setitem (deref w p) MITROO_COLUMN (map enrollment_prefix mitroo) with
          | None => Raised w
          | Some df1 =>
              let w := store p df1 w in
              match getitem (deref w p) GRADE_COLUMN with
              | None => Raised w
              | Some grade =>
                  match setitem (deref w p) GRADE_COLUMN (to_numeric grade) with
                  | None => Raised w
                  | Some df2 =>
                      let w := store p df2 w in
                      Done (say SuccessProcessed (set_processed (Some p) w))
                  end
              end
          end
      end
  end.

(** ** Merging, renaming and the outcome of the batch (lines 134-178) *)

Definition merge_and_process (l : Locals) (w : World) : outcome :=
  match dataframes l, error_occurred l with
  | _ :: _, false =>
      let (r, w) := alloc (concat (dataframes l)) w in      (* combined_df_temp *)
      let w := set_combined (Some r) w in
      let w := say SuccessMerged w in
      let w := store r (rename RENAME_DICT (deref w r)) w in (* inplace=True *)
      let w := say SuccessRenamed w in
      let missing_cols :=
        filter (fun col => negb (has_column (deref w r) col)) FIXED_COLUMNS in
      match missing_cols with
      | _ :: _ =>
          Done (set_processed None (say (ErrorMissingColumns missing_cols) w))
      | [] => select_and_process r w
      end
  | [], false =>
      Done (set_processed None (set_combined None (say WarnNoDataExtracted w)))
  | _, true =>
      Done (set_processed None (say ErrorStopped w))
  end.

(** ** Processing an upload (lines 90-192) *)

Definition process_uploads (uploaded_files : list UploadedFile) (w : World) : World :=
  match uploaded_files, processed_df (session w) with
  | _ :: _, None =>
      let w := set_processed None (set_combined None w) in
      let (l, w) := read_files uploaded_files w in
      match merge_and_process l w with
      | Done w => w
      | Raised w =>
          set_processed None (set_combined None (say ErrorUnexpected w))
      end
  | _, _ => w
  end.

End Transform.

(** ** Distinct values, Python's [sorted] and the checkbox grid
       (lines 205-224 and 258-277) *)

(** [Series.unique()]: the distinct values in order of first appearance. *)
Fixpoint unique_from (seen : list cell) (cs : list cell) : list cell :=
  match cs with
  | [] => []
  | c :: cs' =>
      if existsb (py_eqb c) seen then unique_from seen cs'
      else c :: unique_from (c :: seen) cs'
  end.

Definition unique (cs : list cell) : list cell := unique_from [] cs.

Fixpoint pystr_ltb (a b : pystr) : bool :=
  match a, b with
  | _, [] => false
  | [], _ :: _ => true
  | x :: a', y :: b' => N.ltb x y || (N.eqb x y && pystr_ltb a' b')
  end.

(** Python's [a < b] on the values [tolist()] returns: numbers compare by
    value (everything compared with NaN is false), texts by code points,
    and a text against a number raises TypeError ([None]). *)
Definition py_lt (a b : cell) : option bool :=
  match a, b with
  | CText s, CText t => Some (pystr_ltb s t)
  | CText _, _ | _, CText _ => None
  | _, _ =>
      match num_val a, num_val b with
      | Some x, Some y => Some (negb (Qle_bool y x))
      | _, _ => Some false
      end
  end.

(** [sorted(l)], as a stable insertion sort on [<].  It raises exactly when
    Python's sort does (when it has to compare a text with a number); on
    values that [<] orders it returns the one sorted list. *)
Fixpoint py_insert (x : cell) (l : list cell) : option (list cell) :=
  match l with
  | [] => Some [x]
  | y :: l' =>
      match py_lt y x with
      | None => None
      | Some true => option_map (cons y) (py_insert x l')
      | Some false => Some (x :: l)
      end
  end.

Fixpoint sorted (l : list cell) : option (list cell) :=
  match l with
  | [] => Some []
  | x :: l' =>
      match sorted l' with
      | None => None
      | Some s => py_insert x s
      end
  end.

(** [sorted(df[col].unique().tolist())] *)
Definition options_of (df : DataFrame) (col : pystr) : option (list cell) :=
  match getitem df col with
  | None => None
  | Some s => sorted (unique s)
  end.

Definition cols_per_row : nat := 4.

(** One checkbox slot of the grid: [option_index] and the selection so far. *)
Definition grid_slot (options : list cell) (ticked : cell -> bool)
  (st : nat * list cell) (j : nat) : nat * list cell :=
  let (option_index, selected) := st in
  if option_index <? length options then
    let option := nth option_index options CNull in
    (S option_index, if ticked option then selected ++ [option] else selected)
  else st.

Definition grid_row (options : list cell) (ticked : cell -> bool)
  (st : nat * list cell) (i : nat) : nat * list cell :=
  fold_left (grid_slot options ticked) (seq 0 cols_per_row) st.

(** The two nested loops; [num_rows = math.ceil(n / 4)]. *)
Definition checkbox_grid (options : list cell) (ticked : cell -> bool) : list cell :=
  let num_rows := (length options + (cols_per_row - 1)) / cols_per_row in
  snd (fold_left (grid_row options ticked) (seq 0 num_rows) (0, [])).

(** ** Filtering: [df[df[col].isin(values)]] *)

Definition isin (cs values : list cell) : list bool :=
  map (fun c => existsb (py_eqb c) values) cs.

Fixpoint mask_rows (mask : list bool) (rs : list (list cell)) : list (list cell) :=
  match mask, rs with
  | b :: mask', r :: rs' => if b then r :: mask_rows mask' rs' else mask_rows mask' rs'
  | _, _ => []
  end.

Definition filter_isin (df : DataFrame) (col : pystr) (values : list cell)
  : option DataFrame :=
  match getitem df col with
  | None => None
  | Some s => Some {| columns := columns df; rows := mask_rows (isin s values) (rows df) |}
  end.

(** ** The aggregation (lines 235-241 and 291) *)

Record SummaryRow : Type := mkSummary {
  key : cell;
  enrolled : nat;       (* 'Εγγεγραμμένοι' *)
  participated : nat;   (* 'Συμμετείχαν' *)
  passed : nat          (* 'Επιτυχόντες' *)
}.

(** The order in which [groupby] (sort=True) lists its keys: numbers by
    value, then texts by code points. *)
Definition key_leb (a b : cell) : bool :=
  match a, b with
  | CText s, CText t => negb (pystr_ltb t s)
  | CText _, _ => false
  | _, CText _ => true
  | _, _ =>
      match num_val a, num_val b with
      | Some x, Some y => Qle_bool x y
      | _, _ => true
      end
  end.

Fixpoint key_insert (x : cell) (l : list cell) : list cell :=
  match l with
  | [] => [x]
  | y :: l' => if key_leb x y then x :: l else y :: key_insert x l'
  end.

Definition key_sort (l : list cell) : list cell := fold_right key_insert [] l.

(** The group keys: the distinct values of the key column, NaN dropped
    (dropna=True). *)
Definition group_keys (ks : list cell) : list cell :=
  key_sort (unique (filter (fun c => negb (is_null c)) ks)).

(** The values of series [s] in the rows whose key is [k]. *)
Definition group_of (k : cell) (ks s : list cell) : list cell :=
  map snd (filter (fun p => py_eqb (fst p) k) (combine ks s)).

(** ['size'] *)
Definition agg_size (x : list cell) : nat := length x.

(** ['count']: the values that are not NaN. *)
Definition agg_count (x : list cell) : nat :=
  length (filter (fun c => negb (is_null c)) x).

(** [x >= 5] on one value: false on NaN, TypeError on a text. *)
Definition ge5 (c : cell) : option bool :=
  match c with
  | CNull => Some false
  | CInt z => Some (5 <=? z)%Z
  | CFloat q => Some (Qle_bool (inject_Z 5) q)
  | CText _ => None
  end.

(** [lambda x: (x >= 5).sum()] *)
Fixpoint agg_passed (x : list cell) : option nat :=
  match x with
  | [] => Some 0
  | c :: x' =>
      match ge5 c, agg_passed x' with
      | Some b, Some n => Some ((if b then 1 else 0) + n)
      | _, _ => None
      end
  end.

Definition summary_row (ks tmima grade : list cell) (k : cell) : option SummaryRow :=
  match agg_passed (group_of k ks grade) with
  | None => None
  | Some p =>
      Some {| key := k;
              enrolled := agg_size (group_of k ks tmima);
              participated := agg_count (group_of k ks grade);
              passed := p |}
  end.

Fixpoint all_some {A : Type} (l : list (option A)) : option (list A) :=
  match l with
  | [] => Some []
  | None :: _ => None
  | Some x :: l' => option_map (cons x) (all_some l')
  end.

(** [df.groupby(by).agg(...).reset_index()] with the three named aggregations *)
Definition groupby_agg (df : DataFrame) (by_ : pystr) : option (list SummaryRow) :=
  match getitem df by_, getitem df TMIMA_COLUMN, getitem df GRADE_COLUMN with
  | Some ks, Some tmima, Some grade =>
      all_some (map (summary_row ks tmima grade) (group_keys ks))
  | _, _, _ => None
  end.

(** ** The two analysis steps (lines 197-313) *)

Inductive Level2 : Type :=
| AwaitingTmimata                            (* line 308 *)
| NoDataForBoth                              (* line 306 *)
| SummaryByMitroo (mitroo_agg : list SummaryRow).

Inductive Level1 : Type :=
| AwaitingPeriodoi                           (* line 313 *)
| NoDataForPeriodoi                          (* line 311 *)
| SummaryByTmima (tmima_agg : list SummaryRow) (step2 : Level2).

Definition is_nil {A : Type} (l : list A) : bool :=
  match l with [] => true | _ => false end.

(** Step 2, on the rows kept by step 1; [None] is an uncaught exception. *)
Definition analyse_tmimata (df_filtered_by_periodos : DataFrame)
  (ticked_t : cell -> bool) : option Level2 :=
  match options_of df_filtered_by_periodos TMIMA_COLUMN with
  | None => None
  | Some tmima_options =>
      let selected_tmimata := checkbox_grid tmima_options ticked_t in
      if is_nil selected_tmimata then Some AwaitingTmimata
      else
        match filter_isin df_filtered_by_periodos TMIMA_COLUMN selected_tmimata with
        | None => None
        | Some df_filtered_by_both =>
            if df_empty df_filtered_by_both then Some NoDataForBoth
            else option_map SummaryByMitroo
                            (groupby_agg df_filtered_by_both MITROO_COLUMN)
        end
  end.

Definition analyse (processed : DataFrame) (ticked_p ticked_t : cell -> bool)
  : option Level1 :=
  match options_of processed PERIODOS_COLUMN with
  | None => None
  | Some periodos_options =>
      let selected_periodoi := checkbox_grid periodos_options ticked_p in
      if is_nil selected_periodoi then Some AwaitingPeriodoi
      else
        match filter_isin processed PERIODOS_COLUMN selected_periodoi with
        | None => None
        | Some df_filtered_by_periodos =>
            if df_empty df_filtered_by_periodos then Some NoDataForPeriodoi
            else
              match groupby_agg df_filtered_by_periodos TMIMA_COLUMN,
                    analyse_tmimata df_filtered_by_periodos ticked_t with
              | Some tmima_agg, Some step2 => Some (SummaryByTmima tmima_agg step2)
              | _, _ => None
              end
        end
  end.

(** ** A decimal instance of the text conversions

    Plain decimal notation: [str] of a float prints the integer part, a
    point and the fraction digits (at least one); a text parses as a number
    when it is an optional sign, digits and an optional fraction. *)

Fixpoint frac_digits (fuel : nat) (num den : Z) : pystr :=
  match fuel with
  | O => []
  | S fuel' =>
      if (num =? 0)%Z then []
      else Z.to_N (48 + (10 * num) / den) :: frac_digits fuel' ((10 * num) mod den) den
  end.

Definition decimal_float_str (q : Q) : pystr :=
  let n := Z.abs (Qnum q) in
  let d := Zpos (Qden q) in
  (if (Qnum q <? 0)%Z then txt "-" else []) ++
  int_str (n / d) ++ txt "." ++
  match frac_digits 17 (n mod d) d with
  | [] => txt "0"
  | ds => ds
  end.

Definition digit (c : N) : option Z :=
  if ((48 <=? c) && (c <=? 57))%N then Some (Z.of_N c - 48)%Z else None.

(** The value and the number of the digits of [s]; [None] on another
    character. *)
Fixpoint digits_value (acc : Z) (n : nat) (s : pystr) : option (Z * nat) :=
  match s with
  | [] => Some (acc, n)
  | c :: s' =>
      match digit c with
      | Some d => digits_value (10 * acc + d) (S n) s'
      | None => None
      end
  end.

Fixpoint split_point (s : pystr) : pystr * option pystr :=
  match s with
  | [] => ([], None)
  | c :: s' =>
      if (c =? 46)%N then ([], Some s')
      else let (a, b) := split_point s' in (c :: a, b)
  end.

Definition parse_unsigned (s : pystr) : option Q :=
  let (ip, fp) := split_point s in
  match digits_value 0 0 ip, fp with
  | Some (i, S _), None => Some (inject_Z i)
  | Some (i, ni), Some f =>
      match digits_value 0 0 f with
      | Some (fv, nf) =>
          if ni + nf =? 0 then None
          else Some (inject_Z i + (fv # (10 ^ Pos.of_nat nf)))%Q
      | None => None
      end
  | _, _ => None
  end.

Definition decimal_parse (s : pystr) : option Q :=
  match s with
  | 45%N :: s' => option_map Qopp (parse_unsigned s')
  | 43%N :: s' => parse_unsigned s'
  | _ => parse_unsigned s
  end.

#[export] Instance decimal_text : PandasText :=
  {| float_str := decimal_float_str; parse_number := decimal_parse |}.

(** ** Vocabulary of the specification *)

(** A file is accepted when it is read, has the four original columns and
    has rows: its frame is appended to [dataframes]. *)
Definition accepted (f : UploadedFile) : bool :=
  match read_excel f with
  | Some df => forallb (has_column df) required_original_cols && negb (df_empty df)
  | None => false
  end.

Definition frame_of (f : UploadedFile) : DataFrame :=
  match read_excel f with
  | Some df => df
  | None => no_frame
  end.

Definition unreadable (f : UploadedFile) : bool :=
  match sheet f with None => true | Some _ => false end.

(** The records of a sheet: its rows other than the header line, the
    discarded leading row included. *)
Definition data_records (f : UploadedFile) : nat :=
  match sheet f with
  | Some rs => length rs - 1
  | None => 0
  end.

(** The rows of the frames, each with the frame it comes from, in the
    order of the frames and, within a frame, of its rows. *)
Definition records_in_order (dfs : list DataFrame) : list (DataFrame * list cell) :=
  flat_map (fun df => map (fun r => (df, r)) (rows df)) dfs.

(** A row of the merged table carries the values of a source row. *)
Definition same_record (merged : DataFrame) (r : list cell)
  (src : DataFrame * list cell) : Prop :=
  forall col, In col (columns (fst src)) ->
    py_eqb (lookup_cell merged r col) (lookup_cell (fst src) (snd src) col) = true.

(** Two keys are the same group key. *)
Definition key_eq (a b : cell) : Prop := py_eqb a b = true.

(** The three counts in the words of the specification, on the rows seen
    as pairs of a key value and a grade. *)
Definition in_group (k : cell) (row : cell * cell) : bool := py_eqb (fst row) k.

Definition at_least_5 (g : cell) : bool :=
  match num_val g with
  | Some q => Qle_bool (inject_Z 5) q
  | None => false
  end.

Definition took_part (k : cell) (row : cell * cell) : bool :=
  in_group k row && negb (is_null (snd row)).

Definition has_passed (k : cell) (row : cell * cell) : bool :=
  took_part k row && at_least_5 (snd row).

Definition count_rows (p : cell * cell -> bool) (ks grade : list cell) : nat :=
  length (filter p (combine ks grade)).


(** What the reading loop says about one file. *)
Definition file_messages (f : UploadedFile) : list message :=
  StatusReading (name f) ::
  match read_excel f with
  | None => [ErrorProcessingFile (name f)]
  | Some df =>
      if negb (forallb (has_column df) required_original_cols)
      then [WarnMissingOriginal (name f)]
      else if negb (df_empty df) then []
      else [WarnNoDataInFile (name f)]
  end.

(** The merged table after the in-place renaming, and the state in which
    it has just been stored and renamed (line 144). *)
Definition renamed_merge (dfs : list DataFrame) : DataFrame :=
  rename RENAME_DICT (concat dfs).

Definition merged_world (l : Locals) (w : World) : World :=
  {| heap := heap w ++ [renamed_merge (dataframes l)];
     session := {| combined_df := Some (length (heap w));
                   processed_df := processed_df (session w) |};
     messages := messages w ++ [SuccessMerged; SuccessRenamed] |}.

(** The same state with earlier messages in front. *)
Definition add_messages (pre : list message) (w : World) : World :=
  {| heap := heap w; session := session w; messages := pre ++ messages w |}.


(** The end of the [try] block: an exception clears the session state
    (lines 184-192). *)
Definition finish (o : outcome) : World :=
  match o with
  | Done w => w
  | Raised w => set_processed None (set_combined None (say ErrorUnexpected w))
  end.

(** The invariant of the checkbox loops: the options before
    [option_index] have been offered, and the ticked ones selected in
    order. *)
Definition grid_inv (options : list cell) (ticked : cell -> bool)
  (st : nat * list cell) : Prop :=
  fst st <= length options /\ snd st = filter ticked (firstn (fst st) options).

(** ** Example inputs *)

Definition T (s : String.string) : cell := CText (txt s).
Arguments T s%_string.

(** A processed table of three rows; the second has no grade. *)
Definition example_table : DataFrame :=
  {| columns := FIXED_COLUMNS;
     rows := [ [T "2023A"; T "Math"; T "202"; CFloat (15 # 2)];
               [T "2023A"; T "Math"; T "202"; CNull];
               [T "2023B"; T "Phys"; T "201"; CFloat 4] ] |}.

(** An empty value: a blank cell or an empty text. *)
Definition is_empty_value (c : cell) : bool :=
  match c with
  | CNull | CText [] => true
  | _ => false
  end.

(** A session in which nothing has been uploaded yet. *)
Definition fresh : World :=
  {| heap := [];
     session := {| combined_df := None; processed_df := None |};
     messages := [] |}.

Definition header4 : list cell := map CText required_original_cols.

(** A workbook with the four original columns and a fifth column that is
    already called "Περίοδος". *)
Definition clash_file : UploadedFile :=
  {| name := txt "grades.xlsx";
     sheet := Some [ [T "Report"];
                     header4 ++ [CText PERIODOS_COLUMN];
                     [T "2023A"; T "Math"; CInt 2023001234; CFloat (15 # 2); T "spring"] ] |}.

(** Two workbooks with the four original columns (the first with a
    comment column besides), each with a leading row, the header and two
    records. *)
Definition file_a : UploadedFile :=
  {| name := txt "a.xlsx";
     sheet := Some [ [T "Report A"];
                     header4 ++ [T "Notes"];
                     [T "2023A"; T "Math"; CInt 2023001234; CFloat (15 # 2); T "ok"];
                     [T "2023A"; T "Math"; CInt 2021005678; CText [913%N]; CNull] ] |}.

Definition file_b : UploadedFile :=
  {| name := txt "b.xlsx";
     sheet := Some [ [T "Report B"];
                     header4;
                     [T "2023B"; T "Physics"; CInt 2022000111; CInt 4];
                     [T "2023A"; T "Math"; CInt 2023009999; CInt 5] ] |}.

(** A workbook without the column "Βαθμολογία". *)
Definition file_without_grade : UploadedFile :=
  {| name := txt "c.xlsx";
     sheet := Some [ [T "Report C"];
                     [CText ORIGINAL_PERIODOS; CText ORIGINAL_TMIMA; CText ORIGINAL_MITROO];
                     [T "2023A"; T "Math"; CInt 2020000001] ] |}.

(** A file that cannot be read. *)
Definition corrupt_file : UploadedFile :=
  {| name := txt "broken.xlsx"; sheet := None |}.

(** A workbook whose second record has no course. *)
Definition file_blank_tmima : UploadedFile :=
  {| name := txt "h.xlsx";
     sheet := Some [ [T "Report H"];
                     header4;
                     [T "2023A"; T "Math"; CInt 2023001234; CInt 8];
                     [T "2023A"; CNull; CInt 2023005678; CInt 6] ] |}.

(** A workbook whose first record has no registry number. *)
Definition file_blank_mitroo : UploadedFile :=
  {| name := txt "d.xlsx";
     sheet := Some [ [T "Report D"];
                     header4;
                     [T "2023A"; T "Math"; CNull; CInt 6];
                     [T "2023A"; T "Math"; CInt 2023001234; CInt 7] ] |}.

(** ** Invariants *)

(** The session never holds a processed table without the merged table it
    was made from; both references point into the store, the merged table
    being the older frame. *)
Definition session_consistent (w : World) : Prop :=
  match processed_df (session w) with
  | None => True
  | Some p =>
      exists r, combined_df (session w) = Some r /\ r < p /\ p < length (heap w)
  end.

(** A workbook with the four original columns and a fifth column that is
    already called "Έτος Εγγραφής". *)
Definition mitroo_clash_file : UploadedFile :=
  {| name := txt "e.xlsx";
     sheet := Some [ [T "Report E"];
                     header4 ++ [CText MITROO_COLUMN];
                     [T "2023A"; T "Math"; CInt 2023001234; CInt 8; T "2023"] ] |}.

(** A workbook with the four original columns but no record after the
    header. *)
Definition header_only_file : UploadedFile :=
  {| name := txt "f.xlsx"; sheet := Some [ [T "Report F"]; header4 ] |}.

(** The state after two workbooks have been merged, stored and renamed. *)
Definition renamed_world : World :=
  {| heap := [renamed_merge [frame_of file_a; frame_of file_b]];
     session := {| combined_df := Some 0; processed_df := None |};
     messages := [SuccessMerged; SuccessRenamed] |}.

(** ** The heading of the summary by cohort (lines 281-282)

    [sep.join(items)] raises a TypeError on an item that is not a str;
    [None] stands for it. *)
Fixpoint py_join (sep : pystr) (items : list cell) : option pystr :=
  match items with
  | [] => Some []
  | CText s :: rest =>
      match rest with
      | [] => Some s
      | _ => option_map (fun t => s ++ sep ++ t) (py_join sep rest)
      end
  | _ => None
  end.

Definition selection_headings (selected_periodoi selected_tmimata : list cell)
  : option (pystr * pystr) :=
  match py_join (txt ", ") selected_periodoi, py_join (txt ", ") selected_tmimata with
  | Some selected_periodoi_str, Some selected_tmimata_str =>
      Some (selected_periodoi_str, selected_tmimata_str)
  | _, _ => None
  end.
(** * Properties *)

(** ** Equality of strings and of cells *)

Lemma pystr_eqb_eq (a b : pystr) : pystr_eqb a b = true <-> a = b.
Proof.
  revert b; induction a as [|x a IH]; intros [|y b]; simpl; split;
    try congruence; try reflexivity.
  - intros E. apply andb_true_iff in E as [E1 E2].
    apply N.eqb_eq in E1. apply IH in E2. congruence.
  - intros E. injection E as -> ->. rewrite N.eqb_refl. simpl. now apply IH.
Qed.

Lemma pystr_eqb_refl (a : pystr) : pystr_eqb a a = true.
Proof. now apply pystr_eqb_eq. Qed.

Lemma pystr_eqb_neq (a b : pystr) : pystr_eqb a b = false <-> a <> b.
Proof.
  split.
  - intros E ->. rewrite pystr_eqb_refl in E. discriminate.
  - intros N. destruct (pystr_eqb a b) eqn:E; [|reflexivity].
    apply pystr_eqb_eq in E. contradiction.
Qed.

Lemma py_eqb_refl (c : cell) : py_eqb c c = true.
Proof.
  destruct c; simpl; try reflexivity.
  - apply Qeq_bool_iff. reflexivity.
  - apply Qeq_bool_iff. reflexivity.
  - apply pystr_eqb_refl.
Qed.

Lemma py_eqb_sym (a b : cell) : py_eqb a b = py_eqb b a.
Proof.
  assert (S : forall x y, Qeq_bool x y = Qeq_bool y x).
  { intros x y. destruct (Qeq_bool x y) eqn:E1, (Qeq_bool y x) eqn:E2; try reflexivity.
    - apply Qeq_bool_iff in E1. symmetry in E1. apply Qeq_bool_iff in E1. congruence.
    - apply Qeq_bool_iff in E2. symmetry in E2. apply Qeq_bool_iff in E2. congruence. }
  destruct a, b; simpl; try reflexivity; try apply S.
  destruct (pystr_eqb s s0) eqn:E.
  - apply pystr_eqb_eq in E. subst. now rewrite pystr_eqb_refl.
  - symmetry. apply pystr_eqb_neq. apply pystr_eqb_neq in E. congruence.
Qed.

Lemma py_eqb_trans (a b c : cell) :
  py_eqb a b = true -> py_eqb b c = true -> py_eqb a c = true.
Proof.
  assert (T : forall x y z, Qeq_bool x y = true -> Qeq_bool y z = true ->
                            Qeq_bool x z = true).
  { intros x y z E1 E2. apply Qeq_bool_iff in E1, E2. apply Qeq_bool_iff.
    now rewrite E1. }
  destruct a, b, c; simpl; try discriminate; try reflexivity; try apply T.
  intros E1 E2. apply pystr_eqb_eq in E1, E2. subst. apply pystr_eqb_refl.
Qed.

Lemma py_eqb_null (c : cell) : py_eqb c CNull = is_null c.
Proof. destruct c; reflexivity. Qed.

Lemma py_eqb_is_null (a b : cell) :
  py_eqb a b = true -> is_null a = is_null b.
Proof. destruct a, b; simpl; congruence. Qed.

(** ** Columns of a frame *)

Lemma getitem_length (df : DataFrame) (col : pystr) (s : list cell) :
  getitem df col = Some s -> length s = length (rows df).
Proof.
  unfold getitem. destruct (positions col (columns df)) as [|j [|? ?]]; try discriminate.
  intros E. injection E as <-. unfold column_at. apply length_map.
Qed.

(** ** Groups and their three counts *)

Lemma filter_fst_combine {A B : Type} (f : A -> bool) (l : list A) (s : list B) :
  length l = length s ->
  length (filter (fun p => f (fst p)) (combine l s)) = length (filter f l).
Proof.
  revert s; induction l as [|x l IH]; intros [|y s] E; simpl in *; try discriminate;
    try reflexivity.
  injection E as E. destruct (f x); simpl; now rewrite IH.
Qed.

Lemma size_of_group (k : cell) (ks tmima grade : list cell) :
  length ks = length tmima -> length ks = length grade ->
  agg_size (group_of k ks tmima) = count_rows (in_group k) ks grade.
Proof.
  intros E1 E2. unfold agg_size, group_of, count_rows. rewrite length_map.
  rewrite (filter_fst_combine (fun c => py_eqb c k) ks tmima E1).
  symmetry. apply (filter_fst_combine (fun c => py_eqb c k) ks grade E2).
Qed.

Lemma count_of_group (k : cell) (ks grade : list cell) :
  agg_count (group_of k ks grade) = count_rows (took_part k) ks grade.
Proof.
  unfold agg_count, group_of, count_rows.
  induction (combine ks grade) as [|[c g] l IH]; simpl; [reflexivity|].
  unfold took_part, in_group at 1. simpl.
  destruct (py_eqb c k); simpl; [|exact IH].
  destruct (is_null g); simpl; now rewrite IH.
Qed.

Lemma Qle_bool_inject (a b : Z) : Qle_bool (inject_Z a) (inject_Z b) = (a <=? b)%Z.
Proof. unfold Qle_bool, inject_Z. simpl. now rewrite !Z.mul_1_r. Qed.

Lemma ge5_spec (c : cell) (b : bool) :
  ge5 c = Some b -> b = negb (is_null c) && at_least_5 c.
Proof.
  destruct c; simpl; intros E; try discriminate; injection E as <-.
  - reflexivity.
  - unfold at_least_5. simpl. now rewrite Qle_bool_inject.
  - reflexivity.
Qed.

Lemma passed_of_group (k : cell) (ks grade : list cell) (n : nat) :
  agg_passed (group_of k ks grade) = Some n ->
  n = count_rows (has_passed k) ks grade.
Proof.
  unfold group_of, count_rows. revert n.
  induction (combine ks grade) as [|[c g] l IH]; simpl; intros n E.
  - now injection E as <-.
  - unfold has_passed, took_part, in_group at 1. simpl.
    destruct (py_eqb c k); simpl in *; [|now apply IH].
    destruct (ge5 g) as [b|] eqn:G; [|discriminate].
    destruct (agg_passed (map snd (filter (fun p => py_eqb (fst p) k) l))) as [m|];
      [|discriminate].
    injection E as <-. apply ge5_spec in G. rewrite <- G.
    rewrite (IH m eq_refl). destruct b; reflexivity.
Qed.

Lemma passed_total (x : list cell) :
  forallb (fun c => negb (is_text c)) x = true -> exists n, agg_passed x = Some n.
Proof.
  induction x as [|c x IH]; simpl; intros E; [now exists 0|].
  apply andb_true_iff in E as [E1 E2]. destruct (IH E2) as [n ->].
  destruct c; simpl in *; try discriminate; eexists; reflexivity.
Qed.

Lemma group_no_text (k : cell) (ks grade : list cell) :
  forallb (fun c => negb (is_text c)) grade = true ->
  forallb (fun c => negb (is_text c)) (group_of k ks grade) = true.
Proof.
  intros E. apply forallb_forall. intros c I. unfold group_of in I.
  apply in_map_iff in I as [[c' g] [<- I]]. apply filter_In in I as [I _].
  apply in_combine_r in I. rewrite forallb_forall in E. now apply E.
Qed.

Lemma all_some_Forall2 {A B : Type} (f : A -> option B) (l : list A) (t : list B) :
  all_some (map f l) = Some t -> Forall2 (fun x y => f x = Some y) l t.
Proof.
  revert t; induction l as [|x l IH]; simpl; intros t E.
  - injection E as <-. constructor.
  - destruct (f x) as [y|] eqn:F; [|discriminate].
    destruct (all_some (map f l)) as [t'|]; [|discriminate].
    injection E as <-. constructor; auto.
Qed.

Lemma all_some_total {A B : Type} (f : A -> option B) (l : list A) :
  (forall x, In x l -> exists y, f x = Some y) ->
  exists t, all_some (map f l) = Some t.
Proof.
  induction l as [|x l IH]; simpl; intros T; [now eexists|].
  destruct (T x (or_introl eq_refl)) as [y ->].
  destruct IH as [t ->]; [intros; apply T; now right|]. now eexists.
Qed.

(** *** Distinct values *)

Lemma existsb_py_eqb (c : cell) (l : list cell) :
  existsb (py_eqb c) l = true <-> InA key_eq c l.
Proof.
  rewrite existsb_exists, InA_alt. unfold key_eq. split; intros [y [P Q]]; exists y; tauto.
Qed.

Lemma unique_from_spec (seen cs : list cell) :
  NoDupA key_eq (unique_from seen cs) /\
  (forall c, In c (unique_from seen cs) -> In c cs /\ ~ InA key_eq c seen) /\
  (forall c, In c cs -> InA key_eq c seen \/ InA key_eq c (unique_from seen cs)).
Proof.
  revert seen; induction cs as [|c cs IH]; intros seen; simpl.
  - split; [constructor|]. split; intros c [].
  - destruct (existsb (py_eqb c) seen) eqn:E.
    + destruct (IH seen) as (N & I & C). split; [exact N|]. split.
      * intros x X. apply I in X as [X1 X2]. split; [now right|exact X2].
      * intros x [<-|X]; [left; now apply existsb_py_eqb|now apply C].
    + destruct (IH (c :: seen)) as (N & I & C).
      assert (NS : ~ InA key_eq c seen).
      { intros X. apply existsb_py_eqb in X. congruence. }
      split; [|split].
      * constructor; [|exact N]. intros X. apply InA_alt in X as [y [K Y]].
        apply I in Y as [_ Y]. apply Y. left. unfold key_eq in *.
        now rewrite py_eqb_sym.
      * intros x [<-|X]; [split; [now left|exact NS]|].
        apply I in X as [X1 X2]. split; [now right|].
        intros Y. apply X2. now right.
      * intros x [<-|X].
        -- right. left. apply py_eqb_refl.
        -- destruct (C x X) as [Y|Y]; [|right; now right].
           inversion Y; subst; [right; now left|now left].
Qed.

Lemma unique_NoDupA (cs : list cell) : NoDupA key_eq (unique cs).
Proof. apply (unique_from_spec [] cs). Qed.

Lemma unique_In (cs : list cell) (c : cell) : In c (unique cs) -> In c cs.
Proof. intros I. now apply (unique_from_spec [] cs) in I. Qed.

Lemma unique_covers (cs : list cell) (c : cell) :
  In c cs -> InA key_eq c (unique cs).
Proof.
  intros I. destruct (unique_from_spec [] cs) as (_ & _ & C).
  destruct (C c I) as [X|X]; [inversion X|exact X].
Qed.

(** *** The sorted group keys *)

Lemma key_insert_Permutation (x : cell) (l : list cell) :
  Permutation (x :: l) (key_insert x l).
Proof.
  induction l as [|y l IH]; simpl; [reflexivity|].
  destruct (key_leb x y); [reflexivity|].
  rewrite perm_swap. now constructor.
Qed.

Lemma key_sort_Permutation (l : list cell) : Permutation l (key_sort l).
Proof.
  induction l as [|x l IH]; simpl; [constructor|].
  rewrite <- key_insert_Permutation. now constructor.
Qed.

#[local] Instance key_eq_Equivalence : Equivalence key_eq.
Proof.
  split.
  - intros x. apply py_eqb_refl.
  - intros x y E. unfold key_eq. now rewrite py_eqb_sym.
  - intros x y z. apply py_eqb_trans.
Qed.

Lemma NoDupA_Permutation (l l' : list cell) :
  Permutation l l' -> NoDupA key_eq l -> NoDupA key_eq l'.
Proof.
  intros P. induction P as [|x l l' P IH|x y l|l l' l'' P1 IH1 P2 IH2]; intros N.
  - constructor.
  - inversion N as [|? ? X N']; subst. constructor; [|auto].
    intros Y. apply X. apply InA_alt in Y as [z [K Z]]. apply InA_alt.
    exists z. split; [exact K|]. apply Permutation_sym in P.
    eapply Permutation_in; eauto.
  - inversion N as [|? ? X N']; subst. inversion N' as [|? ? X' N'']; subst.
    constructor; [|constructor; [|exact N'']].
    + intros Y. inversion Y; subst; [|contradiction].
      apply X. left. now symmetry.
    + intros Y. apply X. now right.
  - auto.
Qed.

Lemma group_keys_NoDupA (ks : list cell) : NoDupA key_eq (group_keys ks).
Proof.
  unfold group_keys. eapply NoDupA_Permutation; [apply key_sort_Permutation|].
  apply unique_NoDupA.
Qed.

Lemma group_keys_In (ks : list cell) (k : cell) :
  In k (group_keys ks) -> In k ks /\ is_null k = false.
Proof.
  unfold group_keys. intros I.
  eapply Permutation_in in I; [|apply Permutation_sym, key_sort_Permutation].
  apply unique_In in I. apply filter_In in I as [I1 I2].
  split; [exact I1|]. now destruct (is_null k).
Qed.

Lemma group_keys_covers (ks : list cell) (c : cell) :
  In c ks -> is_null c = false -> InA key_eq c (group_keys ks).
Proof.
  intros I N. unfold group_keys.
  assert (F : In c (filter (fun c => negb (is_null c)) ks)).
  { apply filter_In. split; [exact I|]. now rewrite N. }
  apply unique_covers in F. apply InA_alt in F as [y [K Y]].
  apply InA_alt. exists y. split; [exact K|].
  eapply Permutation_in; [apply key_sort_Permutation|exact Y].
Qed.

(** ** The aggregator *)

Lemma summary_row_spec (ks tmima grade : list cell) (k : cell) (row : SummaryRow) :
  length ks = length tmima -> length ks = length grade ->
  summary_row ks tmima grade k = Some row ->
  key row = k /\
  enrolled row = count_rows (in_group k) ks grade /\
  participated row = count_rows (took_part k) ks grade /\
  passed row = count_rows (has_passed k) ks grade.
Proof.
  intros E1 E2. unfold summary_row.
  destruct (agg_passed (group_of k ks grade)) as [p|] eqn:P; [|discriminate].
  intros E. injection E as <-. simpl.
  split; [reflexivity|]. split; [now apply size_of_group|].
  split; [apply count_of_group|now apply passed_of_group].
Qed.

Lemma count_rows_le (p q : cell * cell -> bool) (ks grade : list cell) :
  (forall row, p row = true -> q row = true) ->
  count_rows p ks grade <= count_rows q ks grade.
Proof.
  intros I. unfold count_rows. induction (combine ks grade) as [|row l IH]; simpl; [lia|].
  destruct (p row) eqn:P.
  - rewrite (I row P). simpl. lia.
  - destruct (q row); simpl; lia.
Qed.

Lemma groupby_agg_rows (df : DataFrame) (by_ : pystr) (table : list SummaryRow) :
  groupby_agg df by_ = Some table ->
  exists ks tmima grade,
    getitem df by_ = Some ks /\ getitem df TMIMA_COLUMN = Some tmima /\
    getitem df GRADE_COLUMN = Some grade /\
    Forall2 (fun k row => summary_row ks tmima grade k = Some row) (group_keys ks) table.
Proof.
  unfold groupby_agg.
  destruct (getitem df by_) as [ks|]; [|discriminate].
  destruct (getitem df TMIMA_COLUMN) as [tmima|]; [|discriminate].
  destruct (getitem df GRADE_COLUMN) as [grade|]; [|discriminate].
  intros E. apply all_some_Forall2 in E. now exists ks, tmima, grade.
Qed.

Lemma Forall2_In_r {A B : Type} (R : A -> B -> Prop) (l : list A) (t : list B) (y : B) :
  Forall2 R l t -> In y t -> exists x, In x l /\ R x y.
Proof.
  induction 1 as [|a b l t Rab F IH]; intros I; [destruct I|].
  destruct I as [<-|I]; [exists a; split; [now left|exact Rab]|].
  destruct (IH I) as [x [X1 X2]]. exists x. split; [now right|exact X2].
Qed.

Lemma Forall2_map_eq {A B C : Type} (R : A -> B -> Prop) (f : B -> C) (g : A -> C)
  (l : list A) (t : list B) :
  Forall2 R l t -> (forall x y, R x y -> f y = g x) -> map f t = map g l.
Proof.
  induction 1 as [|a b l t Rab F IH]; intros I; simpl; [reflexivity|].
  now rewrite (I a b Rab), IH.
Qed.

(** C3: in every summary row, Passed <= Participated <= Enrolled. *)
Theorem summary_counts_ordered (df : DataFrame) (by_ : pystr)
  (table : list SummaryRow) (row : SummaryRow) :
  groupby_agg df by_ = Some table -> In row table ->
  passed row <= participated row /\ participated row <= enrolled row.
Proof.
  intros G I. apply groupby_agg_rows in G as (ks & tmima & grade & K & T & Gr & F).
  destruct (Forall2_In_r _ _ _ _ F I) as (k & _ & S).
  apply getitem_length in K, T, Gr.
  apply summary_row_spec in S as (_ & -> & -> & ->); [|congruence|congruence].
  split; apply count_rows_le; intros r; unfold has_passed, took_part;
    intros E; apply andb_true_iff in E; tauto.
Qed.

Lemma nth_error_combine {A B : Type} (l : list A) (s : list B) (i : nat) (a : A) (b : B) :
  nth_error l i = Some a -> nth_error s i = Some b ->
  nth_error (combine l s) i = Some (a, b).
Proof.
  revert s i; induction l as [|x l IH]; intros [|y s] [|i]; simpl; try discriminate.
  - congruence.
  - apply IH.
Qed.

Section Coercion.
Context `{PandasText}.

Lemma to_numeric_cell_no_text (c : cell) : is_text (to_numeric_cell c) = false.
Proof. destruct c; simpl; try reflexivity. now destruct (parse_number s). Qed.

Lemma as_float_no_text (c : cell) : is_text (as_float c) = is_text c.
Proof. now destruct c. Qed.

Lemma to_numeric_no_text (cs : list cell) :
  forallb (fun c => negb (is_text c)) (to_numeric cs) = true.
Proof.
  unfold to_numeric. apply forallb_forall. intros c I.
  destruct (float_dtype (map to_numeric_cell cs)).
  - apply in_map_iff in I as [c' [<- I]]. rewrite as_float_no_text.
    apply in_map_iff in I as [c'' [<- _]]. now rewrite to_numeric_cell_no_text.
  - apply in_map_iff in I as [c' [<- _]]. now rewrite to_numeric_cell_no_text.
Qed.

Lemma to_numeric_length (cs : list cell) : length (to_numeric cs) = length cs.
Proof.
  unfold to_numeric. destruct (float_dtype _); now rewrite ?length_map.
Qed.

(** A text that is not a number becomes NaN. *)
Lemma to_numeric_not_a_number (orig : list cell) (i : nat) (s : pystr) :
  nth_error orig i = Some (CText s) -> parse_number s = None ->
  nth_error (to_numeric orig) i = Some CNull.
Proof.
  intros E P. unfold to_numeric.
  assert (E' : nth_error (map to_numeric_cell orig) i = Some CNull).
  { rewrite nth_error_map, E. simpl. now rewrite P. }
  destruct (float_dtype _); [|exact E'].
  rewrite nth_error_map, E'. reflexivity.
Qed.

(** C2 (amended): the aggregator produces one summary row per distinct key
    value that is not blank; rows whose key is blank (NaN) belong to no
    group and have no summary row.  Enrolled is the number of rows of the
    group, Participated the number of those with a grade, Passed the
    number of those with a grade of at least 5; a row whose grade text was
    not a number has a NaN grade and counts for Enrolled only. *)
Theorem aggregator_counts (df : DataFrame) (by_ : pystr) (ks tmima grade : list cell) :
  getitem df by_ = Some ks ->
  getitem df TMIMA_COLUMN = Some tmima ->
  getitem df GRADE_COLUMN = Some grade ->
  forallb (fun c => negb (is_text c)) grade = true ->
  (exists table,
      groupby_agg df by_ = Some table /\
      map key table = group_keys ks /\
      NoDupA key_eq (map key table) /\
      (forall c, In c ks -> is_null c = false -> InA key_eq c (map key table)) /\
      (forall row, In row table ->
         In (key row) ks /\ is_null (key row) = false /\
         enrolled row = count_rows (in_group (key row)) ks grade /\
         participated row = count_rows (took_part (key row)) ks grade /\
         passed row = count_rows (has_passed (key row)) ks grade)) /\
  (forall orig i s c,
      grade = to_numeric orig ->
      nth_error orig i = Some (CText s) -> parse_number s = None ->
      nth_error ks i = Some c ->
      nth_error (combine ks grade) i = Some (c, CNull) /\
      in_group c (c, CNull) = true /\
      (forall k, took_part k (c, CNull) = false /\ has_passed k (c, CNull) = false)).
Proof.
  intros K Tm G NT. split.
  - assert (L1 : length ks = length tmima).
    { apply getitem_length in K, Tm. congruence. }
    assert (L2 : length ks = length grade).
    { apply getitem_length in K, G. congruence. }
    destruct (all_some_total (summary_row ks tmima grade) (group_keys ks)) as [table E].
    { intros k _. unfold summary_row.
      destruct (passed_total (group_of k ks grade)) as [n ->]; [|now eexists].
      now apply group_no_text. }
    exists table. unfold groupby_agg. rewrite K, Tm, G. split; [exact E|].
    apply all_some_Forall2 in E.
    assert (M : map key table = group_keys ks).
    { rewrite (Forall2_map_eq _ key (fun k => k) _ _ E), map_id; [reflexivity|].
      intros k row S. now apply summary_row_spec in S as [-> _]. }
    split; [exact M|]. rewrite M.
    split; [apply group_keys_NoDupA|]. split; [apply group_keys_covers|].
    intros row I. destruct (Forall2_In_r _ _ _ _ E I) as (k & Ik & S).
    apply summary_row_spec in S as (-> & -> & -> & ->); [|exact L1|exact L2].
    apply group_keys_In in Ik as [I1 I2]. auto.
  - intros orig i s c -> E P Ki. split; [|split].
    + apply nth_error_combine; [exact Ki|]. now apply (to_numeric_not_a_number orig i s).
    + unfold in_group. simpl. apply py_eqb_refl.
    + intros k. unfold has_passed, took_part. simpl.
      now rewrite !andb_false_r.
Qed.

End Coercion.

Lemma aggregator_counts_witness :
  exists table,
    groupby_agg example_table TMIMA_COLUMN = Some table /\
    map key table = [T "Math"; T "Phys"].
Proof.
  destruct (aggregator_counts example_table TMIMA_COLUMN
              (column_at 1 (rows example_table))
              (column_at 1 (rows example_table))
              (column_at 3 (rows example_table))
              eq_refl eq_refl eq_refl eq_refl) as [[table [G [K _]]] _].
  exists table. split; [exact G|]. rewrite K. reflexivity.
Defined.

(** C2, as stated, fails: the second record of h.xlsx has a blank course.
    After the run, with its period selected, the Course column of the
    filtered table has two distinct values, "Math" and NaN, but the summary
    by course has the single row of "Math": the record without course is
    in no group and counts for no row's Enrolled. *)
Lemma blank_course_has_no_summary_row :
  exists df_filtered_by_periodos,
    filter_isin (deref (process_uploads [file_blank_tmima] fresh) 1)
                PERIODOS_COLUMN [T "2023A"] = Some df_filtered_by_periodos /\
    length (rows df_filtered_by_periodos) = 2 /\
    getitem df_filtered_by_periodos TMIMA_COLUMN = Some [T "Math"; CNull] /\
    unique [T "Math"; CNull] = [T "Math"; CNull] /\
    groupby_agg df_filtered_by_periodos TMIMA_COLUMN = Some [mkSummary (T "Math") 1 1 1].
Proof.
  eexists. split; [reflexivity|]. repeat split.
Qed.

Lemma summary_counts_ordered_witness :
  passed (mkSummary (T "Math") 2 1 1) <= participated (mkSummary (T "Math") 2 1 1) /\
  participated (mkSummary (T "Math") 2 1 1) <= enrolled (mkSummary (T "Math") 2 1 1).
Proof.
  apply (summary_counts_ordered example_table TMIMA_COLUMN
           [mkSummary (T "Math") 2 1 1; mkSummary (T "Phys") 1 1 0]).
  - reflexivity.
  - left. reflexivity.
Defined.

(** ** The frame store *)

Lemma set_nth_last {A : Type} (l : list A) (x y : A) :
  set_nth (length l) y (l ++ [x]) = l ++ [y].
Proof. induction l as [|a l IH]; simpl; [reflexivity|now rewrite IH]. Qed.

Lemma set_nth_length {A : Type} (j : nat) (x : A) (l : list A) :
  length (set_nth j x l) = length l.
Proof.
  revert j; induction l as [|a l IH]; intros [|j]; simpl; try reflexivity.
  now rewrite IH.
Qed.

Lemma nth_set_nth_same {A : Type} (j : nat) (x d : A) (l : list A) :
  j < length l -> nth j (set_nth j x l) d = x.
Proof.
  revert j; induction l as [|a l IH]; intros [|j] L; simpl in *; try lia; try reflexivity.
  apply IH. lia.
Qed.

Lemma nth_set_nth_other {A : Type} (j k : nat) (x d : A) (l : list A) :
  j <> k -> nth k (set_nth j x l) d = nth k l d.
Proof.
  revert j k; induction l as [|a l IH]; intros [|j] [|k] N; simpl; try reflexivity;
    try contradiction.
  apply IH. congruence.
Qed.

Lemma deref_alloc (df : DataFrame) (w : World) :
  deref (snd (alloc df w)) (fst (alloc df w)) = df.
Proof. unfold deref, alloc. simpl. apply nth_middle. Qed.

(** ** Positions of a label *)

Lemma positions_from_app (i : nat) (c : pystr) (l1 l2 : list pystr) :
  positions_from i c (l1 ++ l2) =
  positions_from i c l1 ++ positions_from (i + length l1) c l2.
Proof.
  revert i; induction l1 as [|x l1 IH]; intros i; simpl.
  - now rewrite Nat.add_0_r.
  - rewrite IH. replace (S i + length l1) with (i + S (length l1)) by lia.
    now destruct (pystr_eqb c x).
Qed.

Lemma positions_from_repeat (i : nat) (c d : pystr) (n : nat) :
  positions_from i c (repeat d n) = if pystr_eqb c d then seq i n else [].
Proof.
  revert i; induction n as [|n IH]; intros i; simpl.
  - now destruct (pystr_eqb c d).
  - rewrite IH. now destruct (pystr_eqb c d).
Qed.

Lemma positions_from_In (i : nat) (c : pystr) (cols : list pystr) (j : nat) :
  In j (positions_from i c cols) -> i <= j /\ nth (j - i) cols [] = c.
Proof.
  revert i; induction cols as [|x cols IH]; intros i; simpl; [intros []|].
  destruct (pystr_eqb c x) eqn:E.
  - intros [<-|I].
    + rewrite Nat.sub_diag. apply pystr_eqb_eq in E. split; [lia|now subst].
    + apply IH in I as [I1 I2]. split; [lia|].
      destruct (j - i) as [|k] eqn:K; [lia|].
      now replace k with (j - S i) by lia.
  - intros I. apply IH in I as [I1 I2]. split; [lia|].
    destruct (j - i) as [|k] eqn:K; [lia|].
    now replace k with (j - S i) by lia.
Qed.

Lemma positions_labels (c : pystr) (cols : list pystr) :
  map (fun j => nth j cols []) (positions c cols) = repeat c (length (positions c cols)).
Proof.
  unfold positions.
  assert (G : forall l, (forall j, In j l -> nth j cols [] = c) ->
                        map (fun j => nth j cols []) l = repeat c (length l)).
  { induction l as [|j l IH]; simpl; intros P; [reflexivity|].
    rewrite (P j (or_introl eq_refl)), IH; [reflexivity|]. intros; apply P; now right. }
  apply G. intros j I. apply positions_from_In in I as [_ I].
  now rewrite Nat.sub_0_r in I.
Qed.

Lemma positions_from_nil (i : nat) (c : pystr) (cols : list pystr) :
  positions_from i c cols = [] <-> existsb (pystr_eqb c) cols = false.
Proof.
  revert i; induction cols as [|x cols IH]; intros i; simpl; [tauto|].
  destruct (pystr_eqb c x); simpl; [split; discriminate|apply IH].
Qed.

Lemma has_column_positions (df : DataFrame) (c : pystr) :
  has_column df c = false <-> positions c (columns df) = [].
Proof. unfold has_column, positions. symmetry. apply positions_from_nil. Qed.

(** ** Reading and writing one column *)

Lemma column_at_set_column_same (j : nat) (vals : list cell) (rs : list (list cell)) :
  length vals = length rs -> (forall r, In r rs -> j < length r) ->
  column_at j (set_column j vals rs) = vals.
Proof.
  revert vals; induction rs as [|r rs IH]; intros [|v vals] L W; simpl in *;
    try discriminate; try reflexivity.
  unfold cell_at at 1. rewrite nth_set_nth_same by (apply W; now left).
  f_equal. apply IH; [lia|]. intros; apply W; now right.
Qed.

Lemma column_at_set_column_other (j k : nat) (vals : list cell) (rs : list (list cell)) :
  j <> k -> column_at k (set_column j vals rs) = column_at k rs.
Proof.
  intros N. revert vals; induction rs as [|r rs IH]; intros [|v vals]; simpl;
    try reflexivity.
  unfold cell_at at 1. rewrite nth_set_nth_other by exact N. f_equal. apply IH.
Qed.

Lemma set_column_widths (j : nat) (vals : list cell) (rs : list (list cell)) (n : nat) :
  (forall r, In r rs -> length r = n) ->
  forall r, In r (set_column j vals rs) -> length r = n.
Proof.
  revert vals; induction rs as [|r0 rs IH]; intros [|v vals] W r I; simpl in *;
    try contradiction; try (now apply W).
  destruct I as [<-|I].
  - rewrite set_nth_length. apply W. now left.
  - apply (IH vals); [|exact I]. intros; apply W; now right.
Qed.

Lemma set_column_length (j : nat) (vals : list cell) (rs : list (list cell)) :
  length (set_column j vals rs) = length rs.
Proof.
  revert vals; induction rs as [|r rs IH]; intros [|v vals]; simpl; try reflexivity.
  now rewrite IH.
Qed.

(** ** The projection [df[FIXED_COLUMNS]] *)

Lemma seq_singleton (i n j : nat) : seq i n = [j] -> n = 1 /\ j = i.
Proof.
  destruct n as [|[|n]]; simpl; try discriminate.
  intros E. now injection E as ->.
Qed.

Lemma cell_at_map (f : nat -> cell) (idx : list nat) (k : nat) :
  k < length idx -> cell_at k (map f idx) = f (nth k idx 0).
Proof.
  intros L. unfold cell_at. rewrite (nth_indep _ CNull (f 0)) by now rewrite length_map.
  apply map_nth.
Qed.

Section Projection.
Variable df : DataFrame.

Let posP := positions PERIODOS_COLUMN (columns df).
Let posT := positions TMIMA_COLUMN (columns df).
Let posM := positions MITROO_COLUMN (columns df).
Let posG := positions GRADE_COLUMN (columns df).

Lemma fixed_index :
  flat_map (fun k => positions k (columns df)) FIXED_COLUMNS = posP ++ posT ++ posM ++ posG.
Proof. simpl. now rewrite app_nil_r. Qed.

Lemma fixed_selection (sel : DataFrame) :
  getitem_list df FIXED_COLUMNS = Some sel ->
  sel = take (posP ++ posT ++ posM ++ posG) df /\
  columns sel = repeat PERIODOS_COLUMN (length posP) ++ repeat TMIMA_COLUMN (length posT) ++
                repeat MITROO_COLUMN (length posM) ++ repeat GRADE_COLUMN (length posG).
Proof.
  unfold getitem_list. destruct (forallb (has_column df) FIXED_COLUMNS); [|discriminate].
  intros E. injection E as <-. rewrite app_nil_r. fold posP posT posM posG.
  split; [reflexivity|].
  unfold take. simpl. rewrite !map_app. unfold posP, posT, posM, posG.
  now rewrite !positions_labels.
Qed.

Lemma selected_widths (sel : DataFrame) :
  getitem_list df FIXED_COLUMNS = Some sel ->
  forall r, In r (rows sel) -> length r = length (columns sel).
Proof.
  intros E. apply fixed_selection in E as [-> _]. unfold take. simpl.
  intros r I. apply in_map_iff in I as [r0 [<- _]]. now rewrite !length_map.
Qed.

Lemma selected_rows_length (sel : DataFrame) :
  getitem_list df FIXED_COLUMNS = Some sel -> length (rows sel) = length (rows df).
Proof.
  intros E. apply fixed_selection in E as [-> _]. unfold take. simpl. apply length_map.
Qed.

(** A column of the projection that is a Series is the column of that
    name of the frame, which has it once. *)
Lemma selected_mitroo (sel : DataFrame) (s : list cell) :
  getitem_list df FIXED_COLUMNS = Some sel ->
  getitem sel MITROO_COLUMN = Some s ->
  positions MITROO_COLUMN (columns sel) = [length posP + length posT] /\
  getitem df MITROO_COLUMN = Some s.
Proof.
  intros E. destruct (fixed_selection sel E) as [S C]. unfold getitem. rewrite C.
  unfold positions. rewrite !positions_from_app, !positions_from_repeat, !repeat_length.
  change (pystr_eqb MITROO_COLUMN PERIODOS_COLUMN) with false.
  change (pystr_eqb MITROO_COLUMN TMIMA_COLUMN) with false.
  change (pystr_eqb MITROO_COLUMN GRADE_COLUMN) with false.
  change (pystr_eqb MITROO_COLUMN MITROO_COLUMN) with true.
  simpl. rewrite app_nil_r.
  destruct (seq (length posP + length posT) (length posM)) as [|j [|? ?]] eqn:Q;
    try discriminate.
  apply seq_singleton in Q as [Q ->]. intros G. injection G as <-.
  split; [reflexivity|].
  assert (PM' : positions_from 0 MITROO_COLUMN (columns df) = posM) by reflexivity.
  destruct posM as [|jM [|? ?]] eqn:PM; try discriminate.
  rewrite PM'. f_equal. rewrite S. unfold take, column_at. simpl. rewrite map_map.
  apply map_ext. intros r. rewrite cell_at_map.
  - rewrite app_nth2 by lia. rewrite app_nth2 by lia.
    now replace (length posP + length posT - length posP - length posT) with 0 by lia.
  - rewrite !length_app. simpl. lia.
Qed.

Lemma selected_grade (sel : DataFrame) (s : list cell) :
  getitem_list df FIXED_COLUMNS = Some sel ->
  getitem sel GRADE_COLUMN = Some s ->
  positions GRADE_COLUMN (columns sel) = [length posP + length posT + length posM] /\
  getitem df GRADE_COLUMN = Some s.
Proof.
  intros E. destruct (fixed_selection sel E) as [S C]. unfold getitem. rewrite C.
  unfold positions. rewrite !positions_from_app, !positions_from_repeat, !repeat_length.
  change (pystr_eqb GRADE_COLUMN PERIODOS_COLUMN) with false.
  change (pystr_eqb GRADE_COLUMN TMIMA_COLUMN) with false.
  change (pystr_eqb GRADE_COLUMN MITROO_COLUMN) with false.
  change (pystr_eqb GRADE_COLUMN GRADE_COLUMN) with true.
  simpl.
  destruct (seq (length posP + length posT + length posM) (length posG)) as [|j [|? ?]] eqn:Q;
    try discriminate.
  apply seq_singleton in Q as [Q ->]. intros G. injection G as <-.
  split; [reflexivity|].
  assert (PG' : positions_from 0 GRADE_COLUMN (columns df) = posG) by reflexivity.
  destruct posG as [|jG [|? ?]] eqn:PG; try discriminate.
  rewrite PG'. f_equal. rewrite S. unfold take, column_at. simpl. rewrite map_map.
  apply map_ext. intros r. rewrite cell_at_map.
  - rewrite app_nth2 by lia. rewrite app_nth2 by lia. rewrite app_nth2 by lia.
    now replace (length posP + length posT + length posM - length posP - length posT
                 - length posM) with 0 by lia.
  - rewrite !length_app. simpl. lia.
Qed.

End Projection.

(** ** The processed table *)

Lemma positions_singleton_label (c : pystr) (cols : list pystr) (j : nat) :
  positions c cols = [j] -> nth j cols [] = c.
Proof.
  intros P. assert (I : In j (positions c cols)) by (rewrite P; now left).
  apply positions_from_In in I as [_ I]. now rewrite Nat.sub_0_r in I.
Qed.

Section Processing.
Context `{PandasText}.

(** What a successful [select_and_process] has done: one new frame, the
    projection with its two columns rewritten, referenced by
    [processed_df]. *)
Lemma select_and_process_Done (r : nat) (w w' : World) :
  select_and_process r w = Done w' ->
  exists sel mitroo df1 grade df2,
    getitem_list (deref w r) FIXED_COLUMNS = Some sel /\
    getitem sel MITROO_COLUMN = Some mitroo /\
    setitem sel MITROO_COLUMN (map enrollment_prefix mitroo) = Some df1 /\
    getitem df1 GRADE_COLUMN = Some grade /\
    setitem df1 GRADE_COLUMN (to_numeric grade) = Some df2 /\
    w' = {| heap := heap w ++ [df2];
            session := {| combined_df := combined_df (session w);
                          processed_df := Some (length (heap w)) |};
            messages := messages w ++ [SuccessProcessed] |}.
Proof.
  unfold select_and_process.
  destruct (getitem_list (deref w r) FIXED_COLUMNS) as [sel|] eqn:S; [|discriminate].
  unfold alloc.
  assert (D : forall m x, deref {| heap := heap w ++ [x]; session := session w;
                                   messages := m |} (length (heap w)) = x).
  { intros m x. unfold deref. simpl. apply nth_middle. }
  assert (ST : forall m x y,
             store (length (heap w)) y {| heap := heap w ++ [x]; session := session w;
                                          messages := m |} =
             {| heap := heap w ++ [y]; session := session w; messages := m |}).
  { intros m x y. unfold store. simpl. now rewrite set_nth_last. }
  rewrite D.
  destruct (getitem sel MITROO_COLUMN) as [mitroo|] eqn:M; [|discriminate].
  destruct (setitem sel MITROO_COLUMN (map enrollment_prefix mitroo)) as [df1|] eqn:S1;
    [|discriminate].
  rewrite !ST, D.
  destruct (getitem df1 GRADE_COLUMN) as [grade|] eqn:G; [|discriminate].
  destruct (setitem df1 GRADE_COLUMN (to_numeric grade)) as [df2|] eqn:S2; [|discriminate].
  intros E. injection E as <-.
  exists sel, mitroo, df1, grade, df2. split; [reflexivity|].
  repeat (split; [assumption|]). now rewrite ST.
Qed.

Lemma setitem_columns (df df' : DataFrame) (c : pystr) (vals : list cell) :
  setitem df c vals = Some df' -> columns df' = columns df.
Proof.
  unfold setitem. destruct (positions c (columns df)) as [|j [|? ?]]; try discriminate.
  intros E. now injection E as <-.
Qed.

(** The processed table in terms of the renamed merged table [df]: its
    registry-number column is the prefix of every value, its grade column
    the numeric coercion. *)
Lemma processed_columns (df sel df1 df2 : DataFrame) (mitroo grade : list cell) :
  getitem_list df FIXED_COLUMNS = Some sel ->
  getitem sel MITROO_COLUMN = Some mitroo ->
  setitem sel MITROO_COLUMN (map enrollment_prefix mitroo) = Some df1 ->
  getitem df1 GRADE_COLUMN = Some grade ->
  setitem df1 GRADE_COLUMN (to_numeric grade) = Some df2 ->
  columns df2 = columns sel /\
  getitem df MITROO_COLUMN = Some mitroo /\
  getitem df GRADE_COLUMN = Some grade /\
  getitem df2 MITROO_COLUMN = Some (map enrollment_prefix mitroo) /\
  getitem df2 GRADE_COLUMN = Some (to_numeric grade).
Proof.
  intros S M S1 G S2.
  pose proof (selected_widths df sel S) as W.
  pose proof (fixed_selection df sel S) as [_ C].
  destruct (selected_mitroo df sel mitroo S M) as [PM DM].
  assert (C1 : columns df1 = columns sel) by now apply setitem_columns in S1.
  assert (C2 : columns df2 = columns sel).
  { apply setitem_columns in S2. congruence. }
  assert (LM : length mitroo = length (rows sel)) by now apply getitem_length in M.
  unfold setitem in S1. rewrite PM in S1. injection S1 as <-.
  set (jM := length (positions PERIODOS_COLUMN (columns df)) +
             length (positions TMIMA_COLUMN (columns df))) in *.
  assert (G' : getitem sel GRADE_COLUMN = Some grade).
  { unfold getitem in *. simpl in G.
    destruct (positions GRADE_COLUMN (columns sel)) as [|jG [|? ?]] eqn:PG;
      try discriminate.
    rewrite column_at_set_column_other in G; [exact G|].
    intros <-. apply positions_singleton_label in PM, PG.
    rewrite PM in PG. discriminate. }
  destruct (selected_grade df sel grade S G') as [PG DG].
  set (jG := length (positions PERIODOS_COLUMN (columns df)) +
             length (positions TMIMA_COLUMN (columns df)) +
             length (positions MITROO_COLUMN (columns df))) in *.
  assert (NE : jM <> jG).
  { intros E. pose proof (positions_singleton_label _ _ _ PM) as I1.
    pose proof (positions_singleton_label _ _ _ PG) as I2.
    rewrite E, I2 in I1. discriminate. }
  assert (BM : jM < length (columns sel)).
  { rewrite C, !length_app, !repeat_length. subst jM.
    unfold getitem in DM.
    destruct (positions MITROO_COLUMN (columns df)) as [|? [|? ?]]; try discriminate.
    simpl. lia. }
  assert (BG : jG < length (columns sel)).
  { rewrite C, !length_app, !repeat_length. subst jG.
    unfold getitem in DG.
    destruct (positions GRADE_COLUMN (columns df)) as [|? [|? ?]]; try discriminate.
    simpl. lia. }
  unfold setitem in S2. simpl in S2. rewrite PG in S2. injection S2 as <-.
  split; [reflexivity|]. split; [exact DM|]. split; [exact DG|].
  unfold getitem. simpl. rewrite PM, PG. split; f_equal.
  - rewrite column_at_set_column_other by congruence.
    apply column_at_set_column_same.
    + now rewrite length_map.
    + intros r I. rewrite (W r I). exact BM.
  - apply column_at_set_column_same.
    + rewrite to_numeric_length, set_column_length. now apply getitem_length in G'.
    + intros r I. erewrite set_column_widths; [exact BG| |exact I]. exact W.
Qed.

End Processing.

(** ** The registry-number prefix *)

Section Prefix.
Context `{PandasText}.

(** C4 (amended): every value of the registry-number column becomes the
    first 3 characters of its string form; a string form of at most 3
    characters is kept whole; an empty text stays empty, but a blank (NaN)
    cell has the string form "nan" and becomes "nan"; "2023001234" becomes
    "202". *)
Theorem enrollment_prefix_spec :
  (forall c, enrollment_prefix c = CText (firstn 3 (py_str c))) /\
  (forall c, exists s rest,
      enrollment_prefix c = CText s /\ length s <= 3 /\ py_str c = s ++ rest) /\
  (forall c, length (py_str c) <= 3 -> enrollment_prefix c = CText (py_str c)) /\
  enrollment_prefix (CText []) = CText [] /\
  enrollment_prefix CNull = T "nan" /\
  enrollment_prefix (T "2023001234") = T "202" /\
  enrollment_prefix (CInt 2023001234) = T "202" /\
  (forall r w w', select_and_process r w = Done w' ->
     exists p mitroo,
       processed_df (session w') = Some p /\
       getitem (deref w r) MITROO_COLUMN = Some mitroo /\
       getitem (deref w' p) MITROO_COLUMN = Some (map enrollment_prefix mitroo)).
Proof.
  split; [reflexivity|]. split.
  { intros c. exists (firstn 3 (py_str c)), (skipn 3 (py_str c)).
    split; [reflexivity|]. split; [apply firstn_le_length|].
    symmetry. apply firstn_skipn. }
  split.
  { intros c L. unfold enrollment_prefix, slice3. now rewrite firstn_all2. }
  repeat (split; [reflexivity|]).
  intros r w w' D.
  apply select_and_process_Done in D
    as (sel & mitroo & df1 & grade & df2 & S & M & S1 & G & S2 & ->).
  destruct (processed_columns _ _ _ _ _ _ S M S1 G S2) as (_ & DM & _ & PM & _).
  exists (length (heap w)), mitroo. simpl. split; [reflexivity|]. split; [exact DM|].
  unfold deref. simpl. now rewrite nth_middle.
Qed.

End Prefix.

(** C4, as stated, fails on a blank cell: its prefix is the text "nan",
    which is not an empty value. *)
Lemma blank_registry_number_becomes_nan :
  exists c,
    is_empty_value c = true /\
    @enrollment_prefix decimal_text c = T "nan" /\
    is_empty_value (@enrollment_prefix decimal_text c) = false.
Proof. exists CNull. repeat split. Qed.

(** ** Merging and processing *)

Section Batch.
Context `{PandasText}.

Lemma merge_and_process_merged (l : Locals) (w : World) :
  dataframes l <> [] -> error_occurred l = false ->
  merge_and_process l w =
  match filter (fun col => negb (has_column (renamed_merge (dataframes l)) col))
               FIXED_COLUMNS with
  | [] => select_and_process (length (heap w)) (merged_world l w)
  | missing_cols =>
      Done (set_processed None (say (ErrorMissingColumns missing_cols) (merged_world l w)))
  end.
Proof.
  intros N E. unfold merge_and_process. rewrite E.
  destruct (dataframes l) as [|d ds] eqn:D; [contradiction|].
  unfold alloc, set_combined, say, store, deref, merged_world, renamed_merge, set_processed.
  cbn [heap session messages combined_df processed_df]. rewrite D.
  rewrite !nth_middle, !set_nth_last, nth_middle, <- !app_assoc.
  match goal with
  | |- context [filter ?f FIXED_COLUMNS] => destruct (filter f FIXED_COLUMNS)
  end; rewrite <- ?app_assoc; reflexivity.
Qed.

(** When the renamed merged table has each of the four
    target columns exactly once, the processed table has exactly the four
    columns, in the fixed order. *)
Lemma processed_columns_fixed (r : nat) (w w' : World) :
  select_and_process r w = Done w' ->
  (forall c, In c FIXED_COLUMNS -> length (positions c (columns (deref w r))) = 1) ->
  columns (deref w' (length (heap w))) = FIXED_COLUMNS.
Proof.
  intros D U.
  apply select_and_process_Done in D
    as (sel & mitroo & df1 & grade & df2 & S & M & S1 & G & S2 & ->).
  destruct (processed_columns _ _ _ _ _ _ S M S1 G S2) as (C & _).
  unfold deref. simpl. rewrite nth_middle, C.
  destruct (fixed_selection _ _ S) as [_ ->].
  rewrite !U by (simpl; tauto). reflexivity.
Qed.

End Batch.

(** C1 (code bug): a workbook that has, besides the four original columns,
    a column already called "Περίοδος" is processed with success, and the
    processed table has five columns, "Περίοδος" twice. *)
Theorem extra_column_named_as_target_is_kept :
  exists p,
    processed_df (session (process_uploads [clash_file] fresh)) = Some p /\
    In SuccessProcessed (messages (process_uploads [clash_file] fresh)) /\
    columns (deref (process_uploads [clash_file] fresh) p) =
      [PERIODOS_COLUMN; PERIODOS_COLUMN; TMIMA_COLUMN; MITROO_COLUMN; GRADE_COLUMN] /\
    length (columns (deref (process_uploads [clash_file] fresh) p)) = 5.
Proof.
  exists 1. vm_compute. repeat split. right. right. right. now left.
Qed.

(** ** The reading loop *)

Lemma read_excel_unreadable (f : UploadedFile) :
  read_excel f = None <-> unreadable f = true.
Proof.
  unfold read_excel, unreadable. destruct (sheet f) as [rs|]; [|tauto].
  destruct (skipn 1 rs); split; discriminate.
Qed.

Lemma read_file_spec (f : UploadedFile) (l : Locals) (w : World) :
  read_file (l, w) f =
  ({| dataframes := dataframes l ++ (if accepted f then [frame_of f] else []);
      error_occurred := error_occurred l || unreadable f |},
   {| heap := heap w; session := session w;
      messages := messages w ++ file_messages f |}).
Proof.
  unfold read_file, accepted, frame_of, file_messages, say.
  cbn [heap session messages].
  destruct (read_excel f) as [df|] eqn:R.
  - assert (U : unreadable f = false).
    { destruct (unreadable f) eqn:U; [|reflexivity].
      apply read_excel_unreadable in U. congruence. }
    rewrite U, orb_false_r. destruct l as [dfs err].
    cbn [dataframes error_occurred heap session messages].
    destruct (forallb (has_column df) required_original_cols); cbn [negb andb].
    + destruct (df_empty df); cbn [negb heap session messages];
        rewrite <- ?app_assoc, ?app_nil_r; reflexivity.
    + rewrite <- app_assoc, app_nil_r. reflexivity.
  - apply read_excel_unreadable in R.
    cbn [heap session messages]. rewrite R, orb_true_r, app_nil_r, <- app_assoc.
    reflexivity.
Qed.

Lemma read_files_from (ups : list UploadedFile) (l : Locals) (w : World) :
  fold_left read_file ups (l, w) =
  ({| dataframes := dataframes l ++ map frame_of (filter accepted ups);
      error_occurred := error_occurred l || existsb unreadable ups |},
   {| heap := heap w; session := session w;
      messages := messages w ++ flat_map file_messages ups |}).
Proof.
  revert l w; induction ups as [|f ups IH]; intros l w;
    cbn [fold_left filter map existsb flat_map].
  - rewrite app_nil_r, orb_false_r, app_nil_r. now destruct l, w.
  - rewrite read_file_spec, IH. cbn [dataframes error_occurred heap session messages].
    rewrite <- !app_assoc, orb_assoc.
    now destruct (accepted f).
Qed.

(** The loop in closed form: the frames of the accepted files in upload
    order, the error flag, and the messages file by file. *)
Lemma read_files_spec (ups : list UploadedFile) (w : World) :
  read_files ups w =
  ({| dataframes := map frame_of (filter accepted ups);
      error_occurred := existsb unreadable ups |},
   {| heap := heap w; session := session w;
      messages := messages w ++ flat_map file_messages ups |}).
Proof. unfold read_files. now rewrite read_files_from. Qed.

Lemma reading_is_reported (ups : list UploadedFile) (f : UploadedFile) :
  In f ups -> In (StatusReading (name f)) (flat_map file_messages ups).
Proof. intros I. apply in_flat_map. exists f. split; [exact I|now left]. Qed.

Lemma read_error_is_reported (ups : list UploadedFile) (f : UploadedFile) :
  In f ups -> unreadable f = true ->
  In (ErrorProcessingFile (name f)) (flat_map file_messages ups).
Proof.
  intros I U. apply in_flat_map. exists f. split; [exact I|].
  apply read_excel_unreadable in U. unfold file_messages. rewrite U. right. now left.
Qed.

Lemma no_merge_while_reading (ups : list UploadedFile) (m : message) :
  In m (flat_map file_messages ups) ->
  m <> SuccessMerged /\ m <> SuccessRenamed /\ m <> SuccessProcessed.
Proof.
  intros I. apply in_flat_map in I as [f [_ I]]. unfold file_messages in I.
  destruct I as [<-|I]; [repeat split; discriminate|].
  destruct (read_excel f) as [df|].
  - destruct (negb _); [destruct I as [<-|[]]; repeat split; discriminate|].
    destruct (negb _); [destruct I|destruct I as [<-|[]]; repeat split; discriminate].
  - destruct I as [<-|[]]; repeat split; discriminate.
Qed.

Section Failure.
Context `{PandasText}.

(** C7: when a file cannot be read, its error is reported, every file is
    still read in turn, and the batch fails: nothing is merged, no frame is
    created, and both [combined_df] and [processed_df] are empty. *)
Theorem unreadable_file_fails_batch (ups : list UploadedFile) (w : World)
  (bad : UploadedFile) :
  processed_df (session w) = None ->
  In bad ups -> sheet bad = None ->
  process_uploads ups w =
    {| heap := heap w;
       session := {| combined_df := None; processed_df := None |};
       messages := messages w ++ flat_map file_messages ups ++ [ErrorStopped] |} /\
  (forall f, In f ups -> In (StatusReading (name f)) (flat_map file_messages ups)) /\
  (forall f, In f ups -> sheet f = None ->
             In (ErrorProcessingFile (name f)) (flat_map file_messages ups)) /\
  ~ In SuccessMerged (flat_map file_messages ups ++ [ErrorStopped]).
Proof.
  intros P I B.
  assert (U : forall f, sheet f = None -> unreadable f = true).
  { intros f E. unfold unreadable. now rewrite E. }
  assert (E : existsb unreadable ups = true).
  { apply existsb_exists. exists bad. auto. }
  split; [|split; [|split]].
  - unfold process_uploads. destruct ups as [|f ups']; [destruct I|].
    rewrite P, read_files_spec, E. unfold merge_and_process.
    cbn [dataframes error_occurred].
    destruct (map frame_of (filter accepted (f :: ups')));
      unfold set_processed, set_combined, say; cbn [heap session messages combined_df];
      now rewrite <- app_assoc.
  - intros f. apply reading_is_reported.
  - intros f F S. apply read_error_is_reported; auto.
  - intros M. apply in_app_iff in M as [M|[M|[]]]; [|discriminate].
    apply no_merge_while_reading in M as [M _]. now apply M.
Qed.

End Failure.

Lemma unreadable_file_fails_batch_witness :
  session (process_uploads [file_a; corrupt_file; file_b] fresh) =
    {| combined_df := None; processed_df := None |} /\
  heap (process_uploads [file_a; corrupt_file; file_b] fresh) = [].
Proof.
  rewrite (proj1 (unreadable_file_fails_batch [file_a; corrupt_file; file_b] fresh
                    corrupt_file eq_refl (or_intror (or_introl eq_refl)) eq_refl)).
  split; reflexivity.
Defined.

(** ** Messages do not steer the pipeline *)

Section Commutation.
Context `{PandasText}.




End Commutation.

(** ** A whole run *)

Section Run.
Context `{PandasText}.

Lemma process_uploads_spec (ups : list UploadedFile) (w : World) :
  ups <> [] -> processed_df (session w) = None ->
  process_uploads ups w =
  finish (merge_and_process
            {| dataframes := map frame_of (filter accepted ups);
               error_occurred := existsb unreadable ups |}
            (add_messages (messages w ++ flat_map file_messages ups)
               {| heap := heap w;
                  session := {| combined_df := None; processed_df := None |};
                  messages := [] |})).
Proof.
  intros N P. unfold process_uploads. destruct ups as [|f ups]; [contradiction|].
  rewrite P, read_files_spec. unfold add_messages, set_processed, set_combined.
  cbn [heap session messages combined_df processed_df]. rewrite app_nil_r.
  unfold finish. now destruct (merge_and_process _ _).
Qed.





End Run.


(** ** Concatenation *)

Lemma add_columns_In (cols acc : list pystr) (c : pystr) :
  In c (add_columns acc cols) <-> In c acc \/ In c cols.
Proof.
  unfold add_columns. revert acc; induction cols as [|x cols IH]; intros acc; simpl.
  - tauto.
  - rewrite IH. destruct (existsb (pystr_eqb x) acc) eqn:E.
    + apply existsb_exists in E as [y [Y E]]. apply pystr_eqb_eq in E. subst y.
      split; [tauto|]. intros [I|[<-|I]]; tauto.
    + rewrite in_app_iff. simpl. tauto.
Qed.

Lemma union_columns_from (dfs : list DataFrame) (acc : list pystr) (c : pystr) :
  In c (fold_left (fun a df => add_columns a (columns df)) dfs acc) <->
  In c acc \/ exists df, In df dfs /\ In c (columns df).
Proof.
  revert acc; induction dfs as [|d dfs IH]; intros acc; simpl.
  - split; [tauto|]. intros [I|[df [[] _]]]. exact I.
  - rewrite IH, add_columns_In. split.
    + intros [[I|I]|[df [I1 I2]]]; [tauto| |].
      * right. exists d. tauto.
      * right. exists df. tauto.
    + intros [I|[df [[<-|I1] I2]]]; [tauto|tauto|].
      right. exists df. tauto.
Qed.

Lemma union_columns_In (dfs : list DataFrame) (c : pystr) :
  In c (union_columns dfs) <-> exists df, In df dfs /\ In c (columns df).
Proof.
  unfold union_columns. rewrite union_columns_from. simpl. tauto.
Qed.

Lemma concat_columns (dfs : list DataFrame) : columns (concat dfs) = union_columns dfs.
Proof. reflexivity. Qed.

Lemma concat_rows (dfs : list DataFrame) :
  exists mask,
    rows (concat dfs) =
    map (upcast_row mask) (flat_map (reindex (union_columns dfs)) dfs).
Proof. unfold concat, infer_dtypes. simpl. eexists. reflexivity. Qed.

Lemma reindex_length (cols : list pystr) (df : DataFrame) :
  length (reindex cols df) = length (rows df).
Proof. unfold reindex. apply length_map. Qed.

Lemma concat_row_count (dfs : list DataFrame) :
  length (rows (concat dfs)) = list_sum (map (fun df => length (rows df)) dfs).
Proof.
  destruct (concat_rows dfs) as [mask ->]. rewrite length_map.
  generalize (union_columns dfs) as cols. intros cols.
  induction dfs as [|d dfs IH]; simpl; [reflexivity|].
  now rewrite length_app, reindex_length, IH.
Qed.

Lemma upcast_row_cell (mask : list bool) (r : list cell) (j : nat) :
  cell_at j (upcast_row mask r) = cell_at j r \/
  cell_at j (upcast_row mask r) = as_float (cell_at j r).
Proof.
  revert r j; induction mask as [|b mask IH]; intros [|c r] j; simpl; try tauto.
  destruct j as [|j]; unfold cell_at; simpl.
  - destruct b; tauto.
  - apply IH.
Qed.

Lemma py_eqb_as_float (c : cell) : py_eqb (as_float c) c = true.
Proof.
  destruct c; simpl; try reflexivity.
  - apply Qeq_bool_iff. reflexivity.
  - apply Qeq_bool_iff. reflexivity.
  - apply pystr_eqb_refl.
Qed.

Lemma positions_from_bound (i : nat) (c : pystr) (cols : list pystr) (j : nat) :
  In j (positions_from i c cols) -> j < i + length cols.
Proof.
  revert i; induction cols as [|x cols IH]; intros i; simpl; [intros []|].
  destruct (pystr_eqb c x).
  - intros [<-|I]; [lia|]. apply IH in I. lia.
  - intros I. apply IH in I. lia.
Qed.

Lemma positions_of_member (c : pystr) (cols : list pystr) :
  In c cols -> exists j rest,
    positions c cols = j :: rest /\ j < length cols /\ nth j cols [] = c.
Proof.
  intros I. destruct (positions c cols) as [|j rest] eqn:P.
  - apply positions_from_nil in P.
    assert (E : existsb (pystr_eqb c) cols = true).
    { apply existsb_exists. exists c. split; [exact I|apply pystr_eqb_refl]. }
    congruence.
  - exists j, rest. split; [reflexivity|].
    assert (J : In j (positions c cols)) by (rewrite P; now left).
    split.
    + apply positions_from_bound in J. exact J.
    + apply positions_from_In in J as [_ J]. now rewrite Nat.sub_0_r in J.
Qed.

(** A reindexed and upcast row carries the values of its source row. *)
Lemma merged_row_same_record (cols : list pystr) (mask : list bool)
  (df : DataFrame) (r : list cell) (col : pystr) :
  In col cols ->
  py_eqb (lookup_cell {| columns := cols; rows := [] |}
                      (upcast_row mask (map (lookup_cell df r) cols)) col)
         (lookup_cell df r col) = true.
Proof.
  intros I. destruct (positions_of_member col cols I) as (j & rest & P & B & L).
  unfold lookup_cell at 1. simpl. rewrite P.
  assert (C : cell_at j (map (lookup_cell df r) cols) = lookup_cell df r col).
  { unfold cell_at.
    rewrite (nth_indep _ CNull (lookup_cell df r [])) by now rewrite length_map.
    now rewrite map_nth, L. }
  destruct (upcast_row_cell mask (map (lookup_cell df r) cols) j) as [-> | ->];
    rewrite C; [apply py_eqb_refl|apply py_eqb_as_float].
Qed.

Lemma concat_preserves_order (dfs : list DataFrame) :
  Forall2 (same_record (concat dfs)) (rows (concat dfs)) (records_in_order dfs).
Proof.
  destruct (concat_rows dfs) as [mask ->].
  assert (G : forall l, (forall df, In df l -> In df dfs) ->
            Forall2 (same_record (concat dfs))
                    (map (upcast_row mask) (flat_map (reindex (union_columns dfs)) l))
                    (records_in_order l)).
  { induction l as [|d l IH]; intros S; simpl; [constructor|].
    rewrite map_app. apply Forall2_app; [|apply IH; intros; apply S; now right].
    unfold reindex. rewrite !map_map.
    induction (rows d) as [|r rs IHr]; simpl; constructor; [|exact IHr].
    intros col I. simpl in *.
    unfold lookup_cell at 1. rewrite concat_columns.
    apply (merged_row_same_record (union_columns dfs) mask d r col).
    apply union_columns_In. exists d. split; [apply S; now left|exact I]. }
  apply G. auto.
Qed.

(** ** The merged table *)

Lemma frame_row_count (f : UploadedFile) :
  length (rows (frame_of f)) = data_records f - 1.
Proof.
  unfold frame_of, read_excel, data_records.
  destruct (sheet f) as [rs|]; [|reflexivity].
  destruct rs as [|r0 [|hdr recs]]; simpl; try reflexivity.
  rewrite !length_map. lia.
Qed.

(** C5: the merged table holds the rows of the accepted files' tables in
    upload order and, within a file, in row order, each with the values of
    its source row; its row count is the sum, over the accepted files, of
    the file's records (rows other than the header) minus 1. *)
Theorem merge_preserves_order_and_counts (ups : list UploadedFile) (w : World) :
  dataframes (fst (read_files ups w)) = map frame_of (filter accepted ups) /\
  Forall2 (same_record (concat (dataframes (fst (read_files ups w)))))
          (rows (concat (dataframes (fst (read_files ups w)))))
          (records_in_order (map frame_of (filter accepted ups))) /\
  length (rows (concat (dataframes (fst (read_files ups w))))) =
    list_sum (map (fun f => data_records f - 1) (filter accepted ups)) /\
  rows (renamed_merge (dataframes (fst (read_files ups w)))) =
    rows (concat (dataframes (fst (read_files ups w)))).
Proof.
  rewrite read_files_spec. cbn [fst dataframes].
  split; [reflexivity|]. split; [apply concat_preserves_order|].
  split; [|reflexivity].
  rewrite concat_row_count, map_map. f_equal. apply map_ext.
  intros f. apply frame_row_count.
Qed.

(** Scenario A: two files with two records each after the discarded row
    and the header give a merged table of four rows. *)
Example scenario_A_row_count :
  map data_records [file_a; file_b] = [3; 3] /\
  length (rows (concat (dataframes (fst (read_files [file_a; file_b] fresh))))) = 4.
Proof. split; reflexivity. Qed.

(** ** The stored merged table *)

Lemma pystr_eqb_sym (a b : pystr) : pystr_eqb a b = pystr_eqb b a.
Proof.
  destruct (pystr_eqb a b) eqn:E; symmetry.
  - apply pystr_eqb_eq in E. subst. apply pystr_eqb_refl.
  - apply pystr_eqb_neq. apply pystr_eqb_neq in E. congruence.
Qed.

(** No label is an original name after the renaming. *)
Lemma renamed_label_not_original (c o : pystr) :
  In o [ORIGINAL_PERIODOS; ORIGINAL_TMIMA; ORIGINAL_MITROO] ->
  pystr_eqb o (rename_label RENAME_DICT c) = false.
Proof.
  intros I. unfold rename_label, RENAME_DICT, dict_get.
  destruct (pystr_eqb c ORIGINAL_PERIODOS) eqn:E1;
    [destruct I as [<-|[<-|[<-|[]]]]; reflexivity|].
  destruct (pystr_eqb c ORIGINAL_TMIMA) eqn:E2;
    [destruct I as [<-|[<-|[<-|[]]]]; reflexivity|].
  destruct (pystr_eqb c ORIGINAL_MITROO) eqn:E3;
    [destruct I as [<-|[<-|[<-|[]]]]; reflexivity|].
  destruct I as [<-|[<-|[<-|[]]]]; rewrite pystr_eqb_sym; assumption.
Qed.

Lemma renamed_has_no_original (df : DataFrame) (o : pystr) :
  In o [ORIGINAL_PERIODOS; ORIGINAL_TMIMA; ORIGINAL_MITROO] ->
  has_column (rename RENAME_DICT df) o = false.
Proof.
  intros I. unfold has_column, rename. simpl.
  induction (columns df) as [|c cols IH]; simpl; [reflexivity|].
  now rewrite renamed_label_not_original, IH.
Qed.

Lemma filter_nil_all {A : Type} (f : A -> bool) (l : list A) :
  filter f l = [] -> forall x, In x l -> f x = false.
Proof.
  induction l as [|y l IH]; simpl; intros E x I; [destruct I|].
  destruct (f y) eqn:F; [discriminate|].
  destruct I as [<-|I]; [exact F|now apply IH].
Qed.

Section Aliasing.
Context `{PandasText}.

(** C10: after a run that ends with a processed table, the frame that
    [st.session_state.combined_df] refers to is the merged table with the
    columns renamed: it has none of the three original names that were
    renamed, it has the four target names, and the run has created only
    this frame and the processed one, so that no copy with the original
    names is kept. *)
Theorem stored_merged_table_is_renamed (ups : list UploadedFile) (w : World) (p : nat) :
  processed_df (session w) = None ->
  processed_df (session (process_uploads ups w)) = Some p ->
  combined_df (session (process_uploads ups w)) = Some (length (heap w)) /\
  deref (process_uploads ups w) (length (heap w)) =
    rename RENAME_DICT (concat (map frame_of (filter accepted ups))) /\
  columns (deref (process_uploads ups w) (length (heap w))) =
    map (rename_label RENAME_DICT) (union_columns (map frame_of (filter accepted ups))) /\
  (forall o, In o [ORIGINAL_PERIODOS; ORIGINAL_TMIMA; ORIGINAL_MITROO] ->
             has_column (deref (process_uploads ups w) (length (heap w))) o = false) /\
  (forall c, In c FIXED_COLUMNS ->
             has_column (deref (process_uploads ups w) (length (heap w))) c = true) /\
  p = S (length (heap w)) /\
  (exists processed,
      heap (process_uploads ups w) =
      heap w ++ [rename RENAME_DICT (concat (map frame_of (filter accepted ups)));
                 processed]).
Proof.
  intros P S.
  assert (N : ups <> []).
  { intros ->. simpl in S. congruence. }
  rewrite process_uploads_spec in * by assumption.
  set (l := {| dataframes := map frame_of (filter accepted ups);
               error_occurred := existsb unreadable ups |}) in *.
  set (wb := add_messages _ _) in *.
  assert (HB : heap wb = heap w) by reflexivity.
  destruct (error_occurred l) eqn:E.
  { exfalso. unfold merge_and_process in S. rewrite E in S.
    destruct (dataframes l); discriminate. }
  destruct (dataframes l) as [|d ds] eqn:D.
  { exfalso. unfold merge_and_process in S. rewrite E, D in S. discriminate. }
  assert (NE : dataframes l <> []) by (rewrite D; discriminate).
  rewrite merge_and_process_merged in * by assumption.
  destruct (filter (fun col => negb (has_column (renamed_merge (dataframes l)) col))
                   FIXED_COLUMNS) as [|m ms] eqn:F; [|discriminate].
  destruct (select_and_process (length (heap wb)) (merged_world l wb)) as [w'|w'] eqn:Q;
    [|discriminate].
  apply select_and_process_Done in Q
    as (sel & mitroo & df1 & grade & df2 & _ & _ & _ & _ & _ & ->).
  cbn [finish] in *. cbn [session processed_df combined_df heap merged_world] in *.
  rewrite HB in *. rewrite length_app in S. simpl in S.
  assert (DR : deref {| heap := (heap w ++ [renamed_merge (dataframes l)]) ++ [df2];
                        session := {| combined_df := Some (length (heap w));
                                      processed_df :=
                                        Some (length (heap w ++
                                                      [renamed_merge (dataframes l)])) |};
                        messages := messages (merged_world l wb) ++ [SuccessProcessed] |}
                     (length (heap w)) = renamed_merge (dataframes l)).
  { unfold deref. cbn [heap]. rewrite <- app_assoc. apply nth_middle. }
  rewrite DR. unfold renamed_merge. rewrite D. fold l.
  change (map frame_of (filter accepted ups)) with (dataframes l). rewrite D.
  split; [reflexivity|]. split; [reflexivity|]. split; [reflexivity|].
  split; [intros o I; now apply renamed_has_no_original|].
  split.
  { intros c I. pose proof (filter_nil_all _ _ F c I) as X.
    apply negb_false_iff in X. unfold renamed_merge in X. now rewrite D in X. }
  split; [injection S as <-; lia|].
  exists df2. now rewrite <- app_assoc.
Qed.

End Aliasing.

Lemma stored_merged_table_is_renamed_witness :
  combined_df (session (process_uploads [file_a; file_b] fresh)) = Some 0 /\
  has_column (deref (process_uploads [file_a; file_b] fresh) 0) ORIGINAL_PERIODOS = false.
Proof.
  pose proof (stored_merged_table_is_renamed [file_a; file_b] fresh 1 eq_refl eq_refl) as W.
  split; [exact (proj1 W)|].
  apply (proj1 (proj2 (proj2 (proj2 W)))). now left.
Defined.

(** ** Options and selections *)

Lemma py_insert_Permutation (x : cell) (l s : list cell) :
  py_insert x l = Some s -> Permutation (x :: l) s.
Proof.
  revert s; induction l as [|y l IH]; simpl; intros s E.
  - injection E as <-. reflexivity.
  - destruct (py_lt y x) as [[|]|]; try discriminate.
    + destruct (py_insert x l) as [s'|]; [|discriminate]. simpl in E.
      injection E as <-. rewrite perm_swap. constructor. now apply IH.
    + injection E as <-. reflexivity.
Qed.

Lemma sorted_Permutation (l s : list cell) : sorted l = Some s -> Permutation l s.
Proof.
  revert s; induction l as [|x l IH]; simpl; intros s E.
  - injection E as <-. constructor.
  - destruct (sorted l) as [s'|]; [|discriminate].
    apply py_insert_Permutation in E. rewrite <- E. constructor. now apply IH.
Qed.

Lemma firstn_snoc {A : Type} (l : list A) (i : nat) (d : A) :
  i < length l -> firstn (S i) l = firstn i l ++ [nth i l d].
Proof.
  revert i; induction l as [|x l IH]; intros i L; simpl in *; [lia|].
  destruct i as [|i]; [reflexivity|]. simpl. f_equal. apply IH. lia.
Qed.

Section Grid.
Variable options : list cell.
Variable ticked : cell -> bool.

Lemma grid_slots (js : list nat) (st : nat * list cell) :
  grid_inv options ticked st ->
  grid_inv options ticked (fold_left (grid_slot options ticked) js st) /\
  fst (fold_left (grid_slot options ticked) js st) =
    Nat.min (fst st + length js) (length options).
Proof.
  revert st; induction js as [|j js IH]; intros [i sel] [I1 I2];
    cbn [fold_left fst snd length] in *.
  - split; [split; assumption|]. cbn [fst]. lia.
  - unfold grid_slot at 2 4.
    destruct (i <? length options) eqn:L.
    + apply Nat.ltb_lt in L.
      destruct (IH (S i, if ticked (nth i options CNull)
                         then sel ++ [nth i options CNull] else sel)) as [J1 J2].
      { split; cbn [fst snd]; [lia|].
        rewrite (firstn_snoc _ _ CNull L), filter_app. cbn [filter].
        destruct (ticked (nth i options CNull)); [now rewrite I2|].
        now rewrite app_nil_r. }
      split; [exact J1|]. rewrite J2. cbn [fst]. lia.
    + apply Nat.ltb_ge in L.
      destruct (IH (i, sel)) as [J1 J2]; [split; assumption|].
      split; [exact J1|]. rewrite J2. cbn [fst]. lia.
Qed.

Lemma grid_rows (is_ : list nat) (st : nat * list cell) :
  grid_inv options ticked st ->
  grid_inv options ticked (fold_left (grid_row options ticked) is_ st) /\
  fst (fold_left (grid_row options ticked) is_ st) =
    Nat.min (fst st + cols_per_row * length is_) (length options).
Proof.
  revert st; induction is_ as [|i is_ IH]; intros st I; simpl fold_left.
  - split; [exact I|]. destruct I as [I _]. simpl. lia.
  - unfold grid_row at 2.
    destruct (grid_slots (seq 0 cols_per_row) st I) as [J1 J2].
    destruct (IH _ J1) as [K1 K2]. split; [exact K1|].
    unfold grid_row at 2. rewrite K2, J2, length_seq. simpl length. lia.
Qed.

(** The checkbox grid offers every option once, in order: the selection
    is the list of the ticked options. *)
Lemma checkbox_grid_filter : checkbox_grid options ticked = filter ticked options.
Proof.
  unfold checkbox_grid.
  destruct (grid_rows (seq 0 ((length options + (cols_per_row - 1)) / cols_per_row))
                      (0, [])) as [[_ I] F].
  { split; simpl; [lia|reflexivity]. }
  rewrite I, F, length_seq. simpl fst.
  assert (B : length options <=
              cols_per_row * ((length options + (cols_per_row - 1)) / cols_per_row)).
  { unfold cols_per_row.
    pose proof (Nat.div_mod_eq (length options + (4 - 1)) 4) as Q.
    pose proof (Nat.mod_upper_bound (length options + (4 - 1)) 4) as R. lia. }
  rewrite Nat.min_r by lia. now rewrite firstn_all.
Qed.

End Grid.

Lemma filter_all {A : Type} (f : A -> bool) (l : list A) :
  (forall x, In x l -> f x = true) -> filter f l = l.
Proof.
  induction l as [|x l IH]; simpl; intros T; [reflexivity|].
  rewrite (T x (or_introl eq_refl)), IH; [reflexivity|]. intros; apply T; now right.
Qed.

Lemma mask_rows_all (mask : list bool) (rs : list (list cell)) :
  length mask = length rs -> (forall b, In b mask -> b = true) -> mask_rows mask rs = rs.
Proof.
  revert rs; induction mask as [|b mask IH]; intros [|r rs] L T; simpl in *;
    try discriminate; try reflexivity.
  rewrite (T b (or_introl eq_refl)), IH; [reflexivity|lia|]. intros; apply T; now right.
Qed.

Lemma isin_all_options (s opts : list cell) :
  sorted (unique s) = Some opts ->
  forall b, In b (isin s opts) -> b = true.
Proof.
  intros S b I. unfold isin in I. apply in_map_iff in I as [c [<- I]].
  apply unique_covers in I. apply InA_alt in I as [y [K Y]].
  apply existsb_exists. exists y. split; [|exact K].
  eapply Permutation_in; [apply sorted_Permutation; exact S|exact Y].
Qed.

Lemma unique_nonempty (s : list cell) : s <> [] -> unique s <> [].
Proof. destruct s as [|c s]; [contradiction|]. discriminate. Qed.

(** C9: when every available period is selected, the filter keeps the
    whole table, so the summary by course is the one of the unfiltered
    table. *)
Theorem full_selection_same_summary (processed : DataFrame)
  (periodos_options : list cell) (ticked_p ticked_t : cell -> bool) :
  options_of processed PERIODOS_COLUMN = Some periodos_options ->
  (forall p, In p periodos_options -> ticked_p p = true) ->
  checkbox_grid periodos_options ticked_p = periodos_options /\
  filter_isin processed PERIODOS_COLUMN (checkbox_grid periodos_options ticked_p)
    = Some processed /\
  (forall df_filtered_by_periodos,
      filter_isin processed PERIODOS_COLUMN (checkbox_grid periodos_options ticked_p)
        = Some df_filtered_by_periodos ->
      groupby_agg df_filtered_by_periodos TMIMA_COLUMN
        = groupby_agg processed TMIMA_COLUMN) /\
  (rows processed <> [] ->
   analyse processed ticked_p ticked_t =
     match groupby_agg processed TMIMA_COLUMN, analyse_tmimata processed ticked_t with
     | Some tmima_agg, Some step2 => Some (SummaryByTmima tmima_agg step2)
     | _, _ => None
     end).
Proof.
  intros O T.
  assert (G : checkbox_grid periodos_options ticked_p = periodos_options).
  { rewrite checkbox_grid_filter. now apply filter_all. }
  assert (F : filter_isin processed PERIODOS_COLUMN periodos_options = Some processed).
  { unfold options_of in O. unfold filter_isin.
    destruct (getitem processed PERIODOS_COLUMN) as [s|] eqn:S; [|discriminate].
    rewrite mask_rows_all.
    - now destruct processed.
    - unfold isin. rewrite length_map. now apply getitem_length in S.
    - now apply isin_all_options. }
  rewrite G. split; [reflexivity|]. split; [exact F|]. split.
  - intros df' E. rewrite F in E. now injection E as <-.
  - intros NE. unfold analyse. rewrite O, G, F.
    assert (N : is_nil periodos_options = false).
    { unfold options_of in O.
      destruct (getitem processed PERIODOS_COLUMN) as [s|] eqn:S; [|discriminate].
      apply sorted_Permutation in O.
      destruct periodos_options; [|reflexivity].
      apply Permutation_sym, Permutation_nil in O.
      apply unique_nonempty in O; [destruct O|].
      intros ->. apply getitem_length in S. destruct (rows processed); [contradiction|].
      discriminate. }
    rewrite N.
    assert (E : df_empty processed = false).
    { unfold df_empty. unfold options_of, getitem in O.
      destruct (columns processed) as [|c cs]; [discriminate|].
      destruct (rows processed); [contradiction|]. reflexivity. }
    now rewrite E.
Qed.

Lemma full_selection_same_summary_witness :
  filter_isin example_table PERIODOS_COLUMN
    (checkbox_grid [T "2023A"; T "2023B"] (fun _ => true)) = Some example_table.
Proof.
  pose proof (full_selection_same_summary example_table [T "2023A"; T "2023B"]
                (fun _ => true) (fun _ => true) eq_refl (fun _ _ => eq_refl)) as W.
  exact (proj1 (proj2 W)).
Defined.

(** ** The processed table and the scenarios *)

Lemma groupby_agg_total (df : DataFrame) (by_ : pystr) (ks tmima grade : list cell) :
  getitem df by_ = Some ks ->
  getitem df TMIMA_COLUMN = Some tmima ->
  getitem df GRADE_COLUMN = Some grade ->
  forallb (fun c => negb (is_text c)) grade = true ->
  exists table, groupby_agg df by_ = Some table.
Proof.
  intros K Tm G NT. unfold groupby_agg. rewrite K, Tm, G.
  apply all_some_total. intros k _. unfold summary_row.
  destruct (passed_total (group_of k ks grade)) as [n ->]; [|now eexists].
  now apply group_no_text.
Qed.

Section Processed.
Context `{PandasText}.

(** A processed table with the four columns can be summarised by any of
    them: the aggregation does not raise. *)
Lemma processed_table_aggregates (r : nat) (w w' : World) (by_ : pystr) :
  select_and_process r w = Done w' ->
  (forall c, In c FIXED_COLUMNS -> length (positions c (columns (deref w r))) = 1) ->
  In by_ FIXED_COLUMNS ->
  exists table, groupby_agg (deref w' (length (heap w))) by_ = Some table.
Proof.
  intros D U I. pose proof (processed_columns_fixed r w w' D U) as C.
  apply select_and_process_Done in D
    as (sel & mitroo & df1 & grade & df2 & S & M & S1 & G & S2 & ->).
  destruct (processed_columns _ _ _ _ _ _ S M S1 G S2) as (_ & _ & _ & _ & PG).
  unfold deref in *. cbn [heap] in *. rewrite nth_middle in *.
  assert (X : forall c, In c FIXED_COLUMNS -> exists s, getitem df2 c = Some s).
  { intros c J. unfold getitem. rewrite C.
    destruct J as [<-|[<-|[<-|[<-|[]]]]]; eexists; reflexivity. }
  destruct (X by_ I) as [ks K].
  destruct (X TMIMA_COLUMN) as [tmima Tm]; [simpl; tauto|].
  apply (groupby_agg_total df2 by_ ks tmima (to_numeric grade) K Tm PG).
  apply to_numeric_no_text.
Qed.

End Processed.

(** Scenario B: the file without "Βαθμολογία" is skipped with a warning and
    the other file is merged and processed. *)
Example scenario_B_skipped_file :
  messages (process_uploads [file_without_grade; file_a] fresh) =
    [StatusReading (txt "c.xlsx"); WarnMissingOriginal (txt "c.xlsx");
     StatusReading (txt "a.xlsx"); SuccessMerged; SuccessRenamed; SuccessProcessed] /\
  session (process_uploads [file_without_grade; file_a] fresh) =
    {| combined_df := Some 0; processed_df := Some 1 |} /\
  length (rows (deref (process_uploads [file_without_grade; file_a] fresh) 1)) = 2.
Proof. repeat split. Qed.

(** Scenario C: the grade "Α" of the second record of a.xlsx becomes NaN;
    the record is one of the three enrolled in "Math" but not one of the
    two that took part. *)
Example scenario_C_summary :
  analyse (deref (process_uploads [file_a; file_b] fresh) 1)
          (fun _ => true) (fun _ => true) =
  Some (SummaryByTmima
          [ mkSummary (T "Math") 3 2 2; mkSummary (T "Physics") 1 1 0 ]
          (SummaryByMitroo [ mkSummary (T "202") 4 3 2 ])).
Proof. reflexivity. Qed.

(** A record without registry number is put in the cohort "nan"; the
    number next to it, in a column that now holds floats, still gives
    "202". *)
Example blank_registry_number_in_a_run :
  getitem (deref (process_uploads [file_blank_mitroo] fresh) 1) MITROO_COLUMN =
    Some [T "nan"; T "202"].
Proof. reflexivity. Qed.

(** * Further properties of the program *)

(** ** The missing-column check cannot fail after the reading loop *)

Lemma has_column_In (df : DataFrame) (c : pystr) :
  has_column df c = true <-> In c (columns df).
Proof.
  unfold has_column. rewrite existsb_exists. split.
  - intros [y [I E]]. apply pystr_eqb_eq in E. now subst.
  - intros I. exists c. split; [exact I|apply pystr_eqb_refl].
Qed.

Lemma concat_has_column (dfs : list DataFrame) (df : DataFrame) (c : pystr) :
  In df dfs -> has_column df c = true -> has_column (concat dfs) c = true.
Proof.
  intros I C. apply has_column_In. rewrite concat_columns. apply union_columns_In.
  exists df. split; [exact I|now apply has_column_In].
Qed.

Lemma rename_has_column (d : list (pystr * pystr)) (df : DataFrame) (c : pystr) :
  has_column df c = true -> has_column (rename d df) (rename_label d c) = true.
Proof.
  rewrite !has_column_In. unfold rename. simpl. apply in_map.
Qed.

Lemma accepted_frame (f : UploadedFile) :
  accepted f = true ->
  forallb (has_column (frame_of f)) required_original_cols = true /\
  df_empty (frame_of f) = false.
Proof.
  unfold accepted, frame_of. destruct (read_excel f) as [df|]; [|discriminate].
  intros E. apply andb_true_iff in E as [E1 E2]. split; [exact E1|].
  now apply negb_true_iff.
Qed.

(** Every frame the loop collects has the four original columns, so the
    renamed merged table has the four target columns. *)
Lemma collected_frames_have_targets (ups : list UploadedFile) (c : pystr) :
  filter accepted ups <> [] -> In c FIXED_COLUMNS ->
  has_column (renamed_merge (map frame_of (filter accepted ups))) c = true.
Proof.
  intros N I. destruct (filter accepted ups) as [|f fs] eqn:F; [contradiction|].
  assert (A : accepted f = true).
  { assert (J : In f (filter accepted ups)) by (rewrite F; now left).
    now apply filter_In in J. }
  apply accepted_frame in A as [A _].
  rewrite forallb_forall in A. unfold renamed_merge.
  assert (R : forall o, In o required_original_cols ->
              has_column (rename RENAME_DICT (concat (map frame_of (f :: fs))))
                         (rename_label RENAME_DICT o) = true).
  { intros o O. apply rename_has_column.
    apply (concat_has_column _ (frame_of f)); [now left|now apply A]. }
  destruct I as [<-|[<-|[<-|[<-|[]]]]].
  - apply (R ORIGINAL_PERIODOS). simpl; tauto.
  - apply (R ORIGINAL_TMIMA). simpl; tauto.
  - apply (R ORIGINAL_MITROO). simpl; tauto.
  - apply (R ORIGINAL_GRADE). simpl; tauto.
Qed.

Lemma no_missing_columns (ups : list UploadedFile) :
  filter accepted ups <> [] ->
  filter (fun col => negb (has_column (renamed_merge (map frame_of (filter accepted ups))) col))
         FIXED_COLUMNS = [].
Proof.
  intros N.
  assert (G : forall l, (forall c, In c l -> In c FIXED_COLUMNS) ->
     filter (fun col => negb (has_column
               (renamed_merge (map frame_of (filter accepted ups))) col)) l = []).
  { induction l as [|c l IH]; intros S; [reflexivity|]. cbn [filter].
    rewrite (collected_frames_have_targets ups c N) by (apply S; now left).
    cbn [negb]. apply IH. intros; apply S; now right. }
  apply G. auto.
Qed.

(** ** The outcomes of a run *)

Section Outcomes.
Context `{PandasText}.

Lemma select_and_process_Raised (r : nat) (w w' : World) :
  select_and_process r w = Raised w' ->
  messages w' = messages w /\ session w' = session w /\
  exists extra, heap w' = heap w ++ extra.
Proof.
  unfold select_and_process.
  destruct (getitem_list (deref w r) FIXED_COLUMNS) as [sel|].
  2:{ intros E. injection E as <-. repeat split. exists []. now rewrite app_nil_r. }
  unfold alloc.
  assert (ST : forall m x y,
             store (length (heap w)) y {| heap := heap w ++ [x]; session := session w;
                                          messages := m |} =
             {| heap := heap w ++ [y]; session := session w; messages := m |}).
  { intros m x y. unfold store. simpl. now rewrite set_nth_last. }
  destruct (getitem _ MITROO_COLUMN) as [mitroo|].
  2:{ intros E. injection E as <-. repeat split. now exists [sel]. }
  destruct (setitem _ MITROO_COLUMN _) as [df1|].
  2:{ intros E. injection E as <-. repeat split. now exists [sel]. }
  rewrite !ST.
  destruct (getitem _ GRADE_COLUMN) as [grade|].
  2:{ intros E. injection E as <-. repeat split. now exists [df1]. }
  destruct (setitem _ GRADE_COLUMN _) as [df2|]; [discriminate|].
  intros E. injection E as <-. repeat split. now exists [df1].
Qed.

(** A run that starts ends in one of four ways: stopped after a file
    error, nothing extracted, processed, or aborted by an exception after
    the merge. *)
Lemma run_outcomes (ups : list UploadedFile) (w : World) :
  ups <> [] -> processed_df (session w) = None ->
  (existsb unreadable ups = true /\
   process_uploads ups w =
     {| heap := heap w;
        session := {| combined_df := None; processed_df := None |};
        messages := messages w ++ flat_map file_messages ups ++ [ErrorStopped] |}) \/
  (existsb unreadable ups = false /\ filter accepted ups = [] /\
   process_uploads ups w =
     {| heap := heap w;
        session := {| combined_df := None; processed_df := None |};
        messages := messages w ++ flat_map file_messages ups ++ [WarnNoDataExtracted] |}) \/
  (existsb unreadable ups = false /\ filter accepted ups <> [] /\
   exists processed,
   process_uploads ups w =
     {| heap := heap w ++ [renamed_merge (map frame_of (filter accepted ups)); processed];
        session := {| combined_df := Some (length (heap w));
                      processed_df := Some (S (length (heap w))) |};
        messages := messages w ++ flat_map file_messages ups ++
                    [SuccessMerged; SuccessRenamed; SuccessProcessed] |}) \/
  (existsb unreadable ups = false /\ filter accepted ups <> [] /\
   exists garbage,
   process_uploads ups w =
     {| heap := heap w ++ renamed_merge (map frame_of (filter accepted ups)) :: garbage;
        session := {| combined_df := None; processed_df := None |};
        messages := messages w ++ flat_map file_messages ups ++
                    [SuccessMerged; SuccessRenamed; ErrorUnexpected] |}).
Proof.
  intros N P. rewrite process_uploads_spec by assumption.
  remember (add_messages (messages w ++ flat_map file_messages ups)
              {| heap := heap w;
                 session := {| combined_df := None; processed_df := None |};
                 messages := [] |}) as wb eqn:WB.
  assert (HB : heap wb = heap w) by now subst wb.
  assert (MB : messages wb = messages w ++ flat_map file_messages ups).
  { subst wb. unfold add_messages. cbn [messages]. apply app_nil_r. }
  assert (SB : session wb = {| combined_df := None; processed_df := None |})
    by now subst wb.
  clear WB.
  destruct (existsb unreadable ups) eqn:U.
  { left. split; [reflexivity|]. unfold merge_and_process.
    cbn [dataframes error_occurred].
    destruct (map frame_of (filter accepted ups)); unfold finish, set_processed, say;
      cbn [heap session messages combined_df]; rewrite HB, MB, SB, <- app_assoc;
      reflexivity. }
  right. destruct (filter accepted ups) as [|f fs] eqn:F.
  { left. split; [reflexivity|]. split; [reflexivity|].
    unfold merge_and_process. cbn [dataframes error_occurred map].
    unfold finish, set_processed, set_combined, say.
    cbn [heap session messages combined_df]. rewrite HB, MB, <- app_assoc. reflexivity. }
  right.
  assert (NE : filter accepted ups <> []) by (rewrite F; discriminate).
  rewrite <- F.
  rewrite merge_and_process_merged;
    [|cbn [dataframes]; rewrite F; discriminate|reflexivity].
  cbn [dataframes]. rewrite (no_missing_columns ups NE).
  match goal with
  | |- context [select_and_process ?r ?mw] =>
      destruct (select_and_process r mw) as [w'|w'] eqn:Q
  end.
  - left. split; [reflexivity|]. split; [exact NE|].
    apply select_and_process_Done in Q
      as (sel & mitroo & df1 & grade & df2 & _ & _ & _ & _ & _ & ->).
    exists df2. unfold finish, merged_world. cbn [heap session messages combined_df dataframes].
    rewrite HB, MB, length_app, <- !app_assoc. cbn [length app].
    f_equal. f_equal. f_equal. lia.
  - right. split; [reflexivity|]. split; [exact NE|].
    apply select_and_process_Raised in Q as (M & S & [extra E]).
    exists extra. unfold finish, set_processed, set_combined, say.
    cbn [heap session messages combined_df].
    rewrite E, M. unfold merged_world. cbn [heap messages dataframes].
    rewrite HB, MB, <- !app_assoc. reflexivity.
Qed.

End Outcomes.

Section RunProperties.
Context `{PandasText}.

Lemma file_messages_kinds (ups : list UploadedFile) (m : message) :
  In m (flat_map file_messages ups) ->
  exists f, In f ups /\
    (m = StatusReading (name f) \/ m = WarnMissingOriginal (name f) \/
     m = WarnNoDataInFile (name f) \/ m = ErrorProcessingFile (name f)).
Proof.
  intros I. apply in_flat_map in I as [f [F I]]. exists f. split; [exact F|].
  unfold file_messages in I. destruct I as [<-|I]; [tauto|].
  destruct (read_excel f) as [df|].
  - destruct (negb _); [destruct I as [<-|[]]; tauto|].
    destruct (negb _); [destruct I|destruct I as [<-|[]]; tauto].
  - destruct I as [<-|[]]; tauto.
Qed.

(** X1: a run keeps the session consistent and only adds to the store and
    to the messages: frames of earlier runs are never changed. *)
Theorem run_keeps_session_consistent (ups : list UploadedFile) (w : World) :
  session_consistent w ->
  session_consistent (process_uploads ups w) /\
  (exists frames, heap (process_uploads ups w) = heap w ++ frames) /\
  (exists new, messages (process_uploads ups w) = messages w ++ new).
Proof.
  intros C.
  destruct (processed_df (session w)) as [p|] eqn:P.
  { assert (E : process_uploads ups w = w).
    { unfold process_uploads. rewrite P. now destruct ups. }
    rewrite E. split; [exact C|]. split; exists []; now rewrite app_nil_r. }
  destruct ups as [|f ups'].
  { simpl. split; [exact C|]. split; exists []; now rewrite app_nil_r. }
  destruct (run_outcomes (f :: ups') w) as [[_ E]|[(_ & _ & E)|[(_ & _ & x & E)|(_ & _ & x & E)]]];
    try discriminate; try assumption; rewrite E; unfold session_consistent;
    cbn [heap session messages processed_df combined_df].
  - split; [exact I|]. split; [exists []; now rewrite app_nil_r|eexists; reflexivity].
  - split; [exact I|]. split; [exists []; now rewrite app_nil_r|eexists; reflexivity].
  - split.
    + exists (length (heap w)). rewrite length_app. simpl. repeat split; lia.
    + split; eexists; reflexivity.
  - split; [exact I|]. split; eexists; reflexivity.
Qed.

(** X2: when every file is read but none is accepted, each file has its
    warning, the run ends with the no-data warning, creates no frame and
    leaves both session entries empty. *)
Theorem no_usable_file_outcome (ups : list UploadedFile) (w : World) :
  ups <> [] -> processed_df (session w) = None ->
  existsb unreadable ups = false -> existsb accepted ups = false ->
  process_uploads ups w =
    {| heap := heap w;
       session := {| combined_df := None; processed_df := None |};
       messages := messages w ++ flat_map file_messages ups ++ [WarnNoDataExtracted] |} /\
  (forall f, In f ups ->
     In (WarnMissingOriginal (name f)) (flat_map file_messages ups) \/
     In (WarnNoDataInFile (name f)) (flat_map file_messages ups)).
Proof.
  intros N P U A.
  assert (F : filter accepted ups = []).
  { destruct (filter accepted ups) as [|f fs] eqn:F; [reflexivity|].
    assert (I : In f (filter accepted ups)) by (rewrite F; now left).
    apply filter_In in I as [I1 I2].
    assert (X : existsb accepted ups = true) by (apply existsb_exists; eauto).
    congruence. }
  split.
  - destruct (run_outcomes ups w N P)
      as [[E _]|[(_ & _ & E)|[(_ & E & _)|(_ & E & _)]]]; try congruence.
  - intros f I.
    assert (Af : accepted f = false).
    { destruct (accepted f) eqn:Af; [|reflexivity].
      assert (X : existsb accepted ups = true) by (apply existsb_exists; eauto).
      congruence. }
    assert (Uf : unreadable f = false).
    { destruct (unreadable f) eqn:Uf; [|reflexivity].
      assert (X : existsb unreadable ups = true) by (apply existsb_exists; eauto).
      congruence. }
    unfold accepted in Af.
    destruct (read_excel f) as [df|] eqn:R.
    2:{ apply read_excel_unreadable in R. congruence. }
    destruct (forallb (has_column df) required_original_cols) eqn:Q.
    + right. apply in_flat_map. exists f. split; [exact I|].
      unfold file_messages. rewrite R, Q. simpl in Af. rewrite Af. right. now left.
    + left. apply in_flat_map. exists f. split; [exact I|].
      unfold file_messages. rewrite R, Q. right. now left.
Qed.

(** X3: the missing-column error of lines 151-155 is never reported by a
    run: every frame that reaches the merge has the four original columns,
    so the renamed merged table has the four target columns. *)
Theorem missing_columns_never_reported (ups : list UploadedFile) (w : World) :
  exists new,
    messages (process_uploads ups w) = messages w ++ new /\
    forall missing, ~ In (ErrorMissingColumns missing) new.
Proof.
  destruct (processed_df (session w)) as [p|] eqn:P.
  { exists []. unfold process_uploads. rewrite P, app_nil_r.
    split; [now destruct ups|]. intros m []. }
  destruct ups as [|f ups'].
  { exists []. simpl. rewrite app_nil_r. split; [reflexivity|]. intros m []. }
  assert (K : forall tail missing,
             (forall m, In m tail -> m <> ErrorMissingColumns missing) ->
             ~ In (ErrorMissingColumns missing)
                  (flat_map file_messages (f :: ups') ++ tail)).
  { intros tail missing T I. apply in_app_iff in I as [I|I].
    - apply file_messages_kinds in I as [g [_ [E|[E|[E|E]]]]]; discriminate.
    - now apply (T _ I). }
  destruct (run_outcomes (f :: ups') w) as [[_ E]|[(_ & _ & E)|[(_ & _ & x & E)|(_ & _ & x & E)]]];
    try discriminate; try assumption; rewrite E; cbn [messages];
    eexists; (split; [reflexivity|]); intros missing; apply K;
    intros m I; simpl in I; intuition (subst; discriminate).
Qed.

End RunProperties.

Lemma run_keeps_session_consistent_witness :
  session_consistent (process_uploads [file_a; file_b] fresh).
Proof.
  exact (proj1 (run_keeps_session_consistent [file_a; file_b] fresh I)).
Defined.

Lemma no_usable_file_outcome_witness :
  session (process_uploads [file_without_grade] fresh) =
    {| combined_df := None; processed_df := None |}.
Proof.
  rewrite (proj1 (no_usable_file_outcome [file_without_grade] fresh
                    ltac:(discriminate) eq_refl eq_refl eq_refl)).
  reflexivity.
Defined.

(** ** When a run ends with a processed table *)

Lemma add_columns_NoDup (cols acc : list pystr) :
  NoDup acc -> NoDup (add_columns acc cols).
Proof.
  unfold add_columns. revert acc; induction cols as [|c cols IH]; intros acc N; simpl.
  - exact N.
  - apply IH. destruct (existsb (pystr_eqb c) acc) eqn:E; [exact N|].
    apply NoDup_app; [exact N|repeat constructor; intros []|].
    intros x I [E2|[]]. subst x.
    assert (X : existsb (pystr_eqb c) acc = true).
    { apply existsb_exists. exists c. split; [exact I|apply pystr_eqb_refl]. }
    congruence.
Qed.

Lemma union_columns_NoDup (dfs : list DataFrame) : NoDup (union_columns dfs).
Proof.
  unfold union_columns.
  assert (G : forall acc, NoDup acc ->
            NoDup (fold_left (fun a df => add_columns a (columns df)) dfs acc)).
  { induction dfs as [|d dfs IH]; intros acc N; simpl; [exact N|].
    apply IH. now apply add_columns_NoDup. }
  apply G. constructor.
Qed.

Lemma positions_from_count (i : nat) (c : pystr) (cols : list pystr) :
  NoDup cols ->
  length (positions_from i c cols) = if existsb (pystr_eqb c) cols then 1 else 0.
Proof.
  revert i; induction cols as [|x cols IH]; intros i N; simpl; [reflexivity|].
  apply NoDup_cons_iff in N as [X N'].
  destruct (pystr_eqb c x) eqn:E; simpl.
  - rewrite IH by exact N'. apply pystr_eqb_eq in E. subst x.
    destruct (existsb (pystr_eqb c) cols) eqn:Q; [|reflexivity].
    apply existsb_exists in Q as [y [Y Q]]. apply pystr_eqb_eq in Q. subst y.
    contradiction.
  - now apply IH.
Qed.

Lemma renamed_grade_positions (i : nat) (cols : list pystr) :
  positions_from i GRADE_COLUMN (map (rename_label RENAME_DICT) cols) =
  positions_from i GRADE_COLUMN cols.
Proof.
  revert i; induction cols as [|c cols IH]; intros i; cbn [map positions_from];
    [reflexivity|].
  rewrite !IH.
  assert (E : pystr_eqb GRADE_COLUMN (rename_label RENAME_DICT c) =
              pystr_eqb GRADE_COLUMN c).
  { unfold rename_label, RENAME_DICT, dict_get.
    destruct (pystr_eqb c ORIGINAL_PERIODOS) eqn:E1;
      [apply pystr_eqb_eq in E1; now subst|].
    destruct (pystr_eqb c ORIGINAL_TMIMA) eqn:E2;
      [apply pystr_eqb_eq in E2; now subst|].
    destruct (pystr_eqb c ORIGINAL_MITROO) eqn:E3;
      [apply pystr_eqb_eq in E3; now subst|].
    reflexivity. }
  now rewrite E.
Qed.

Lemma renamed_mitroo_count (i : nat) (cols : list pystr) :
  length (positions_from i MITROO_COLUMN (map (rename_label RENAME_DICT) cols)) =
  length (positions_from i ORIGINAL_MITROO cols) +
  length (positions_from i MITROO_COLUMN cols).
Proof.
  revert i; induction cols as [|c cols IH]; intros i; cbn [map positions_from];
    [reflexivity|].
  assert (E : pystr_eqb MITROO_COLUMN (rename_label RENAME_DICT c) =
              pystr_eqb ORIGINAL_MITROO c || pystr_eqb MITROO_COLUMN c).
  { unfold rename_label, RENAME_DICT, dict_get.
    destruct (pystr_eqb c ORIGINAL_PERIODOS) eqn:E1;
      [apply pystr_eqb_eq in E1; now subst|].
    destruct (pystr_eqb c ORIGINAL_TMIMA) eqn:E2;
      [apply pystr_eqb_eq in E2; now subst|].
    destruct (pystr_eqb c ORIGINAL_MITROO) eqn:E3;
      [apply pystr_eqb_eq in E3; now subst|].
    rewrite (pystr_eqb_sym ORIGINAL_MITROO c), E3. reflexivity. }
  rewrite E.
  destruct (pystr_eqb ORIGINAL_MITROO c) eqn:A; destruct (pystr_eqb MITROO_COLUMN c) eqn:B;
    cbn [orb length]; rewrite IH.
  - apply pystr_eqb_eq in A, B. subst c. discriminate.
  - reflexivity.
  - lia.
  - reflexivity.
Qed.

Section Success.
Context `{PandasText}.

Lemma select_and_process_succeeds (r : nat) (w : World) :
  (forall c, In c FIXED_COLUMNS -> has_column (deref w r) c = true) ->
  length (positions MITROO_COLUMN (columns (deref w r))) = 1 ->
  length (positions GRADE_COLUMN (columns (deref w r))) = 1 ->
  exists w', select_and_process r w = Done w'.
Proof.
  intros A LM LG.
  destruct (getitem_list (deref w r) FIXED_COLUMNS) as [sel|] eqn:S.
  2:{ unfold getitem_list in S.
      assert (F : forallb (has_column (deref w r)) FIXED_COLUMNS = true)
        by (apply forallb_forall; exact A).
      rewrite F in S. discriminate. }
  destruct (fixed_selection _ _ S) as [_ C].
  assert (PM : positions MITROO_COLUMN (columns sel) =
               [length (positions PERIODOS_COLUMN (columns (deref w r))) +
                length (positions TMIMA_COLUMN (columns (deref w r)))]).
  { rewrite C. unfold positions.
    rewrite !positions_from_app, !positions_from_repeat, !repeat_length.
    change (pystr_eqb MITROO_COLUMN PERIODOS_COLUMN) with false.
    change (pystr_eqb MITROO_COLUMN TMIMA_COLUMN) with false.
    change (pystr_eqb MITROO_COLUMN GRADE_COLUMN) with false.
    change (pystr_eqb MITROO_COLUMN MITROO_COLUMN) with true.
    fold (positions MITROO_COLUMN (columns (deref w r))). rewrite LM. simpl.
    reflexivity. }
  assert (PG : positions GRADE_COLUMN (columns sel) =
               [length (positions PERIODOS_COLUMN (columns (deref w r))) +
                length (positions TMIMA_COLUMN (columns (deref w r))) +
                length (positions MITROO_COLUMN (columns (deref w r)))]).
  { rewrite C. unfold positions.
    rewrite !positions_from_app, !positions_from_repeat, !repeat_length.
    change (pystr_eqb GRADE_COLUMN PERIODOS_COLUMN) with false.
    change (pystr_eqb GRADE_COLUMN TMIMA_COLUMN) with false.
    change (pystr_eqb GRADE_COLUMN MITROO_COLUMN) with false.
    change (pystr_eqb GRADE_COLUMN GRADE_COLUMN) with true.
    fold (positions GRADE_COLUMN (columns (deref w r))). rewrite LG. simpl.
    reflexivity. }
  unfold select_and_process. rewrite S. unfold alloc.
  assert (D : forall m x, deref {| heap := heap w ++ [x]; session := session w;
                                   messages := m |} (length (heap w)) = x).
  { intros m x. unfold deref. simpl. apply nth_middle. }
  assert (ST : forall m x y,
             store (length (heap w)) y {| heap := heap w ++ [x]; session := session w;
                                          messages := m |} =
             {| heap := heap w ++ [y]; session := session w; messages := m |}).
  { intros m x y. unfold store. simpl. now rewrite set_nth_last. }
  rewrite D. unfold getitem at 1, setitem at 1. rewrite PM. rewrite !ST, D.
  unfold getitem, setitem. cbn [columns]. rewrite PG. eexists. reflexivity.
Qed.

End Success.

Section SuccessCondition.
Context `{PandasText}.

Lemma run_after_merge (ups : list UploadedFile) (w : World) :
  processed_df (session w) = None ->
  existsb unreadable ups = false -> filter accepted ups <> [] ->
  process_uploads ups w =
  finish (select_and_process (length (heap w))
            {| heap := heap w ++ [renamed_merge (map frame_of (filter accepted ups))];
               session := {| combined_df := Some (length (heap w));
                             processed_df := None |};
               messages := (messages w ++ flat_map file_messages ups) ++
                           [SuccessMerged; SuccessRenamed] |}).
Proof.
  intros P U N.
  assert (NU : ups <> []) by (intros ->; now apply N).
  rewrite process_uploads_spec by assumption. rewrite U.
  rewrite merge_and_process_merged;
    [|cbn [dataframes]; intros E; apply map_eq_nil in E; contradiction|reflexivity].
  cbn [dataframes]. rewrite (no_missing_columns ups N).
  unfold merged_world, add_messages. cbn [heap session messages processed_df dataframes].
  now rewrite app_nil_r.
Qed.

Lemma merged_grade_once (ups : list UploadedFile) :
  filter accepted ups <> [] ->
  length (positions GRADE_COLUMN
            (columns (renamed_merge (map frame_of (filter accepted ups))))) = 1.
Proof.
  intros N. unfold renamed_merge, rename, positions. cbn [columns].
  rewrite renamed_grade_positions, concat_columns.
  rewrite positions_from_count by apply union_columns_NoDup.
  destruct (filter accepted ups) as [|f fs] eqn:F; [contradiction|].
  assert (A : accepted f = true).
  { assert (J : In f (filter accepted ups)) by (rewrite F; now left).
    now apply filter_In in J. }
  apply accepted_frame in A as [A _]. rewrite forallb_forall in A.
  assert (X : has_column (concat (map frame_of (f :: fs))) GRADE_COLUMN = true).
  { apply (concat_has_column _ (frame_of f)); [now left|].
    apply (A ORIGINAL_GRADE). simpl; tauto. }
  unfold has_column in X. rewrite concat_columns in X. now rewrite X.
Qed.

Lemma merged_mitroo_count (ups : list UploadedFile) :
  filter accepted ups <> [] ->
  length (positions MITROO_COLUMN
            (columns (renamed_merge (map frame_of (filter accepted ups))))) =
  if existsb (pystr_eqb MITROO_COLUMN) (union_columns (map frame_of (filter accepted ups)))
  then 2 else 1.
Proof.
  intros N. unfold renamed_merge, rename, positions. cbn [columns].
  rewrite renamed_mitroo_count, concat_columns.
  rewrite !positions_from_count by apply union_columns_NoDup.
  destruct (filter accepted ups) as [|f fs] eqn:F; [contradiction|].
  assert (A : accepted f = true).
  { assert (J : In f (filter accepted ups)) by (rewrite F; now left).
    now apply filter_In in J. }
  apply accepted_frame in A as [A _]. rewrite forallb_forall in A.
  assert (X : has_column (concat (map frame_of (f :: fs))) ORIGINAL_MITROO = true).
  { apply (concat_has_column _ (frame_of f)); [now left|].
    apply (A ORIGINAL_MITROO). simpl; tauto. }
  unfold has_column in X. rewrite concat_columns in X. rewrite X.
  destruct (existsb (pystr_eqb MITROO_COLUMN) _); reflexivity.
Qed.

Lemma select_and_process_raises (r : nat) (w : World) :
  length (positions MITROO_COLUMN (columns (deref w r))) <> 1 ->
  exists w', select_and_process r w = Raised w'.
Proof.
  intros L. unfold select_and_process.
  destruct (getitem_list (deref w r) FIXED_COLUMNS) as [sel|] eqn:S; [|now eexists].
  unfold alloc.
  assert (D : forall m x, deref {| heap := heap w ++ [x]; session := session w;
                                   messages := m |} (length (heap w)) = x).
  { intros m x. unfold deref. simpl. apply nth_middle. }
  rewrite D.
  destruct (getitem sel MITROO_COLUMN) as [s|] eqn:G; [|now eexists].
  exfalso. apply (selected_mitroo _ _ _ S) in G as [_ G]. unfold getitem in G.
  destruct (positions MITROO_COLUMN (columns (deref w r))) as [|j [|? ?]];
    try discriminate. now apply L.
Qed.

(** X4: a run with accepted files and no read error ends with a processed
    table exactly when no accepted file has a column that is already
    called "Έτος Εγγραφής"; otherwise the two columns of that name make
    the truncation raise after the merge was reported, and the handler
    empties both session entries. *)
Theorem run_succeeds_iff_registry_label_once (ups : list UploadedFile) (w : World) :
  processed_df (session w) = None ->
  existsb unreadable ups = false -> filter accepted ups <> [] ->
  (processed_df (session (process_uploads ups w)) = Some (S (length (heap w))) <->
   forall f, In f ups -> accepted f = true ->
             has_column (frame_of f) MITROO_COLUMN = false) /\
  (processed_df (session (process_uploads ups w)) = Some (S (length (heap w))) \/
   (session (process_uploads ups w) = {| combined_df := None; processed_df := None |} /\
    exists before,
      messages (process_uploads ups w) =
      before ++ [SuccessMerged; SuccessRenamed; ErrorUnexpected])).
Proof.
  intros P U N. rewrite (run_after_merge ups w P U N).
  set (W := {| heap := heap w ++ [renamed_merge (map frame_of (filter accepted ups))];
               session := {| combined_df := Some (length (heap w));
                             processed_df := None |};
               messages := (messages w ++ flat_map file_messages ups) ++
                           [SuccessMerged; SuccessRenamed] |}).
  assert (DW : deref W (length (heap w)) =
               renamed_merge (map frame_of (filter accepted ups))).
  { unfold deref, W. cbn [heap]. apply nth_middle. }
  assert (EX : existsb (pystr_eqb MITROO_COLUMN)
                 (union_columns (map frame_of (filter accepted ups))) = false <->
               forall f, In f ups -> accepted f = true ->
                         has_column (frame_of f) MITROO_COLUMN = false).
  { split.
    - intros E f I A. destruct (has_column (frame_of f) MITROO_COLUMN) eqn:C;
        [|reflexivity].
      assert (X : has_column (concat (map frame_of (filter accepted ups)))
                             MITROO_COLUMN = true).
      { apply (concat_has_column _ (frame_of f)); [|exact C].
        apply in_map. apply filter_In. auto. }
      unfold has_column in X. rewrite concat_columns in X. congruence.
    - intros A.
      destruct (existsb (pystr_eqb MITROO_COLUMN)
                  (union_columns (map frame_of (filter accepted ups)))) eqn:E;
        [|reflexivity].
      apply existsb_exists in E as [y [I E]]. apply pystr_eqb_eq in E. subst y.
      apply union_columns_In in I as [df [I C]].
      apply in_map_iff in I as [f [<- I]]. apply filter_In in I as [I1 I2].
      apply has_column_In in C. rewrite (A f I1 I2) in C. discriminate. }
  pose proof (merged_mitroo_count ups N) as CM.
  destruct (existsb (pystr_eqb MITROO_COLUMN)
              (union_columns (map frame_of (filter accepted ups)))) eqn:E.
  - destruct (select_and_process_raises (length (heap w)) W) as [w' R].
    { rewrite DW, CM. discriminate. }
    rewrite R. cbn [finish session set_processed set_combined processed_df].
    split.
    + split; [discriminate|]. intros A. apply EX in A. discriminate.
    + right. split; [reflexivity|].
      apply select_and_process_Raised in R as (M & _ & _).
      unfold say. cbn [messages]. rewrite M. unfold W. cbn [messages].
      exists (messages w ++ flat_map file_messages ups).
      now rewrite <- !app_assoc.
  - destruct (select_and_process_succeeds (length (heap w)) W) as [w' D].
    { intros c I. rewrite DW. now apply collected_frames_have_targets. }
    { now rewrite DW, CM. }
    { rewrite DW. now apply merged_grade_once. }
    rewrite D. cbn [finish].
    apply select_and_process_Done in D
      as (sel & mitroo & df1 & grade & df2 & _ & _ & _ & _ & _ & ->).
    cbn [session processed_df]. unfold W. cbn [heap]. rewrite length_app. simpl.
    replace (length (heap w) + 1) with (S (length (heap w))) by lia.
    split; [|now left]. split; [intros _; now apply EX|reflexivity].
Qed.

End SuccessCondition.

Lemma run_succeeds_iff_registry_label_once_witness :
  processed_df (session (process_uploads [file_a; file_b] fresh)) = Some 1.
Proof.
  apply (proj1 (run_succeeds_iff_registry_label_once [file_a; file_b] fresh
                  eq_refl eq_refl ltac:(discriminate))).
  intros f [<-|[<-|[]]] _; reflexivity.
Defined.

(** A workbook with a column already called "Έτος Εγγραφής" is merged and
    then aborts the run. *)
Example registry_label_clash_aborts :
  session (process_uploads [file_a; mitroo_clash_file] fresh) =
    {| combined_df := None; processed_df := None |} /\
  messages (process_uploads [file_a; mitroo_clash_file] fresh) =
    [StatusReading (txt "a.xlsx"); StatusReading (txt "e.xlsx");
     SuccessMerged; SuccessRenamed; ErrorUnexpected].
Proof. split; reflexivity. Qed.

(** ** What the shape of a sheet decides *)

Lemma header_labels_In (i : nat) (hdr : list cell) (c : pystr) :
  In (CText c) hdr -> In c (header_labels i hdr).
Proof.
  revert i; induction hdr as [|x hdr IH]; intros i; simpl; [tauto|].
  intros [->|I]; [now left|right; now apply IH].
Qed.

Lemma read_excel_frame (f : UploadedFile) (r0 hdr : list cell) (recs : list (list cell)) :
  sheet f = Some (r0 :: hdr :: recs) ->
  exists df, read_excel f = Some df /\ columns df = header_labels 0 hdr /\
             length (rows df) = length recs.
Proof.
  intros S. unfold read_excel. rewrite S. simpl. eexists. split; [reflexivity|].
  split; [reflexivity|]. simpl. now rewrite !length_map.
Qed.

(** X5: a sheet of at most one row has no header after the first row is
    skipped, so the file is skipped for missing columns (not reported as
    empty); a sheet with the four labels in its second row and nothing
    below is reported as having no data; with records below it is accepted
    without a message.  None of the three sets the error flag. *)
Theorem sheet_shape_decides_file (f : UploadedFile) (rs : list (list cell)) :
  sheet f = Some rs ->
  unreadable f = false /\
  (length rs <= 1 ->
   accepted f = false /\
   file_messages f = [StatusReading (name f); WarnMissingOriginal (name f)]) /\
  (forall r0 hdr recs,
     rs = r0 :: hdr :: recs ->
     (forall c, In c required_original_cols -> In (CText c) hdr) ->
     (recs = [] ->
      accepted f = false /\
      file_messages f = [StatusReading (name f); WarnNoDataInFile (name f)]) /\
     (recs <> [] ->
      accepted f = true /\ file_messages f = [StatusReading (name f)] /\
      length (rows (frame_of f)) = length recs)).
Proof.
  intros S. split; [unfold unreadable; now rewrite S|]. split.
  - intros L. unfold accepted, file_messages, read_excel. rewrite S.
    destruct rs as [|r0 [|hdr recs]]; simpl in *; try lia; split; reflexivity.
  - intros r0 hdr recs -> Hd.
    destruct (read_excel_frame f r0 hdr recs S) as (df & R & C & L).
    assert (Q : forallb (has_column df) required_original_cols = true).
    { apply forallb_forall. intros c I. apply has_column_In. rewrite C.
      apply header_labels_In. now apply Hd. }
    assert (NC : (length (columns df) =? 0) = false).
    { apply Nat.eqb_neq. intros Z. apply length_zero_iff_nil in Z.
      pose proof (proj1 (forallb_forall _ _) Q ORIGINAL_GRADE) as X.
      rewrite has_column_In, Z in X. apply X. simpl; tauto. }
    unfold accepted, file_messages, frame_of. rewrite R, Q. unfold df_empty.
    rewrite NC, L. cbn [negb orb andb]. split.
    + intros ->. split; reflexivity.
    + intros N. destruct recs; [contradiction|]. repeat split.
Qed.

Lemma sheet_shape_decides_file_witness :
  accepted header_only_file = false /\
  file_messages header_only_file =
    [StatusReading (txt "f.xlsx"); WarnNoDataInFile (txt "f.xlsx")].
Proof.
  pose proof (sheet_shape_decides_file header_only_file _ eq_refl) as W.
  apply (proj1 (proj2 (proj2 W) [T "Report F"] header4 [] eq_refl
                  ltac:(intros c I; apply in_map; exact I))).
  reflexivity.
Defined.

(** ** Selections *)

(** X6: the two nested loops of a checkbox grid (four slots per row,
    [ceil(n / 4)] rows) offer every option exactly once and in order: the
    selection is the list of the ticked options. *)
Theorem selection_is_ticked_options (options : list cell) (ticked : cell -> bool) :
  checkbox_grid options ticked = filter ticked options /\
  (forall p, In p (checkbox_grid options ticked) <-> In p options /\ ticked p = true) /\
  length (checkbox_grid options ticked) <= length options.
Proof.
  rewrite checkbox_grid_filter. split; [reflexivity|]. split.
  - intros p. apply filter_In.
  - apply filter_length_le.
Qed.

Lemma filter_none {A : Type} (f : A -> bool) (l : list A) :
  (forall x, In x l -> f x = false) -> filter f l = [].
Proof.
  induction l as [|x l IH]; simpl; intros T; [reflexivity|].
  rewrite (T x (or_introl eq_refl)). apply IH. intros; apply T; now right.
Qed.

(** X7: with no period ticked the page waits for a selection: no filter,
    no aggregation, no error; with periods chosen and no course ticked the
    second step waits in the same way. *)
Theorem no_selection_awaits (processed : DataFrame) (periodos_options : list cell)
  (ticked_p ticked_t : cell -> bool) :
  options_of processed PERIODOS_COLUMN = Some periodos_options ->
  (forall p, In p periodos_options -> ticked_p p = false) ->
  analyse processed ticked_p ticked_t = Some AwaitingPeriodoi /\
  (forall df tmima_options,
     options_of df TMIMA_COLUMN = Some tmima_options ->
     (forall t, In t tmima_options -> ticked_t t = false) ->
     analyse_tmimata df ticked_t = Some AwaitingTmimata).
Proof.
  intros O N. split.
  - unfold analyse. rewrite O, checkbox_grid_filter, filter_none by exact N.
    reflexivity.
  - intros df topts OT NT. unfold analyse_tmimata.
    rewrite OT, checkbox_grid_filter, filter_none by exact NT. reflexivity.
Qed.

Lemma no_selection_awaits_witness :
  analyse example_table (fun _ => false) (fun _ => true) = Some AwaitingPeriodoi.
Proof.
  exact (proj1 (no_selection_awaits example_table [T "2023A"; T "2023B"]
                  (fun _ => false) (fun _ => true) eq_refl (fun _ _ => eq_refl))).
Defined.

Lemma mask_rows_nonempty (mask : list bool) (rs : list (list cell)) :
  length mask = length rs -> In true mask -> mask_rows mask rs <> [].
Proof.
  revert rs; induction mask as [|b mask IH]; intros [|r rs] L I; simpl in *;
    try discriminate; try contradiction.
  destruct b; [discriminate|]. destruct I as [I|I]; [discriminate|].
  apply IH; [lia|exact I].
Qed.

(** A selection made from the options of a column keeps a row. *)
Lemma selection_keeps_a_row (df : DataFrame) (col : pystr) (opts : list cell)
  (ticked : cell -> bool) :
  options_of df col = Some opts ->
  is_nil (checkbox_grid opts ticked) = false ->
  exists df', filter_isin df col (checkbox_grid opts ticked) = Some df' /\
              df_empty df' = false.
Proof.
  unfold options_of, filter_isin. intros O N.
  destruct (getitem df col) as [s|] eqn:G; [|discriminate].
  eexists. split; [reflexivity|]. unfold df_empty. cbn [columns rows].
  assert (C : (length (columns df) =? 0) = false).
  { unfold getitem in G. destruct (columns df); [discriminate|reflexivity]. }
  rewrite C. cbn [orb]. apply Nat.eqb_neq. intros Z. apply length_zero_iff_nil in Z.
  revert Z. apply mask_rows_nonempty.
  - unfold isin. rewrite length_map. now apply getitem_length in G.
  - rewrite checkbox_grid_filter in *.
    destruct (filter ticked opts) as [|p ps] eqn:F; [discriminate|].
    assert (I : In p (filter ticked opts)) by (rewrite F; now left).
    apply filter_In in I as [I _].
    eapply Permutation_in in I; [|apply Permutation_sym, sorted_Permutation; exact O].
    apply unique_In in I. unfold isin. apply in_map_iff. exists p. split; [|exact I].
    simpl. now rewrite py_eqb_refl.
Qed.

(** X8: the two "no data" notices (lines 306 and 311) are never shown: a
    selection is made of values that occur in the table it filters, so the
    filtered table always has a row. *)
Theorem no_data_notices_never_shown (processed : DataFrame)
  (ticked_p ticked_t : cell -> bool) :
  analyse processed ticked_p ticked_t <> Some NoDataForPeriodoi /\
  (forall tmima_agg,
     analyse processed ticked_p ticked_t <> Some (SummaryByTmima tmima_agg NoDataForBoth)) /\
  (forall df, analyse_tmimata df ticked_t <> Some NoDataForBoth).
Proof.
  assert (L2 : forall df, analyse_tmimata df ticked_t <> Some NoDataForBoth).
  { intros df. unfold analyse_tmimata.
    destruct (options_of df TMIMA_COLUMN) as [topts|] eqn:O; [|discriminate].
    destruct (is_nil (checkbox_grid topts ticked_t)) eqn:N; [discriminate|].
    destruct (selection_keeps_a_row df TMIMA_COLUMN topts ticked_t O N) as (df' & -> & ->).
    destruct (groupby_agg df' MITROO_COLUMN); discriminate. }
  split; [|split; [|exact L2]].
  - unfold analyse.
    destruct (options_of processed PERIODOS_COLUMN) as [opts|] eqn:O; [|discriminate].
    destruct (is_nil (checkbox_grid opts ticked_p)) eqn:N; [discriminate|].
    destruct (selection_keeps_a_row processed PERIODOS_COLUMN opts ticked_p O N)
      as (df' & -> & ->).
    destruct (groupby_agg df' TMIMA_COLUMN); [|discriminate].
    destruct (analyse_tmimata df' ticked_t); discriminate.
  - intros agg. unfold analyse.
    destruct (options_of processed PERIODOS_COLUMN) as [opts|] eqn:O; [|discriminate].
    destruct (is_nil (checkbox_grid opts ticked_p)) eqn:N; [discriminate|].
    destruct (selection_keeps_a_row processed PERIODOS_COLUMN opts ticked_p O N)
      as (df' & -> & ->).
    destruct (groupby_agg df' TMIMA_COLUMN); [|discriminate].
    destruct (analyse_tmimata df' ticked_t) as [s|] eqn:A; [|discriminate].
    intros E. injection E as _ E. subst s. now apply (L2 df').
Qed.

(** ** Totals and order of a summary *)

Lemma list_sum_map_add {A : Type} (a b : A -> nat) (l : list A) :
  list_sum (map (fun k => a k + b k) l) = list_sum (map a l) + list_sum (map b l).
Proof. induction l as [|x l IH]; simpl; [reflexivity|]. rewrite IH. lia. Qed.

Lemma one_key_matches (c : cell) (keys : list cell) :
  NoDupA key_eq keys ->
  list_sum (map (fun k => if py_eqb c k then 1 else 0) keys) =
  if existsb (py_eqb c) keys then 1 else 0.
Proof.
  induction keys as [|k keys IH]; intros N; simpl; [reflexivity|].
  inversion N as [|? ? X N']; subst. rewrite (IH N').
  destruct (py_eqb c k) eqn:E; simpl; [|reflexivity].
  destruct (existsb (py_eqb c) keys) eqn:Q; [|reflexivity].
  exfalso. apply X. apply existsb_py_eqb in Q. apply InA_alt in Q as [y [K Y]].
  apply InA_alt. exists y. split; [|exact Y].
  unfold key_eq in *. rewrite py_eqb_sym in E. eapply py_eqb_trans; eauto.
Qed.

Lemma filter_cons_length {A : Type} (f : A -> bool) (x : A) (l : list A) :
  length (filter f (x :: l)) = (if f x then 1 else 0) + length (filter f l).
Proof. simpl. now destruct (f x). Qed.

Lemma list_sum_zero {A : Type} (l : list A) : list_sum (map (fun _ => 0) l) = 0.
Proof. induction l as [|x l IH]; simpl; [reflexivity|exact IH]. Qed.

(** Summing the group counts over the keys counts every row once. *)
Lemma groups_partition (q : cell * cell -> bool) (keys : list cell)
  (l : list (cell * cell)) :
  NoDupA key_eq keys ->
  list_sum (map (fun k => length (filter (fun r => in_group k r && q r) l)) keys) =
  length (filter (fun r => existsb (py_eqb (fst r)) keys && q r) l).
Proof.
  intros N. induction l as [|r l IH].
  - cbn [filter length]. apply list_sum_zero.
  - rewrite filter_cons_length, <- IH.
    rewrite (map_ext _ (fun k => (if py_eqb (fst r) k then if q r then 1 else 0 else 0)
                                 + length (filter (fun r0 => in_group k r0 && q r0) l))).
    2:{ intros k. rewrite filter_cons_length. unfold in_group at 1.
        destruct (py_eqb (fst r) k); [destruct (q r)|]; reflexivity. }
    rewrite list_sum_map_add. f_equal.
    destruct (q r) eqn:Q.
    + rewrite (one_key_matches (fst r) keys N), andb_true_r. reflexivity.
    + rewrite andb_false_r.
      rewrite (map_ext _ (fun _ => 0)); [apply list_sum_zero|].
      intros k. now destruct (py_eqb (fst r) k).
Qed.

Lemma key_is_a_group_key (ks : list cell) (c : cell) :
  In c ks -> existsb (py_eqb c) (group_keys ks) = negb (is_null c).
Proof.
  intros I. destruct (is_null c) eqn:N; simpl.
  - destruct (existsb (py_eqb c) (group_keys ks)) eqn:E; [|reflexivity].
    apply existsb_exists in E as [k [K E]]. apply group_keys_In in K as [_ K].
    apply py_eqb_is_null in E. congruence.
  - apply existsb_py_eqb. now apply group_keys_covers.
Qed.

Lemma filter_ext_in_length {A : Type} (f g : A -> bool) (l : list A) :
  (forall x, In x l -> f x = g x) -> length (filter f l) = length (filter g l).
Proof.
  induction l as [|x l IH]; simpl; intros E; [reflexivity|].
  rewrite (E x (or_introl eq_refl)).
  destruct (g x); simpl; rewrite IH; auto.
Qed.

Lemma summary_sum (ks tmima grade : list cell) (table : list SummaryRow)
  (count : SummaryRow -> nat) (q : cell * cell -> bool) :
  Forall2 (fun k row => summary_row ks tmima grade k = Some row) (group_keys ks) table ->
  (forall k row, summary_row ks tmima grade k = Some row ->
                 count row = length (filter (fun r => in_group k r && q r)
                                            (combine ks grade))) ->
  list_sum (map count table) =
  length (filter (fun r => negb (is_null (fst r)) && q r) (combine ks grade)).
Proof.
  intros F C.
  rewrite (Forall2_map_eq _ count
             (fun k => length (filter (fun r => in_group k r && q r) (combine ks grade)))
             _ _ F C).
  rewrite groups_partition by apply group_keys_NoDupA.
  apply filter_ext_in_length. intros [c g] I. simpl.
  apply in_combine_l in I. now rewrite key_is_a_group_key.
Qed.

(** X9: the counts of a summary add up: Enrolled sums to the number of
    rows that have a key, Participated to those of them with a grade,
    Passed to those of them with a grade of at least 5; no row is counted
    twice and only rows without key are left out. *)
Theorem summary_totals (df : DataFrame) (by_ : pystr) (ks grade : list cell)
  (table : list SummaryRow) :
  groupby_agg df by_ = Some table ->
  getitem df by_ = Some ks -> getitem df GRADE_COLUMN = Some grade ->
  list_sum (map enrolled table) =
    length (filter (fun r => negb (is_null (fst r))) (combine ks grade)) /\
  list_sum (map participated table) =
    length (filter (fun r => negb (is_null (fst r)) && negb (is_null (snd r)))
                   (combine ks grade)) /\
  list_sum (map passed table) =
    length (filter (fun r => negb (is_null (fst r)) &&
                             (negb (is_null (snd r)) && at_least_5 (snd r)))
                   (combine ks grade)).
Proof.
  intros G K Gr.
  apply groupby_agg_rows in G as (ks' & tmima & grade' & K' & T & Gr' & F).
  rewrite K in K'. rewrite Gr in Gr'. injection K' as <-. injection Gr' as <-.
  assert (L1 : length ks = length tmima).
  { apply getitem_length in K, T. congruence. }
  assert (L2 : length ks = length grade).
  { apply getitem_length in K, Gr. congruence. }
  split; [|split].
  - rewrite (summary_sum ks tmima grade table enrolled (fun _ => true) F).
    + apply filter_ext_in_length. intros r _. now rewrite andb_true_r.
    + intros k row S. apply summary_row_spec in S as (_ & -> & _); [|exact L1|exact L2].
      unfold count_rows. apply filter_ext_in_length. intros r _. now rewrite andb_true_r.
  - apply (summary_sum ks tmima grade table participated
             (fun r => negb (is_null (snd r))) F).
    intros k row S. apply summary_row_spec in S as (_ & _ & -> & _); [|exact L1|exact L2].
    reflexivity.
  - apply (summary_sum ks tmima grade table passed
             (fun r => negb (is_null (snd r)) && at_least_5 (snd r)) F).
    intros k row S. apply summary_row_spec in S as (_ & _ & _ & ->); [|exact L1|exact L2].
    unfold count_rows. apply filter_ext_in_length. intros r _.
    unfold has_passed, took_part. now rewrite andb_assoc.
Qed.

Lemma summary_totals_witness :
  list_sum (map enrolled [mkSummary (T "Math") 2 1 1; mkSummary (T "Phys") 1 1 0]) = 3.
Proof.
  exact (proj1 (summary_totals example_table TMIMA_COLUMN
                  (column_at 1 (rows example_table)) (column_at 3 (rows example_table))
                  [mkSummary (T "Math") 2 1 1; mkSummary (T "Phys") 1 1 0]
                  eq_refl eq_refl eq_refl)).
Defined.

Lemma pystr_ltb_asym (a b : pystr) : pystr_ltb a b = true -> pystr_ltb b a = false.
Proof.
  revert b; induction a as [|x a IH]; intros [|y b]; simpl; try discriminate;
    try reflexivity.
  intros E. apply orb_true_iff in E as [E|E].
  - apply N.ltb_lt in E. apply orb_false_iff. split.
    + apply N.ltb_ge. lia.
    + apply andb_false_iff. left. apply N.eqb_neq. lia.
  - apply andb_true_iff in E as [E1 E2]. apply N.eqb_eq in E1. subst y.
    rewrite N.ltb_irrefl, N.eqb_refl. simpl. now apply IH.
Qed.

Lemma key_leb_total (a b : cell) : key_leb a b = false -> key_leb b a = true.
Proof.
  destruct a, b; simpl; try discriminate; try reflexivity.
  - intros E. apply Qle_bool_iff. destruct (Qle_bool _ _) eqn:Q in E; [discriminate|].
    destruct (Qlt_le_dec (inject_Z z0) (inject_Z z)) as [L|L].
    + now apply Qlt_le_weak.
    + apply Qle_bool_iff in L. congruence.
  - intros E. apply Qle_bool_iff.
    destruct (Qlt_le_dec q (inject_Z z)) as [L|L].
    + now apply Qlt_le_weak.
    + apply Qle_bool_iff in L. congruence.
  - intros E. apply Qle_bool_iff.
    destruct (Qlt_le_dec (inject_Z z) q) as [L|L].
    + now apply Qlt_le_weak.
    + apply Qle_bool_iff in L. congruence.
  - intros E. apply Qle_bool_iff.
    destruct (Qlt_le_dec q0 q) as [L|L].
    + now apply Qlt_le_weak.
    + apply Qle_bool_iff in L. congruence.
  - intros E. apply negb_false_iff in E. apply pystr_ltb_asym in E. now rewrite E.
Qed.

Lemma key_insert_Sorted (x : cell) (l : list cell) :
  Sorted (fun a b => key_leb a b = true) l ->
  Sorted (fun a b => key_leb a b = true) (key_insert x l).
Proof.
  induction l as [|y l IH]; intros S; simpl.
  - repeat constructor.
  - destruct (key_leb x y) eqn:E.
    + constructor; [exact S|]. now constructor.
    + inversion S as [|? ? S' Hd]; subst. constructor; [now apply IH|].
      destruct l as [|z l]; simpl.
      * constructor. now apply key_leb_total.
      * destruct (key_leb x z); constructor.
        -- now apply key_leb_total.
        -- now inversion Hd.
Qed.

Lemma key_sort_Sorted (l : list cell) :
  Sorted (fun a b => key_leb a b = true) (key_sort l).
Proof.
  induction l as [|x l IH]; simpl; [constructor|]. now apply key_insert_Sorted.
Qed.

(** X10: the rows of a summary come in the order of their keys: numbers
    by value before texts by code points. *)
Theorem summary_is_sorted_by_key (df : DataFrame) (by_ : pystr)
  (table : list SummaryRow) :
  groupby_agg df by_ = Some table ->
  Sorted (fun a b => key_leb a b = true) (map key table).
Proof.
  intros G. apply groupby_agg_rows in G as (ks & tmima & grade & K & T & Gr & F).
  rewrite (Forall2_map_eq _ key (fun k => k) _ _ F), map_id.
  - apply key_sort_Sorted.
  - intros k row S. unfold summary_row in S.
    destruct (agg_passed _); [|discriminate]. now injection S as <-.
Qed.

Lemma summary_is_sorted_by_key_witness :
  Sorted (fun a b => key_leb a b = true)
         (map key [mkSummary (T "Math") 2 1 1; mkSummary (T "Phys") 1 1 0]).
Proof.
  exact (summary_is_sorted_by_key example_table TMIMA_COLUMN
           [mkSummary (T "Math") 2 1 1; mkSummary (T "Phys") 1 1 0] eq_refl).
Defined.

(** ** When the options cannot be sorted *)

Lemma py_lt_None (a b : cell) : py_lt a b = None <-> is_text a <> is_text b.
Proof.
  destruct a, b; simpl; split; try discriminate; try congruence;
    try (intros E; exfalso; now apply E);
    destruct (num_val _); try destruct (num_val _); discriminate.
Qed.

Lemma py_insert_Some (x : cell) (l : list cell) :
  (forall y, In y l -> is_text y = is_text x) -> exists s, py_insert x l = Some s.
Proof.
  induction l as [|y l IH]; intros T; simpl; [now eexists|].
  destruct (py_lt y x) as [[|]|] eqn:E.
  - destruct IH as [s ->]; [intros; apply T; now right|]. now eexists.
  - now eexists.
  - apply py_lt_None in E. exfalso. apply E. apply T. now left.
Qed.

Lemma py_insert_kinds (x : cell) (l s : list cell) :
  py_insert x l = Some s ->
  (forall a b, In a l -> In b l -> is_text a = is_text b) ->
  forall y, In y l -> is_text y = is_text x.
Proof.
  destruct l as [|h l]; simpl; [intros _ _ y []|].
  intros E K y I.
  assert (Hx : is_text h = is_text x).
  { destruct (is_text h) eqn:A, (is_text x) eqn:B; try reflexivity; exfalso;
      destruct (py_lt h x) eqn:Q; try discriminate;
      apply (proj2 (py_lt_None h x)) in Q + idtac; try discriminate;
      (assert (X : py_lt h x = None) by (apply py_lt_None; congruence); congruence). }
  rewrite <- Hx. apply K; [exact I|now left].
Qed.

(** [sorted] succeeds exactly on lists whose values are all texts or all
    not texts. *)
Lemma sorted_Some_iff (l : list cell) :
  (exists s, sorted l = Some s) <->
  (forall a b, In a l -> In b l -> is_text a = is_text b).
Proof.
  induction l as [|x l IH]; simpl.
  - split; [intros _ a b []|intros _; now eexists].
  - split.
    + intros [s E]. destruct (sorted l) as [s'|] eqn:S; [|discriminate].
      assert (Kl : forall a b, In a l -> In b l -> is_text a = is_text b).
      { apply IH. now eexists. }
      assert (P : Permutation l s') by now apply sorted_Permutation.
      assert (Ks : forall a b, In a s' -> In b s' -> is_text a = is_text b).
      { intros a b A B. apply Kl; eapply Permutation_in;
          try (apply Permutation_sym; exact P); assumption. }
      pose proof (py_insert_kinds x s' s E Ks) as Kx.
      assert (Kx' : forall y, In y l -> is_text y = is_text x).
      { intros y I. apply Kx. eapply Permutation_in; eauto. }
      intros a b [<-|A] [<-|B]; auto. symmetry. auto.
    + intros K. destruct (proj2 IH) as [s' S].
      { intros a b A B. apply K; now right. }
      rewrite S. apply py_insert_Some. intros y I. apply K; [right|now left].
      eapply Permutation_in; [apply Permutation_sym, sorted_Permutation; exact S|exact I].
Qed.

Lemma unique_from_kinds (seen cs : list cell) (c : cell) :
  In c cs -> ~ InA key_eq c seen ->
  exists c', In c' (unique_from seen cs) /\ is_text c' = is_text c.
Proof.
  revert seen; induction cs as [|x cs IH]; intros seen I NS; [destruct I|].
  simpl. destruct (existsb (py_eqb x) seen) eqn:E.
  - destruct I as [<-|I].
    + exfalso. apply NS. now apply existsb_py_eqb.
    + now apply IH.
  - destruct I as [<-|I]; [exists x; split; [now left|reflexivity]|].
    destruct (py_eqb c x) eqn:Q.
    + exists x. split; [now left|]. destruct c, x; simpl in *; try discriminate;
        reflexivity.
    + destruct (IH (x :: seen) I) as [c' [I' K]].
      * intros X. inversion X; subst; [unfold key_eq in *; congruence|contradiction].
      * exists c'. split; [now right|exact K].
Qed.

(** X11: the options of a column cannot be listed exactly when the lookup
    of the column fails (it is missing or repeated) or the column holds
    both a text and a value that is not a text (a number or a blank), on
    which [sorted] raises its TypeError. *)
Theorem options_fail_iff_mixed (df : DataFrame) (col : pystr) :
  options_of df col = None <->
  getitem df col = None \/
  exists s a b, getitem df col = Some s /\ In a s /\ In b s /\
                is_text a = true /\ is_text b = false.
Proof.
  unfold options_of. destruct (getitem df col) as [s|]; [|tauto].
  split.
  - intros E. right. exists s.
    destruct (sorted (unique s)) as [o|] eqn:S; [discriminate|].
    assert (NK : ~ (forall a b, In a (unique s) -> In b (unique s) ->
                                is_text a = is_text b)).
    { intros K. apply sorted_Some_iff in K as [o K]. congruence. }
    assert (D : exists a b, In a (unique s) /\ In b (unique s) /\
                            is_text a = true /\ is_text b = false).
    { destruct (existsb is_text (unique s)) eqn:A;
        destruct (existsb (fun c => negb (is_text c)) (unique s)) eqn:B.
      - apply existsb_exists in A as [a [A1 A2]]. apply existsb_exists in B as [b [B1 B2]].
        exists a, b. apply negb_true_iff in B2. auto.
      - exfalso. apply NK. intros a b Ia Ib.
        assert (Xa : is_text a = true).
        { destruct (is_text a) eqn:Q; [reflexivity|].
          assert (Z : existsb (fun c => negb (is_text c)) (unique s) = true)
            by (apply existsb_exists; exists a; rewrite Q; auto). congruence. }
        assert (Xb : is_text b = true).
        { destruct (is_text b) eqn:Q; [reflexivity|].
          assert (Z : existsb (fun c => negb (is_text c)) (unique s) = true)
            by (apply existsb_exists; exists b; rewrite Q; auto). congruence. }
        congruence.
      - exfalso. apply NK. intros a b Ia Ib.
        assert (Xa : is_text a = false).
        { destruct (is_text a) eqn:Q; [|reflexivity].
          assert (Z : existsb is_text (unique s) = true)
            by (apply existsb_exists; exists a; auto). congruence. }
        assert (Xb : is_text b = false).
        { destruct (is_text b) eqn:Q; [|reflexivity].
          assert (Z : existsb is_text (unique s) = true)
            by (apply existsb_exists; exists b; auto). congruence. }
        congruence.
      - exfalso. apply NK. intros a b Ia Ib.
        assert (Xa : is_text a = false).
        { destruct (is_text a) eqn:Q; [|reflexivity].
          assert (Z : existsb is_text (unique s) = true)
            by (apply existsb_exists; exists a; auto). congruence. }
        assert (Xb : is_text b = false).
        { destruct (is_text b) eqn:Q; [|reflexivity].
          assert (Z : existsb is_text (unique s) = true)
            by (apply existsb_exists; exists b; auto). congruence. }
        congruence. }
    destruct D as (a & b & Ia & Ib & Ta & Tb).
    exists a, b. split; [reflexivity|]. repeat split; auto using unique_In.
  - intros [E|(s' & a & b & E & Ia & Ib & Ta & Tb)]; [discriminate|].
    injection E as <-.
    destruct (sorted (unique s)) as [o|] eqn:S; [|reflexivity].
    exfalso.
    assert (K : forall x y, In x (unique s) -> In y (unique s) -> is_text x = is_text y).
    { apply sorted_Some_iff. exists o. exact S. }
    destruct (unique_from_kinds [] s a Ia) as [a' [Ia' Ka]]; [intros X; inversion X|].
    destruct (unique_from_kinds [] s b Ib) as [b' [Ib' Kb]]; [intros X; inversion X|].
    specialize (K a' b' Ia' Ib'). congruence.
Qed.

(** ** Filtering *)

Lemma mask_rows_filter (f : cell -> bool) (j : nat) (rs : list (list cell)) :
  mask_rows (map f (column_at j rs)) rs = filter (fun r => f (cell_at j r)) rs.
Proof.
  induction rs as [|r rs IH]; simpl; [reflexivity|].
  rewrite IH. reflexivity.
Qed.

(** X12: filtering by the values of a column keeps exactly the rows whose
    value in that column is among the selected values, in their order and
    unchanged, and keeps the columns; so every kept row is a row of the
    table with a selected value, and filtering again by the same values
    changes nothing. *)
Theorem filter_keeps_selected_rows (df df' : DataFrame) (col : pystr)
  (values : list cell) :
  filter_isin df col values = Some df' ->
  exists j,
    positions col (columns df) = [j] /\
    columns df' = columns df /\
    rows df' = filter (fun r => existsb (py_eqb (cell_at j r)) values) (rows df) /\
    (forall r, In r (rows df') ->
               In r (rows df) /\ existsb (py_eqb (cell_at j r)) values = true) /\
    filter_isin df' col values = Some df'.
Proof.
  unfold filter_isin, getitem.
  destruct (positions col (columns df)) as [|j [|? ?]] eqn:P; try discriminate.
  intros E. injection E as <-. exists j. cbn [columns rows]. unfold isin.
  rewrite mask_rows_filter. split; [reflexivity|]. split; [reflexivity|].
  split; [reflexivity|]. split.
  - intros r I. now apply filter_In in I.
  - rewrite P. rewrite mask_rows_filter. f_equal. f_equal.
    induction (rows df) as [|r rs IH]; simpl; [reflexivity|].
    destruct (existsb (py_eqb (cell_at j r)) values) eqn:E; simpl;
      [rewrite E|]; now rewrite IH.
Qed.

Lemma filter_keeps_selected_rows_witness :
  exists j, positions PERIODOS_COLUMN (columns example_table) = [j].
Proof.
  destruct (filter_keeps_selected_rows example_table _ PERIODOS_COLUMN [T "2023B"] eq_refl)
    as (j & P & _).
  now exists j.
Defined.

(** A column of a filtered table holds values of that column of the table. *)
Lemma filter_isin_getitem (df df' : DataFrame) (col c : pystr) (values s : list cell) :
  filter_isin df col values = Some df' -> getitem df c = Some s ->
  exists s', getitem df' c = Some s' /\ incl s' s.
Proof.
  unfold filter_isin. destruct (getitem df col) as [v|]; [|discriminate].
  intros E. injection E as <-. unfold getitem. cbn [columns rows].
  destruct (positions c (columns df)) as [|j [|? ?]]; try discriminate.
  intros E. injection E as <-. eexists. split; [reflexivity|].
  intros x I. unfold column_at in *. apply in_map_iff in I as [r [<- I]].
  apply in_map. revert I. generalize (isin v values).
  induction (rows df) as [|r0 rs IH]; intros [|b mask]; simpl; try tauto.
  destruct b; simpl; [intros [<-|I]; [now left|right; eauto]|right; eauto].
Qed.

(** ** The two field transforms *)

Section Fields.
Context `{PandasText}.

Lemma to_numeric_cell_fixed (c : cell) : is_text c = false -> to_numeric_cell c = c.
Proof. now destruct c. Qed.

Lemma as_float_idempotent (c : cell) : as_float (as_float c) = as_float c.
Proof. now destruct c. Qed.

(** X13: the numeric coercion never fails and keeps the length of the
    column; a number keeps its value, a text that parses takes the parsed
    value, a blank or any other text becomes NaN, and no text is left. *)
Theorem to_numeric_values (cs : list cell) :
  length (to_numeric cs) = length cs /\
  forallb (fun c => negb (is_text c)) (to_numeric cs) = true /\
  (forall i c, nth_error cs i = Some c ->
     exists c', nth_error (to_numeric cs) i = Some c' /\
       match c with
       | CNull => c' = CNull
       | CInt _ | CFloat _ => py_eqb c' c = true
       | CText s =>
           match parse_number s with
           | Some q => py_eqb c' (CFloat q) = true
           | None => c' = CNull
           end
       end).
Proof.
  split; [apply to_numeric_length|]. split; [apply to_numeric_no_text|].
  intros i c E. unfold to_numeric.
  assert (E' : nth_error (map to_numeric_cell cs) i = Some (to_numeric_cell c))
    by now rewrite nth_error_map, E.
  assert (K : forall c', c' = to_numeric_cell c \/ c' = as_float (to_numeric_cell c) ->
              match c with
              | CNull => c' = CNull
              | CInt _ | CFloat _ => py_eqb c' c = true
              | CText s =>
                  match parse_number s with
                  | Some q => py_eqb c' (CFloat q) = true
                  | None => c' = CNull
                  end
              end).
  { intros c' [-> | ->]; destruct c; simpl; try reflexivity;
      try (apply Qeq_bool_iff; reflexivity);
      try (apply Z.eqb_refl);
      destruct (parse_number s); simpl; try reflexivity;
      apply Qeq_bool_iff; reflexivity. }
  destruct (float_dtype _).
  - exists (as_float (to_numeric_cell c)). split; [now rewrite nth_error_map, E'|].
    apply K. now right.
  - exists (to_numeric_cell c). split; [exact E'|]. apply K. now left.
Qed.

End Fields.

(** ** Processing twice *)

Section Idempotence.
Context `{PandasText}.

Lemma enrollment_prefix_idempotent (c : cell) :
  enrollment_prefix (enrollment_prefix c) = enrollment_prefix c.
Proof.
  unfold enrollment_prefix, slice3. cbn [py_str]. f_equal.
  rewrite firstn_firstn. now rewrite Nat.min_id.
Qed.

Lemma map_fixed {A : Type} (f : A -> A) (l : list A) :
  (forall x, In x l -> f x = x) -> map f l = l.
Proof.
  induction l as [|a l IH]; simpl; intros F; [reflexivity|].
  rewrite F by now left. rewrite IH; [reflexivity|]. intros; apply F; now right.
Qed.

(** X14: the two field transforms are idempotent: taking the prefix of a
    prefix column, or coercing a coerced column, changes nothing. *)
Theorem field_transforms_idempotent (cs : list cell) :
  map enrollment_prefix (map enrollment_prefix cs) = map enrollment_prefix cs /\
  to_numeric (to_numeric cs) = to_numeric cs.
Proof.
  split.
  - rewrite map_map. apply map_ext. apply enrollment_prefix_idempotent.
  - pose proof (to_numeric_no_text cs) as N.
    set (t := to_numeric cs) in *.
    assert (F : map to_numeric_cell t = t).
    { apply map_fixed. intros c I. apply to_numeric_cell_fixed.
      rewrite forallb_forall in N. specialize (N c I). now destruct (is_text c). }
    unfold to_numeric at 1. rewrite F.
    destruct (float_dtype t) eqn:D; [|reflexivity].
    apply map_fixed. intros c I.
    subst t. unfold to_numeric in *.
    destruct (float_dtype (map to_numeric_cell cs)) eqn:D0.
    + apply in_map_iff in I as [c0 [<- _]]. apply as_float_idempotent.
    + unfold float_dtype in D, D0. rewrite N in D, D0. simpl in D, D0.
      destruct c; try reflexivity.
      rewrite existsb_exists in D. destruct D as (x & X1 & X2).
      assert (existsb needs_float (map to_numeric_cell cs) = true)
        by (apply existsb_exists; eauto).
      congruence.
Qed.

End Idempotence.

(** ** What processing does to the merged table *)

Lemma selected_periodos (df sel : DataFrame) (s : list cell) :
  getitem_list df FIXED_COLUMNS = Some sel ->
  getitem df PERIODOS_COLUMN = Some s -> getitem sel PERIODOS_COLUMN = Some s.
Proof.
  intros E. destruct (fixed_selection df sel E) as [S C]. unfold getitem. rewrite C.
  destruct (positions PERIODOS_COLUMN (columns df)) as [|j [|? ?]] eqn:PP;
    try discriminate.
  intros G. injection G as <-.
  unfold positions. rewrite !positions_from_app, !positions_from_repeat.
  change (pystr_eqb PERIODOS_COLUMN PERIODOS_COLUMN) with true.
  change (pystr_eqb PERIODOS_COLUMN TMIMA_COLUMN) with false.
  change (pystr_eqb PERIODOS_COLUMN MITROO_COLUMN) with false.
  change (pystr_eqb PERIODOS_COLUMN GRADE_COLUMN) with false.
  cbn [length seq app]. f_equal.
  rewrite S. unfold take, column_at. cbn [rows]. rewrite map_map.
  apply map_ext. intros r. rewrite cell_at_map; [reflexivity|].
  rewrite !length_app. cbn [length]. lia.
Qed.

Lemma selected_tmima (df sel : DataFrame) (s : list cell) :
  getitem_list df FIXED_COLUMNS = Some sel ->
  getitem df TMIMA_COLUMN = Some s -> getitem sel TMIMA_COLUMN = Some s.
Proof.
  intros E. destruct (fixed_selection df sel E) as [S C]. unfold getitem. rewrite C.
  destruct (positions TMIMA_COLUMN (columns df)) as [|j [|? ?]] eqn:PT;
    try discriminate.
  intros G. injection G as <-.
  unfold positions. rewrite !positions_from_app, !positions_from_repeat, !repeat_length.
  change (pystr_eqb TMIMA_COLUMN PERIODOS_COLUMN) with false.
  change (pystr_eqb TMIMA_COLUMN TMIMA_COLUMN) with true.
  change (pystr_eqb TMIMA_COLUMN MITROO_COLUMN) with false.
  change (pystr_eqb TMIMA_COLUMN GRADE_COLUMN) with false.
  cbn [length seq app]. f_equal.
  rewrite S. unfold take, column_at. cbn [rows]. rewrite map_map.
  apply map_ext. intros r. rewrite cell_at_map.
  - change (positions_from 0 PERIODOS_COLUMN (columns df))
      with (positions PERIODOS_COLUMN (columns df)).
    rewrite app_nth2 by lia.
    replace (0 + length (positions PERIODOS_COLUMN (columns df)) -
             length (positions PERIODOS_COLUMN (columns df))) with 0 by lia.
    reflexivity.
  - change (positions_from 0 PERIODOS_COLUMN (columns df))
      with (positions PERIODOS_COLUMN (columns df)).
    rewrite !length_app. cbn [length]. lia.
Qed.

Lemma setitem_other (df df' : DataFrame) (c c' : pystr) (vals : list cell) :
  setitem df c vals = Some df' -> c' <> c -> getitem df' c' = getitem df c'.
Proof.
  unfold setitem. destruct (positions c (columns df)) as [|j [|? ?]] eqn:P;
    try discriminate.
  intros E N. injection E as <-. unfold getitem. cbn [columns rows].
  destruct (positions c' (columns df)) as [|k [|? ?]] eqn:P'; try reflexivity.
  rewrite column_at_set_column_other; [reflexivity|].
  intros <-. apply positions_singleton_label in P, P'. congruence.
Qed.

Lemma setitem_rows_length (df df' : DataFrame) (c : pystr) (vals : list cell) :
  setitem df c vals = Some df' -> length (rows df') = length (rows df).
Proof.
  unfold setitem. destruct (positions c (columns df)) as [|j [|? ?]]; try discriminate.
  intros E. injection E as <-. apply set_column_length.
Qed.

Section ProcessedTable.
Context `{PandasText}.

(** X15: a successful processing step works on a copy: the merged table it
    reads stays as it is in the store, and the new table has as many rows;
    its registry column is the prefix of every registry number and its
    grade column the coerced grades of the merged table, and a Period or
    Course column that the merged table has once is carried over
    unchanged. *)
Theorem processing_rewrites_two_fields_of_a_copy (r : nat) (w w' : World) :
  select_and_process r w = Done w' ->
  r < length (heap w) /\
  deref w' r = deref w r /\
  length (rows (deref w' (length (heap w)))) = length (rows (deref w r)) /\
  (exists mitroo grade,
     getitem (deref w r) MITROO_COLUMN = Some mitroo /\
     getitem (deref w r) GRADE_COLUMN = Some grade /\
     getitem (deref w' (length (heap w))) MITROO_COLUMN =
       Some (map enrollment_prefix mitroo) /\
     getitem (deref w' (length (heap w))) GRADE_COLUMN = Some (to_numeric grade)) /\
  (forall c s, c = PERIODOS_COLUMN \/ c = TMIMA_COLUMN ->
     getitem (deref w r) c = Some s ->
     getitem (deref w' (length (heap w))) c = Some s).
Proof.
  intros D.
  apply select_and_process_Done in D
    as (sel & mitroo & df1 & grade & df2 & S & M & S1 & G & S2 & ->).
  destruct (processed_columns _ _ _ _ _ _ S M S1 G S2) as (C & DM & DG & OM & OG).
  assert (R : r < length (heap w)).
  { destruct (Nat.lt_ge_cases r (length (heap w))) as [L|L]; [exact L|].
    unfold deref in S. rewrite nth_overflow in S by exact L. discriminate. }
  assert (O : deref {| heap := heap w ++ [df2];
                       session := {| combined_df := combined_df (session w);
                                     processed_df := Some (length (heap w)) |};
                       messages := messages w ++ [SuccessProcessed] |}
                    (length (heap w)) = df2).
  { unfold deref. cbn [heap]. apply nth_middle. }
  rewrite O. split; [exact R|]. split.
  { unfold deref. cbn [heap]. now apply app_nth1. }
  split.
  { apply setitem_rows_length in S1, S2. rewrite S2, S1.
    now apply selected_rows_length. }
  split.
  { exists mitroo, grade. now repeat split. }
  intros c s [-> | ->] E.
  - rewrite (setitem_other _ _ _ PERIODOS_COLUMN _ S2) by discriminate.
    rewrite (setitem_other _ _ _ PERIODOS_COLUMN _ S1) by discriminate.
    now apply (selected_periodos (deref w r)).
  - rewrite (setitem_other _ _ _ TMIMA_COLUMN _ S2) by discriminate.
    rewrite (setitem_other _ _ _ TMIMA_COLUMN _ S1) by discriminate.
    now apply (selected_tmima (deref w r)).
Qed.

End ProcessedTable.

Lemma processing_rewrites_two_fields_of_a_copy_witness :
  getitem (deref (finish (select_and_process 0 renamed_world)) 1) MITROO_COLUMN =
    Some [T "202"; T "202"; T "202"; T "202"].
Proof.
  pose proof (processing_rewrites_two_fields_of_a_copy 0 renamed_world
                (finish (select_and_process 0 renamed_world)) eq_refl) as W.
  destruct W as (_ & _ & _ & (mitroo & grade & M & _ & E & _) & _).
  injection M as <-. exact E.
Defined.

(** ** The summary by cohort *)

Lemma filter_all_length {A : Type} (f : A -> bool) (l : list A) :
  (forall x, In x l -> f x = true) -> length (filter f l) = length l.
Proof.
  induction l as [|a l IH]; simpl; intros F; [reflexivity|].
  rewrite F by now left. simpl. rewrite IH; [reflexivity|]. intros; apply F; now right.
Qed.

Section Cohorts.
Context `{PandasText}.

(** X16: in the summary by cohort no row is lost: whatever periods and
    courses are selected from a processed table, every key of the summary
    is a text of at most 3 characters and the Enrolled counts add up to
    the number of rows left by the two filters (a blank registry number is
    the cohort "nan", not a missing key). *)
Theorem cohort_summary_counts_every_row (r : nat) (w w' : World)
  (selected_periodoi selected_tmimata : list cell)
  (df_filtered_by_periodos df_filtered_by_both : DataFrame)
  (mitroo_agg_filtered : list SummaryRow) :
  select_and_process r w = Done w' ->
  filter_isin (deref w' (length (heap w))) PERIODOS_COLUMN selected_periodoi =
    Some df_filtered_by_periodos ->
  filter_isin df_filtered_by_periodos TMIMA_COLUMN selected_tmimata =
    Some df_filtered_by_both ->
  groupby_agg df_filtered_by_both MITROO_COLUMN = Some mitroo_agg_filtered ->
  list_sum (map enrolled mitroo_agg_filtered) = length (rows df_filtered_by_both) /\
  (forall row, In row mitroo_agg_filtered ->
     exists s, key row = CText s /\ length s <= 3).
Proof.
  intros D F1 F2 G.
  apply select_and_process_Done in D
    as (sel & mitroo & df1 & grade & df2 & S & M & S1 & Gr & S2 & ->).
  destruct (processed_columns _ _ _ _ _ _ S M S1 Gr S2) as (_ & _ & _ & OM & _).
  assert (O : deref {| heap := heap w ++ [df2];
                       session := {| combined_df := combined_df (session w);
                                     processed_df := Some (length (heap w)) |};
                       messages := messages w ++ [SuccessProcessed] |}
                    (length (heap w)) = df2).
  { unfold deref. cbn [heap]. apply nth_middle. }
  rewrite O in F1.
  destruct (filter_isin_getitem _ _ _ _ _ _ F1 OM) as (s1 & E1 & I1).
  destruct (filter_isin_getitem _ _ _ _ _ _ F2 E1) as (ks & K & I2).
  assert (TX : forall k, In k ks -> exists s, k = CText s /\ length s <= 3).
  { intros k I. apply I2, I1 in I. apply in_map_iff in I as [c [<- _]].
    unfold enrollment_prefix, slice3. eexists. split; [reflexivity|].
    rewrite length_firstn. lia. }
  apply groupby_agg_rows in G as (ks' & tmima & grade' & K' & T & G' & F).
  rewrite K in K'. injection K' as <-.
  assert (L1 : length ks = length tmima).
  { apply getitem_length in K, T. congruence. }
  assert (L2 : length ks = length grade').
  { apply getitem_length in K, G'. congruence. }
  split.
  - rewrite (summary_sum ks tmima grade' mitroo_agg_filtered enrolled (fun _ => true) F).
    + rewrite filter_all_length.
      * rewrite length_combine, <- L2, Nat.min_id. now apply getitem_length in K.
      * intros [k g] I. apply in_combine_l in I. destruct (TX k I) as [s [-> _]].
        reflexivity.
    + intros k row R. apply summary_row_spec in R as (_ & -> & _); [|exact L1|exact L2].
      unfold count_rows. apply filter_ext_in_length. intros x _. now rewrite andb_true_r.
  - intros row I. destruct (Forall2_In_r _ _ _ _ F I) as (k & Ik & R).
    apply summary_row_spec in R as (-> & _); [|exact L1|exact L2].
    apply group_keys_In in Ik as [Ik _]. now apply TX.
Qed.

End Cohorts.

Lemma cohort_summary_counts_every_row_witness :
  list_sum (map enrolled [mkSummary (T "202") 3 2 2]) = 3.
Proof.
  refine (proj1 (cohort_summary_counts_every_row 0 renamed_world
                   (finish (select_and_process 0 renamed_world))
                   [T "2023A"] [T "Math"] _ _ [mkSummary (T "202") 3 2 2]
                   eq_refl eq_refl eq_refl eq_refl)).
Defined.

(** ** Renaming *)

Lemma rename_label_idempotent (c : pystr) :
  rename_label RENAME_DICT (rename_label RENAME_DICT c) = rename_label RENAME_DICT c.
Proof.
  set (x := rename_label RENAME_DICT c).
  assert (N : forall o, In o [ORIGINAL_PERIODOS; ORIGINAL_TMIMA; ORIGINAL_MITROO] ->
                        pystr_eqb x o = false).
  { intros o I. destruct (pystr_eqb x o) eqn:E; [|reflexivity].
    apply pystr_eqb_eq in E.
    pose proof (renamed_label_not_original c o I) as R. fold x in R.
    rewrite E, pystr_eqb_refl in R. discriminate. }
  unfold rename_label at 1. unfold RENAME_DICT. cbn [dict_get].
  rewrite !N by (simpl; tauto). reflexivity.
Qed.

Lemma rename_label_target (o c : pystr) :
  In (o, c) RENAME_DICT -> rename_label RENAME_DICT o = c.
Proof.
  intros [E|[E|[E|[]]]]; injection E as <- <-; reflexivity.
Qed.

Lemma dict_get_In (d : list (pystr * pystr)) (k v : pystr) :
  dict_get d k = Some v -> In (k, v) d.
Proof.
  induction d as [|[k' v'] d IH]; simpl; [discriminate|].
  destruct (pystr_eqb k k') eqn:E.
  - intros V. injection V as <-. apply pystr_eqb_eq in E. subst. now left.
  - intros V. right. now apply IH.
Qed.

(** X17: the renaming leaves the rows alone and renaming again changes
    nothing; a name that is not one of the three renamed originals labels
    a column afterwards exactly when it did before or when it is the new
    name of an original that the table had. *)
Theorem rename_is_idempotent (df : DataFrame) :
  rename RENAME_DICT (rename RENAME_DICT df) = rename RENAME_DICT df /\
  rows (rename RENAME_DICT df) = rows df /\
  length (columns (rename RENAME_DICT df)) = length (columns df) /\
  (forall c, dict_get RENAME_DICT c = None ->
     (has_column (rename RENAME_DICT df) c = true <->
      has_column df c = true \/
      exists o, In (o, c) RENAME_DICT /\ has_column df o = true)).
Proof.
  split; [|split; [reflexivity|split]].
  - unfold rename. cbn [columns rows]. f_equal. rewrite map_map.
    apply map_ext. apply rename_label_idempotent.
  - unfold rename. cbn [columns]. apply length_map.
  - intros c D. rewrite !has_column_In. unfold rename. cbn [columns].
    rewrite in_map_iff. split.
    + intros (x & E & I). unfold rename_label in E.
      destruct (dict_get RENAME_DICT x) as [v|] eqn:X.
      * subst v. right. exists x. split; [now apply dict_get_In|].
        now apply has_column_In.
      * subst x. now left.
    + intros [I|(o & M & I)].
      * exists c. split; [|exact I]. unfold rename_label. now rewrite D.
      * exists o. split; [now apply rename_label_target|]. now apply has_column_In.
Qed.

(** ** When the analysis does not raise *)

Lemma py_join_texts (sep : pystr) (items : list cell) :
  (forall c, In c items -> is_text c = true) -> exists s, py_join sep items = Some s.
Proof.
  induction items as [|c items IH]; intros T; [now eexists|].
  destruct c; try (specialize (T _ (or_introl eq_refl)); discriminate).
  cbn [py_join]. destruct items as [|c' items']; [now eexists|].
  destruct IH as [t E]; [intros; apply T; now right|].
  rewrite E. now eexists.
Qed.

Lemma options_of_texts (df : DataFrame) (col : pystr) (s : list cell) :
  getitem df col = Some s -> (forall c, In c s -> is_text c = true) ->
  exists opts, options_of df col = Some opts /\
               forall c, In c opts -> is_text c = true.
Proof.
  intros G T. unfold options_of. rewrite G.
  destruct (proj2 (sorted_Some_iff (unique s))) as [opts E].
  { intros a b A B. apply unique_In in A, B. now rewrite (T a A), (T b B). }
  exists opts. split; [exact E|].
  intros c I. apply sorted_Permutation in E.
  apply Permutation_sym in E. apply (Permutation_in _ E) in I.
  apply unique_In in I. now apply T.
Qed.

Lemma incl_no_text (s s' : list cell) :
  incl s' s -> forallb (fun c => negb (is_text c)) s = true ->
  forallb (fun c => negb (is_text c)) s' = true.
Proof.
  intros I F. apply forallb_forall. intros c J.
  rewrite forallb_forall in F. now apply F, I.
Qed.

(** Step 2 on a table whose Course column holds texts and whose grades are
    numeric. *)
Lemma analyse_tmimata_total (df : DataFrame) (ticked_t : cell -> bool)
  (ts ms gs : list cell) :
  getitem df TMIMA_COLUMN = Some ts -> getitem df MITROO_COLUMN = Some ms ->
  getitem df GRADE_COLUMN = Some gs ->
  (forall c, In c ts -> is_text c = true) ->
  forallb (fun c => negb (is_text c)) gs = true ->
  exists step2, analyse_tmimata df ticked_t = Some step2.
Proof.
  intros Tm M G TX NT. unfold analyse_tmimata.
  destruct (options_of_texts df TMIMA_COLUMN ts Tm TX) as (opts & -> & _).
  destruct (is_nil (checkbox_grid opts ticked_t)); [now eexists|].
  destruct (filter_isin df TMIMA_COLUMN (checkbox_grid opts ticked_t)) as [f2|] eqn:F.
  2:{ unfold filter_isin in F. rewrite Tm in F. discriminate. }
  destruct (df_empty f2); [now eexists|].
  destruct (filter_isin_getitem _ _ _ MITROO_COLUMN _ _ F M) as (ms' & M' & _).
  destruct (filter_isin_getitem _ _ _ TMIMA_COLUMN _ _ F Tm) as (ts' & T' & _).
  destruct (filter_isin_getitem _ _ _ GRADE_COLUMN _ _ F G) as (gs' & G' & IG).
  destruct (groupby_agg_total f2 MITROO_COLUMN ms' ts' gs' M' T' G') as [table ->].
  - now apply (incl_no_text gs).
  - now eexists.
Qed.

Section Analysis.
Context `{PandasText}.

(** X18: the analysis of a processed table whose Period and Course columns
    hold only texts does not raise, whatever is ticked: the options of both
    steps can be sorted, the selected values can be joined for the heading,
    and both summaries are computed, the grades being numbers or NaN after
    the coercion. *)
Theorem analysis_of_text_columns_succeeds (r : nat) (w w' : World)
  (ticked_p ticked_t : cell -> bool) (ps ts : list cell) :
  select_and_process r w = Done w' ->
  getitem (deref w' (length (heap w))) PERIODOS_COLUMN = Some ps ->
  getitem (deref w' (length (heap w))) TMIMA_COLUMN = Some ts ->
  (forall c, In c ps -> is_text c = true) ->
  (forall c, In c ts -> is_text c = true) ->
  (exists res, analyse (deref w' (length (heap w))) ticked_p ticked_t = Some res) /\
  (forall periodos_options df_filtered_by_periodos tmima_options,
     options_of (deref w' (length (heap w))) PERIODOS_COLUMN = Some periodos_options ->
     filter_isin (deref w' (length (heap w))) PERIODOS_COLUMN
                 (checkbox_grid periodos_options ticked_p) = Some df_filtered_by_periodos ->
     options_of df_filtered_by_periodos TMIMA_COLUMN = Some tmima_options ->
     exists headings,
       selection_headings (checkbox_grid periodos_options ticked_p)
                          (checkbox_grid tmima_options ticked_t) = Some headings).
Proof.
  intros D.
  apply select_and_process_Done in D
    as (sel & mitroo & df1 & grade & df2 & S & M & S1 & Gr & S2 & ->).
  destruct (processed_columns _ _ _ _ _ _ S M S1 Gr S2) as (_ & _ & _ & OM & OG).
  assert (O : deref {| heap := heap w ++ [df2];
                       session := {| combined_df := combined_df (session w);
                                     processed_df := Some (length (heap w)) |};
                       messages := messages w ++ [SuccessProcessed] |}
                    (length (heap w)) = df2).
  { unfold deref. cbn [heap]. apply nth_middle. }
  rewrite O. intros P Tm TP TT. split.
  - unfold analyse.
    destruct (options_of_texts df2 PERIODOS_COLUMN ps P TP) as (popts & -> & _).
    destruct (is_nil (checkbox_grid popts ticked_p)); [now eexists|].
    destruct (filter_isin df2 PERIODOS_COLUMN (checkbox_grid popts ticked_p))
      as [f1|] eqn:F.
    2:{ unfold filter_isin in F. rewrite P in F. discriminate. }
    destruct (df_empty f1); [now eexists|].
    destruct (filter_isin_getitem _ _ _ MITROO_COLUMN _ _ F OM) as (ms' & M' & _).
    destruct (filter_isin_getitem _ _ _ TMIMA_COLUMN _ _ F Tm) as (ts' & T' & IT).
    destruct (filter_isin_getitem _ _ _ GRADE_COLUMN _ _ F OG) as (gs' & G' & IG).
    assert (NT : forallb (fun c => negb (is_text c)) gs' = true).
    { apply (incl_no_text (to_numeric grade)); [exact IG|apply to_numeric_no_text]. }
    destruct (groupby_agg_total f1 TMIMA_COLUMN ts' ts' gs' T' T' G' NT) as [table ->].
    destruct (analyse_tmimata_total f1 ticked_t ts' ms' gs' T' M' G') as [step2 ->];
      [intros c I; now apply TT, IT|exact NT|].
    now eexists.
  - intros popts f1 topts OP F OT.
    destruct (options_of_texts df2 PERIODOS_COLUMN ps P TP) as (popts' & OP' & XP).
    rewrite OP in OP'. injection OP' as <-.
    destruct (filter_isin_getitem _ _ _ TMIMA_COLUMN _ _ F Tm) as (ts' & T' & IT).
    destruct (options_of_texts f1 TMIMA_COLUMN ts' T') as (topts' & OT' & XT);
      [intros c I; now apply TT, IT|].
    rewrite OT in OT'. injection OT' as <-.
    unfold selection_headings.
    destruct (py_join_texts (txt ", ") (checkbox_grid popts ticked_p)) as [a ->].
    { intros c I. rewrite checkbox_grid_filter in I. apply filter_In in I as [I _].
      now apply XP. }
    destruct (py_join_texts (txt ", ") (checkbox_grid topts ticked_t)) as [b ->].
    { intros c I. rewrite checkbox_grid_filter in I. apply filter_In in I as [I _].
      now apply XT. }
    now eexists.
Qed.

End Analysis.

Lemma analysis_of_text_columns_succeeds_witness :
  exists res,
    analyse (deref (finish (select_and_process 0 renamed_world)) 1)
            (fun _ => true) (fun _ => true) = Some res.
Proof.
  refine (proj1 (analysis_of_text_columns_succeeds 0 renamed_world
                   (finish (select_and_process 0 renamed_world))
                   (fun _ => true) (fun _ => true) _ _
                   eq_refl eq_refl eq_refl _ _)).
  - intros c [<-|[<-|[<-|[<-|[]]]]]; reflexivity.
  - intros c [<-|[<-|[<-|[<-|[]]]]]; reflexivity.
Defined.
